(** * AI-auto-trading-Bitcoin: the trading loop of [autotrade.py]

    A shallow embedding of the position lifecycle of [autotrade.py]: the two
    SQLite tables, the ledger functions, the closure of a position with its
    profit and loss, the cleaning and decoding of the oracle's answer, the
    sizing of an order and its stop-loss / take-profit bracket, and the body
    of the main loop, followed by the properties of the specification that
    were checked against them.

    Conventions.
    - A Python [float] is a primitive binary64 float ([PrimFloat.float]); the
      arithmetic of the source is the arithmetic of the model, rounding
      included.  A Python [int] is a [Z].
    - A Python [str] is the list of its code points.
    - What the exchange, the oracle and the clock answer during one pass of
      the loop is an input of that pass (record [Env]); what the pass does to
      the outside world is its list of [event]s.
    - A Python exception is an outcome of a computation ([Raise]); the two
      handlers of the loop only tell [json.JSONDecodeError] from the rest. *)

From Stdlib Require Import ZArith NArith QArith Qround Qabs Lqa List Bool Lia String Ascii.
From Stdlib Require Import Floats.
From Stdlib Require Import Sorted.
Import ListNotations.

Set Warnings "-inexact-float,-register-all".

(** ** Python numbers *)

Module PyNum.

(** [float(n)] for an [int] that fits: the nearest binary64, ties to even. *)
Definition Z2float (n : Z) : float :=
  SF2Prim (binary_normalize prec emax n 0 false).

(** The nearest binary64 (ties to even) of the rational [n / d], [n >= 0],
    [d > 0], with sign [neg]: the quotient is taken with 64 bits or more and
    a sticky bit below them, and rounded once. *)
Definition ratio2float (neg : bool) (n d : Z) : float :=
  if (n =? 0)%Z then (if neg then neg_zero else zero)
  else
    let k := Z.max 0 (Z.log2 d - Z.log2 n + 64) in
    let q := (n * 2 ^ k / d)%Z in
    let sticky := if ((n * 2 ^ k) mod d =? 0)%Z then 0%Z else 1%Z in
    let mant := (2 * q + sticky)%Z in
    SF2Prim (binary_normalize prec emax (if neg then - mant else mant)%Z
                              (- k - 1) false).

(** The exact value of a finite float, as a rational. *)
Definition SF2Q (x : spec_float) : option Q :=
  match x with
  | S754_zero _ => Some (0 # 1)
  | S754_finite s m e =>
      let sm := cond_Zopp s (Zpos m) in
      Some (match e with
            | Z0 => sm # 1
            | Zpos p => (sm * 2 ^ Zpos p)%Z # 1
            | Zneg p => sm # (2 ^ p)
            end)
  | S754_infinity _ | S754_nan => None
  end.

Definition float_value (x : float) : option Q := SF2Q (Prim2SF x).

(** [math.ceil(x)]: an [int]; [ValueError] on NaN and [OverflowError] on an
    infinity, both [None] here. *)
Definition math_ceil (x : float) : option Z :=
  option_map Qceiling (float_value x).

(** The integer nearest to [q], ties to the even one. *)
Definition round_half_even (q : Q) : Z :=
  let k := Qfloor q in
  match Qcompare ((q - inject_Z k) * (2 # 1)) (1 # 1) with
  | Lt => k
  | Gt => (k + 1)%Z
  | Eq => if Z.even k then k else (k + 1)%Z
  end.

(** [round(x, 2)] on a float: NaN, the infinities and the zeros are returned
    as they are; a finite [x] is rounded, on its exact value, to the nearest
    multiple of 1/100 (ties to even), and the result is the float nearest to
    that decimal; a result that is zero keeps the sign of [x]. *)
Definition round2 (x : float) : float :=
  match Prim2SF x with
  | S754_finite s _ _ =>
      match float_value x with
      | Some v =>
          let k := round_half_even (v * (100 # 1)) in
          ratio2float s (Z.abs k) 100
      | None => x
      end
  | _ => x
  end.

(** Python's true division of floats: [ZeroDivisionError] on a zero divisor
    (of either sign). *)
Definition fdiv (x y : float) : option float :=
  if (y =? 0)%float then None else Some (x / y)%float.

(** A number as Python holds it: an [int] or a [float]. *)
Inductive pynum : Type :=
| PInt (n : Z)
| PFloat (f : float).

(** Conversion of an [int] to [float]: [OverflowError] when it does not fit. *)
Definition int2float (n : Z) : option float :=
  let f := Z2float n in
  if is_infinity f then None else Some f.

Definition to_float (a : pynum) : option float :=
  match a with
  | PInt n => int2float n
  | PFloat f => Some f
  end.

(** [x * a] for a float [x]: an [int] operand is converted first. *)
Definition fmul (x : float) (a : pynum) : option float :=
  option_map (fun y => (x * y)%float) (to_float a).

(** [1 - a] and [1 + a]: exact on an [int], binary64 on a [float]. *)
Definition one_minus (a : pynum) : pynum :=
  match a with
  | PInt n => PInt (1 - n)
  | PFloat f => PFloat (1 - f)%float
  end.

Definition one_plus (a : pynum) : pynum :=
  match a with
  | PInt n => PInt (1 + n)
  | PFloat f => PFloat (1 + f)%float
  end.

(** SQLite binds a NaN as NULL. *)
Definition nan_to_null (x : float) : option float :=
  if is_nan x then None else Some x.

End PyNum.

(** ** Python strings *)

Module PyStr.

(** A [str] is the list of its code points. *)
Definition str : Type := list N.

(** The [str] of an ASCII literal. *)
Definition of_string (s : string) : str :=
  map N_of_ascii (list_ascii_of_string s).

Fixpoint eqb (a b : str) : bool :=
  match a, b with
  | [], [] => true
  | x :: a', y :: b' => (x =? y)%N && eqb a' b'
  | _, _ => false
  end.

(** The code points [str.strip()] removes (CPython's [Py_UNICODE_ISSPACE]). *)
Definition isspace (c : N) : bool :=
  ((9 <=? c) && (c <=? 13) || (28 <=? c) && (c <=? 32)
   || (c =? 133) || (c =? 160) || (c =? 5760)
   || (8192 <=? c) && (c <=? 8202)
   || (c =? 8232) || (c =? 8233) || (c =? 8239) || (c =? 8287)
   || (c =? 12288))%N.

Fixpoint lstrip (s : str) : str :=
  match s with
  | [] => []
  | c :: s' => if isspace c then lstrip s' else s
  end.

Definition rstrip (s : str) : str := rev (lstrip (rev s)).

(** [s.strip()] *)
Definition strip (s : str) : str := rstrip (lstrip s).

(** [s.startswith(p)] *)
Fixpoint startswith (p s : str) : bool :=
  match p, s with
  | [], _ => true
  | x :: p', y :: s' => (x =? y)%N && startswith p' s'
  | _ :: _, [] => false
  end.

(** [sep in s] *)
Fixpoint contains (sep s : str) : bool :=
  startswith sep s ||
  match s with
  | [] => false
  | _ :: s' => contains sep s'
  end.

(** [s.split("\n", 1)]: the text before the first line feed and, when there
    is one, the text after it. *)
Fixpoint split_nl1 (s : str) : str * option str :=
  match s with
  | [] => ([], None)
  | c :: s' =>
      if (c =? 10)%N then ([], Some s')
      else let (a, b) := split_nl1 s' in (c :: a, b)
  end.

(** The text before the rightmost occurrence of [sep] in [s], if [sep]
    occurs: an occurrence further right is looked for first. *)
Fixpoint rfind_head (sep s : str) : option str :=
  match s with
  | [] => if startswith sep [] then Some [] else None
  | c :: s' =>
      match rfind_head sep s' with
      | Some a => Some (c :: a)
      | None => if startswith sep s then Some [] else None
      end
  end.

(** [s.rsplit(sep, 1)[0]] *)
Definition rsplit1_head (sep s : str) : str :=
  match rfind_head sep s with
  | Some a => a
  | None => s
  end.

(** [s.lower()] on the letters A to Z.  The other code points are left as
    they are: none of them lowers to a letter of ["no_position"], ["long"] or
    ["short"], the only strings the result is compared with. *)
Definition lower (s : str) : str :=
  map (fun c => if ((65 <=? c) && (c <=? 90))%N then (c + 32)%N else c) s.

(** [a < b] on strings, as SQLite orders TEXT: code point by code point. *)
Fixpoint ltb (a b : str) : bool :=
  match a, b with
  | _, [] => false
  | [], _ :: _ => true
  | x :: a', y :: b' => (x <? y)%N || (x =? y)%N && ltb a' b'
  end.

Definition leb (a b : str) : bool := negb (ltb b a).

End PyStr.

Definition str : Type := PyStr.str.

(** The [str] of an ASCII literal, for the constants of the source. *)
Definition py (s : string) : str := PyStr.of_string s.

(** ** [json.loads] *)

Module Json.

(** What [json.loads] returns: [None], [bool], [int], [float], [str], [list]
    and [dict].  A [dict] is kept as the list of its pairs in the order of the
    text; a key that comes again replaces the earlier one ([dict_get]). *)
Inductive json : Type :=
| JNull
| JBool (b : bool)
| JInt (n : Z)
| JFloat (f : float)
| JStr (s : str)
| JArr (l : list json)
| JObj (kv : list (str * json)).

(** The white space of JSON: space, tab, line feed, carriage return. *)
Definition is_ws (c : N) : bool :=
  ((c =? 32) || (c =? 9) || (c =? 10) || (c =? 13))%N.

Fixpoint skip_ws (s : str) : str :=
  match s with
  | [] => []
  | c :: s' => if is_ws c then skip_ws s' else s
  end.

Definition is_digit (c : N) : bool := ((48 <=? c) && (c <=? 57))%N.

(** The digits at the head of [s], most significant first, and the rest. *)
Fixpoint take_digits (s : str) : list N * str :=
  match s with
  | [] => ([], [])
  | c :: s' =>
      if is_digit c then let (ds, r) := take_digits s' in (c :: ds, r)
      else ([], s)
  end.

Definition digits_value (ds : list N) : Z :=
  fold_left (fun acc c => (10 * acc + Z.of_N (c - 48))%Z) ds 0%Z.

Definition hex_value (c : N) : option N :=
  if is_digit c then Some (c - 48)%N
  else if ((97 <=? c) && (c <=? 102))%N then Some (c - 87)%N
  else if ((65 <=? c) && (c <=? 70))%N then Some (c - 55)%N
  else None.

(** Four hexadecimal digits as a number. *)
Definition hex4 (a b c d : N) : option N :=
  match hex_value a, hex_value b, hex_value c, hex_value d with
  | Some x, Some y, Some z, Some w => Some (((x * 16 + y) * 16 + z) * 16 + w)%N
  | _, _, _, _ => None
  end.

(** The character a one-letter escape stands for. *)
Definition simple_escape (c : N) : option N :=
  if (c =? 34)%N then Some 34%N            (* quote *)
  else if (c =? 92)%N then Some 92%N       (* backslash *)
  else if (c =? 47)%N then Some 47%N       (* slash *)
  else if (c =? 98)%N then Some 8%N        (* b: backspace *)
  else if (c =? 102)%N then Some 12%N      (* f: form feed *)
  else if (c =? 110)%N then Some 10%N      (* n: line feed *)
  else if (c =? 114)%N then Some 13%N      (* r: carriage return *)
  else if (c =? 116)%N then Some 9%N       (* t: tab *)
  else None.

Definition is_high_surrogate (c : N) : bool := ((55296 <=? c) && (c <=? 56319))%N.
Definition is_low_surrogate (c : N) : bool := ((56320 <=? c) && (c <=? 57343))%N.

(** The body of a string after its opening quote ([scanstring], strict):
    up to the closing quote.  A control character, a bad escape and a missing
    closing quote are errors.  An escaped high surrogate followed by an
    escaped low surrogate is one code point. *)
Fixpoint scanstring (s : str) (acc : str) : option (str * str) :=
  match s with
  | [] => None
  | c :: s1 =>
      if (c =? 34)%N then Some (rev acc, s1)
      else if (c =? 92)%N then
        match s1 with
        | [] => None
        | e :: s2 =>
            if (e =? 117)%N then
              match s2 with
              | h1 :: h2 :: h3 :: h4 :: r =>
                  match hex4 h1 h2 h3 h4 with
                  | None => None
                  | Some u =>
                      match r with
                      | b :: v :: g1 :: g2 :: g3 :: g4 :: r' =>
                          if is_high_surrogate u && (b =? 92)%N && (v =? 117)%N then
                            match hex4 g1 g2 g3 g4 with
                            | None => None
                            | Some u2 =>
                                if is_low_surrogate u2
                                then scanstring r'
                                       ((65536 + (u - 55296) * 1024 + (u2 - 56320))%N :: acc)
                                else scanstring r (u :: acc)
                            end
                          else scanstring r (u :: acc)
                      | _ => scanstring r (u :: acc)
                      end
                  end
              | _ => None
              end
            else
              match simple_escape e with
              | Some x => scanstring s2 (x :: acc)
              | None => None
              end
        end
      else if (c <=? 31)%N then None
      else scanstring s1 (c :: acc)
  end.

(** The float nearest to [m * 10 ^ e10], [m >= 0] written with [nd] digits. *)
Definition dec2float (neg : bool) (m : Z) (nd : Z) (e10 : Z) : float :=
  if (m =? 0)%Z then (if neg then neg_zero else zero)
  else if (0 <=? e10)%Z then
    if (400 <? e10)%Z then (if neg then neg_infinity else infinity)
    else PyNum.ratio2float neg (m * 10 ^ e10) 1
  else
    if (nd + e10 <? -400)%Z then (if neg then neg_zero else zero)
    else PyNum.ratio2float neg m (10 ^ (- e10)).

(** A number at the head of [s], after its sign was read: an integer part
    without a leading zero, then a fraction when a dot is followed by a
    digit, then an exponent when [e] or [E] is followed, after an optional
    sign, by a digit.  With neither it is an [int], else a [float]. *)
Definition match_number (neg : bool) (s : str) : option (json * str) :=
  let int_part :=
    match s with
    | c :: s' =>
        if (c =? 48)%N then Some ([c], s')
        else if is_digit c then Some (take_digits s)
        else None
    | [] => None
    end in
  match int_part with
  | None => None
  | Some (ids, s1) =>
      let '(fds, s2) :=
        match s1 with
        | dot :: d :: _ =>
            if (dot =? 46)%N && is_digit d then take_digits (tl s1) else ([], s1)
        | _ => ([], s1)
        end in
      let '(ex, s3) :=
        match s2 with
        | e :: r =>
            if ((e =? 101) || (e =? 69))%N then
              let '(sg, r1) :=
                match r with
                | x :: r' =>
                    if (x =? 45)%N then (true, r')
                    else if (x =? 43)%N then (false, r')
                    else (false, r)
                | [] => (false, r)
                end in
              let (eds, r2) := take_digits r1 in
              match eds with
              | [] => (None, s2)
              | _ :: _ => (Some (if sg then - digits_value eds else digits_value eds)%Z, r2)
              end
            else (None, s2)
        | [] => (None, s2)
        end in
      match fds, ex with
      | [], None =>
          Some (JInt (if neg then - digits_value ids else digits_value ids)%Z, s3)
      | _, _ =>
          let e := match ex with Some e => e | None => 0%Z end in
          let ds := (ids ++ fds)%list in
          Some (JFloat (dec2float neg (digits_value ds) (Z.of_nat (List.length ds))
                                  (e - Z.of_nat (List.length fds))), s3)
      end
  end.

(** [scan_once], with the members of an object and the elements of an
    array.  Every call reads a character before it calls again, so that a
    [fuel] above the length of the text is never used up. *)
Fixpoint scan_once (fuel : nat) (s : str) : option (json * str) :=
  match fuel with
  | O => None
  | S fuel' =>
      match s with
      | [] => None
      | c :: s' =>
          if (c =? 34)%N then
            match scanstring s' [] with
            | Some (x, r) => Some (JStr x, r)
            | None => None
            end
          else if (c =? 123)%N then
            match skip_ws s' with
            | c1 :: r => if (c1 =? 125)%N then Some (JObj [], r)
                         else parse_members fuel' (c1 :: r) []
            | [] => None
            end
          else if (c =? 91)%N then
            match skip_ws s' with
            | c1 :: r => if (c1 =? 93)%N then Some (JArr [], r)
                         else parse_elements fuel' (c1 :: r) []
            | [] => None
            end
          else if PyStr.startswith (py "null") s then Some (JNull, skipn 4 s)
          else if PyStr.startswith (py "true") s then Some (JBool true, skipn 4 s)
          else if PyStr.startswith (py "false") s then Some (JBool false, skipn 5 s)
          else if PyStr.startswith (py "NaN") s then Some (JFloat nan, skipn 3 s)
          else if PyStr.startswith (py "Infinity") s then Some (JFloat infinity, skipn 8 s)
          else if PyStr.startswith (py "-Infinity") s then Some (JFloat neg_infinity, skipn 9 s)
          else if (c =? 45)%N then match_number true s'
          else match_number false s
      end
  end
with parse_members (fuel : nat) (s : str) (acc : list (str * json))
  : option (json * str) :=
  match fuel with
  | O => None
  | S fuel' =>
      match s with
      | q :: s1 =>
          if (q =? 34)%N then
            match scanstring s1 [] with
            | Some (k, s2) =>
                match skip_ws s2 with
                | colon :: s3 =>
                    if (colon =? 58)%N then
                      match scan_once fuel' (skip_ws s3) with
                      | Some (v, s4) =>
                          match skip_ws s4 with
                          | d :: s5 =>
                              if (d =? 125)%N then Some (JObj (rev ((k, v) :: acc)), s5)
                              else if (d =? 44)%N
                              then parse_members fuel' (skip_ws s5) ((k, v) :: acc)
                              else None
                          | [] => None
                          end
                      | None => None
                      end
                    else None
                | [] => None
                end
            | None => None
            end
          else None
      | [] => None
      end
  end
with parse_elements (fuel : nat) (s : str) (acc : list json)
  : option (json * str) :=
  match fuel with
  | O => None
  | S fuel' =>
      match scan_once fuel' s with
      | Some (v, s1) =>
          match skip_ws s1 with
          | d :: s2 =>
              if (d =? 93)%N then Some (JArr (rev (v :: acc)), s2)
              else if (d =? 44)%N then parse_elements fuel' (skip_ws s2) (v :: acc)
              else None
          | [] => None
          end
      | None => None
      end
  end.

(** [json.loads(s)]: the value of the text, white space allowed around it
    and nothing else after it; [None] is [json.JSONDecodeError]. *)
Definition loads (s : str) : option json :=
  match scan_once (S (List.length s)) (skip_ws s) with
  | Some (v, r) =>
      match skip_ws r with
      | [] => Some v
      | _ :: _ => None
      end
  | None => None
  end.

(** [d[k]] on a [dict]: the last pair with the key. *)
Fixpoint dict_get (k : str) (kv : list (str * json)) : option json :=
  match kv with
  | [] => None
  | (k', v) :: kv' =>
      match dict_get k kv' with
      | Some w => Some w
      | None => if PyStr.eqb k k' then Some v else None
      end
  end.

(** [v[k]] with a [str] key: [KeyError] on a [dict] without the key,
    [TypeError] on anything that is not a [dict]; both [None]. *)
Definition getitem (v : json) (k : str) : option json :=
  match v with
  | JObj kv => dict_get k kv
  | _ => None
  end.

(** The number a value is in arithmetic, when it is one; [True] and [False]
    are the [int]s 1 and 0. *)
Definition as_number (v : json) : option PyNum.pynum :=
  match v with
  | JInt n => Some (PyNum.PInt n)
  | JBool b => Some (PyNum.PInt (if b then 1 else 0))
  | JFloat f => Some (PyNum.PFloat f)
  | _ => None
  end.

End Json.

Import PyNum Json.

(** ** The two tables ([setup_database]) *)

(** The [status] column of [trades]: ['OPEN'] (its default) or ['CLOSED']. *)
Inductive Status : Type := OPEN | CLOSED.

Definition is_open (s : Status) : bool :=
  match s with OPEN => true | CLOSED => false end.

(** A row of [trades].  The REAL columns hold floats (an [int] bound to one
    is stored as the float of the same value); the nullable columns are
    options; [leverage] holds the Python value that was bound. *)
Record Trade : Type := mkTrade {
  id : Z;
  timestamp : str;
  action : str;
  entry_price : float;
  amount : float;
  leverage : json;
  sl_price : float;
  tp_price : float;
  sl_percentage : float;
  tp_percentage : float;
  position_size_percentage : float;
  investment_amount : float;
  status : Status;
  exit_price : option float;
  exit_timestamp : option str;
  profit_loss : option float;
  profit_loss_percentage : option float
}.

(** A row of [ai_analysis]; the recommendation columns hold the Python values
    that were bound. *)
Record Analysis : Type := mkAnalysis {
  a_id : Z;
  a_timestamp : str;
  a_current_price : float;
  a_direction : json;
  a_recommended_position_size : json;
  a_recommended_leverage : json;
  a_stop_loss_percentage : json;
  a_take_profit_percentage : json;
  a_reasoning : json;
  a_trade_id : option Z
}.

Record Db : Type := mkDb {
  trades : list Trade;
  analyses : list Analysis
}.

Definition empty_db : Db := mkDb [] [].

(** ** The world around one pass of the loop *)

Inductive Side : Type := Buy | Sell.
Inductive OrderKind : Type := STOP_MARKET | TAKE_PROFIT_MARKET.

(** The 7-day summary that [get_trade_summary] returns (its counts). *)
Record Summary : Type := mkSummary {
  s_total_trades : Z;
  s_winning_trades : Z;
  s_losing_trades : Z
}.

(** The lines the loop prints that the properties below speak of. *)
Inductive message : Type :=
| MsgAdopted                                    (* line 675 *)
| MsgPositionClosed (entry exit pl pl_pct : float)   (* lines 593-597 *)
| MsgSummary (s : Summary)                      (* lines 602-610 *)
| MsgRawResponse (content : str)                (* line 794 *)
| MsgNoPosition                                 (* lines 837-838 *)
| MsgMinimumOrder                               (* line 854 *)
| MsgNotLongOrShort                             (* line 963 *)
| MsgJsonError (content : str)                  (* lines 966-967 *)
| MsgOtherError                                 (* line 971 *)
| MsgLoopError.                                 (* line 979 *)

(** What one pass does to the outside world, in the order it does it. *)
Inductive event : Type :=
| Sleep (seconds : Z)
| CancelOrder (order_id : str)
| SetLeverage (lev : json)
| MarketOrder (side : Side) (qty : float)
| ConditionalOrder (kind : OrderKind) (side : Side) (qty : float) (stop_price : float)
| Print (m : message).

(** What the outside world answers during one pass.  An option that is
    [None], or a flag that is [false], is a call that raised. *)
Record Env : Type := mkEnv {
  ticker_last : option float;              (* fetch_ticker(symbol)['last'] *)
  positions : option (list (str * float)); (* symbol and positionAmt of each position *)
  open_orders : option (list (str * bool));(* ids of the open orders; whether the cancel goes through *)
  oracle : option (option str);            (* the content of the first choice; it may be None *)
  balance_free : option float;             (* fetch_balance()['USDT']['free'] *)
  set_leverage_ok : bool;
  entry_order_ok : bool;
  stop_order_ok : bool;
  take_profit_order_ok : bool;
  now_trade : str;                         (* datetime.now().isoformat() in save_trade *)
  now_analysis : str;                      (* the same in save_ai_analysis *)
  now_exit : str;                          (* the same in handle_position_closure *)
  week_ago : str                           (* datetime('now', '-7 days') in SQLite *)
}.

(** ** Computations: a database, exceptions, [continue], events *)

Inductive exn : Type := JSONDecodeError | Exception.

Inductive outcome (A : Type) : Type :=
| Ret (a : A)
| Continue
| Raise (e : exn).
Arguments Ret {A} a.
Arguments Continue {A}.
Arguments Raise {A} e.

Definition M (A : Type) : Type := Db -> outcome A * Db * list event.

Definition ret {A} (a : A) : M A := fun db => (Ret a, db, []).

Definition bind {A B} (m : M A) (k : A -> M B) : M B :=
  fun db =>
    match m db with
    | (Ret a, db1, ev1) =>
        match k a db1 with
        | (o, db2, ev2) => (o, db2, ev1 ++ ev2)
        end
    | (Continue, db1, ev1) => (Continue, db1, ev1)
    | (Raise e, db1, ev1) => (Raise e, db1, ev1)
    end.

Declare Scope bot_scope.
Delimit Scope bot_scope with bot.
Notation "x <- m ;; k" := (bind m (fun x => k))
  (at level 100, m at next level, right associativity) : bot_scope.
Notation "m ;; k" := (bind m (fun _ => k))
  (at level 100, right associativity) : bot_scope.
Open Scope bot_scope.

Definition raise {A} (e : exn) : M A := fun db => (Raise e, db, []).
Definition continue {A} : M A := fun db => (Continue, db, []).
Definition emit (e : event) : M unit := fun db => (Ret tt, db, [e]).
Definition get_db : M Db := fun db => (Ret db, db, []).
Definition put_db (db' : Db) : M unit := fun _ => (Ret tt, db', []).

(** A value that a call returned, or the exception it raised. *)
Definition returned {A} (o : option A) : M A :=
  match o with
  | Some a => ret a
  | None => raise Exception
  end.

(** A call made for its effect. *)
Definition call (ok : bool) (e : event) : M unit :=
  if ok then emit e else raise Exception.

Definition sleep (seconds : Z) : M unit := emit (Sleep seconds).
Definition print (m : message) : M unit := emit (Print m).

(** [try: body  except ...: handler]; a [continue] in the body leaves the
    [try] with it. *)
Definition try_except {A} (body : M A) (handler : exn -> M A) : M A :=
  fun db =>
    match body db with
    | (Raise e, db1, ev1) =>
        match handler e db1 with
        | (o, db2, ev2) => (o, db2, ev1 ++ ev2)
        end
    | r => r
    end.

(** ** Database functions *)

(** An [int] over an [int] with [/]: the nearest float to the quotient;
    [ZeroDivisionError] and [OverflowError] are [None]. *)
Definition int_truediv (a b : Z) : option float :=
  if (b =? 0)%Z then None
  else
    let f := ratio2float (xorb (a <? 0)%Z (b <? 0)%Z) (Z.abs a) (Z.abs b) in
    if is_infinity f then None else Some f.

(** What the [sqlite3] module accepts as a parameter: [None], [int] within 64
    bits ([bool] with it), [float], and [str] that UTF-8 can encode. *)
Definition bindable (v : json) : bool :=
  match v with
  | JNull | JBool _ | JFloat _ => true
  | JInt n => ((- 2 ^ 63 <=? n) && (n <? 2 ^ 63))%Z
  | JStr s => forallb (fun c => negb ((55296 <=? c) && (c <=? 57343))%N) s
  | JArr _ | JObj _ => false
  end.

(** What SQLite stores as NULL: [None], and a NaN. *)
Definition binds_null (v : json) : bool :=
  match v with
  | JNull => true
  | JFloat f => is_nan f
  | _ => false
  end.

(** A parameter for a NOT NULL column. *)
Definition not_null (v : json) : bool := bindable v && negb (binds_null v).

Definition num_json (a : pynum) : json :=
  match a with
  | PInt n => JInt n
  | PFloat f => JFloat f
  end.

(** The key of a new row of an AUTOINCREMENT table no row was deleted from. *)
Definition next_id {A} (rows : list A) : Z := 1 + Z.of_nat (List.length rows).

(** The [analysis_data] dict of the loop. *)
Record AnalysisData : Type := mkAnalysisData {
  ad_current_price : float;
  ad_direction : json;
  ad_recommended_position_size : json;
  ad_recommended_leverage : json;
  ad_stop_loss_percentage : json;
  ad_take_profit_percentage : json;
  ad_reasoning : json
}.

(** The values of [analysis_data] can be bound to the NOT NULL columns. *)
Definition analysis_data_ok (ad : AnalysisData) : bool :=
  negb (is_nan (ad_current_price ad))
  && not_null (ad_direction ad)
  && not_null (ad_recommended_position_size ad)
  && not_null (ad_recommended_leverage ad)
  && not_null (ad_stop_loss_percentage ad)
  && not_null (ad_take_profit_percentage ad)
  && not_null (ad_reasoning ad).

Definition new_analysis (analysis_id : Z) (now : str) (ad : AnalysisData)
    (trade_id : option Z) : Analysis :=
  mkAnalysis analysis_id now (ad_current_price ad) (ad_direction ad)
    (ad_recommended_position_size ad) (ad_recommended_leverage ad)
    (ad_stop_loss_percentage ad) (ad_take_profit_percentage ad)
    (ad_reasoning ad) trade_id.

(** [save_ai_analysis(analysis_data, trade_id=None)], called at time [now]. *)
Definition save_ai_analysis (now : str) (ad : AnalysisData) (trade_id : option Z) : M Z :=
  db <- get_db ;;
  if analysis_data_ok ad then
    let analysis_id := next_id (analyses db) in
    put_db (mkDb (trades db) (analyses db ++ [new_analysis analysis_id now ad trade_id])) ;;
    ret analysis_id
  else raise Exception.

(** The [trade_data] dict of the loop ([temp_trade_data] on the adopt path). *)
Record TradeData : Type := mkTradeData {
  td_action : str;
  td_entry_price : float;
  td_amount : float;
  td_leverage : json;
  td_sl_price : float;
  td_tp_price : float;
  td_sl_percentage : pynum;
  td_tp_percentage : pynum;
  td_position_size_percentage : pynum;
  td_investment_amount : float
}.

(** The float a REAL column stores for a number. *)
Definition real_of (a : pynum) : float :=
  match a with
  | PInt n => Z2float n
  | PFloat f => f
  end.

(** The row [save_trade] inserts: ['OPEN'] by the default of the column, with
    no exit yet. *)
Definition new_trade (trade_id : Z) (now : str) (td : TradeData) : Trade :=
  mkTrade trade_id now (td_action td) (td_entry_price td) (td_amount td)
    (td_leverage td) (td_sl_price td) (td_tp_price td)
    (real_of (td_sl_percentage td)) (real_of (td_tp_percentage td))
    (real_of (td_position_size_percentage td))
    (td_investment_amount td)
    OPEN None None None None.

(** The values of [trade_data] can be bound to the NOT NULL columns. *)
Definition trade_data_ok (td : TradeData) : bool :=
  negb (is_nan (td_entry_price td))
  && negb (is_nan (td_amount td))
  && not_null (td_leverage td)
  && negb (is_nan (td_sl_price td))
  && negb (is_nan (td_tp_price td))
  && not_null (num_json (td_sl_percentage td))
  && not_null (num_json (td_tp_percentage td))
  && not_null (num_json (td_position_size_percentage td))
  && negb (is_nan (td_investment_amount td)).

(** [save_trade(trade_data)], called at time [now]. *)
Definition save_trade (now : str) (td : TradeData) : M Z :=
  db <- get_db ;;
  if trade_data_ok td then
    let trade_id := next_id (trades db) in
    put_db (mkDb (trades db ++ [new_trade trade_id now td]) (analyses db)) ;;
    ret trade_id
  else raise Exception.

Definition set_opt {A} (new : option A) (old : option A) : option A :=
  match new with
  | Some _ => new
  | None => old
  end.

(** The row after [UPDATE trades SET status = ?, ... WHERE id = ?]: only the
    fields that were given are set; a NaN is stored as NULL. *)
Definition update_row (trade_id : Z) (st : Status)
    (exit_price' : option float) (exit_timestamp' : option str)
    (profit_loss' profit_loss_percentage' : option float) (t : Trade) : Trade :=
  if (id t =? trade_id)%Z then
    mkTrade (id t) (timestamp t) (action t) (entry_price t) (amount t) (leverage t)
      (sl_price t) (tp_price t) (sl_percentage t) (tp_percentage t)
      (position_size_percentage t) (investment_amount t)
      st
      (match exit_price' with
       | Some x => nan_to_null x
       | None => exit_price t
       end)
      (set_opt exit_timestamp' (exit_timestamp t))
      (match profit_loss' with
       | Some x => nan_to_null x
       | None => profit_loss t
       end)
      (match profit_loss_percentage' with
       | Some x => nan_to_null x
       | None => profit_loss_percentage t
       end)
  else t.

(** [update_trade_status(trade_id, status, exit_price=None, ...)] *)
Definition update_trade_status (trade_id : Z) (st : Status)
    (exit_price' : option float) (exit_timestamp' : option str)
    (profit_loss' profit_loss_percentage' : option float) : M unit :=
  db <- get_db ;;
  put_db (mkDb (map (update_row trade_id st exit_price' exit_timestamp'
                                profit_loss' profit_loss_percentage') (trades db))
               (analyses db)).

(** The first row of [SELECT ... WHERE status = 'OPEN' ORDER BY timestamp DESC
    LIMIT 1]: an open row no open row is later than (of several with the
    same latest timestamp, the first in the table). *)
Fixpoint latest_open (rows : list Trade) : option Trade :=
  match rows with
  | [] => None
  | t :: rest =>
      if is_open (status t) then
        match latest_open rest with
        | Some u => if PyStr.ltb (timestamp t) (timestamp u) then Some u else Some t
        | None => Some t
        end
      else latest_open rest
  end.

(** [get_latest_open_trade()] *)
Definition get_latest_open_trade : M (option Trade) :=
  db <- get_db ;; ret (latest_open (trades db)).

(** [profit_loss > 0] and [profit_loss < 0] in SQL: false on NULL. *)
Definition sql_positive (x : option float) : bool :=
  match x with
  | Some v => (0 <? v)%float
  | None => false
  end.

Definition sql_negative (x : option float) : bool :=
  match x with
  | Some v => (v <? 0)%float
  | None => false
  end.

Definition is_some {A} (o : option A) : bool :=
  match o with Some _ => true | None => false end.

(** [COUNT( * )], and [SUM(CASE WHEN c THEN 1 ELSE 0 END)] with its [or 0]. *)
Definition count (c : Trade -> bool) (rows : list Trade) : Z :=
  Z.of_nat (List.length (filter c rows)).

(** The rows [get_trade_summary] selects: closed, and opened at or after
    [cutoff] (which is [datetime('now', '-7 days')]). *)
Definition in_summary (cutoff : str) (t : Trade) : bool :=
  is_some (exit_timestamp t) && PyStr.leb cutoff (timestamp t).

(** [get_trade_summary(days=7)]: the counts of the dict it returns. *)
Definition get_trade_summary (cutoff : str) (db : Db) : Summary :=
  let rows := filter (in_summary cutoff) (trades db) in
  mkSummary (count (fun _ => true) rows)
            (count (fun t => sql_positive (profit_loss t)) rows)
            (count (fun t => sql_negative (profit_loss t)) rows).

(** [winning / total * 100] when [total > 0], else [0]. *)
Definition win_rate_of (winning total : Z) : float :=
  if (0 <? total)%Z then
    match int_truediv winning total with
    | Some r => (r * 100)%float
    | None => 0%float
    end
  else 0%float.

(** The counts and the win rate of one group of closed trades. *)
Record Metrics : Type := mkMetrics {
  total_trades : Z;
  winning_trades : Z;
  losing_trades : Z;
  win_rate : float
}.

Definition metrics_of (rows : list Trade) : Metrics :=
  let total := count (fun _ => true) rows in
  let winning := count (fun t => sql_positive (profit_loss t)) rows in
  let losing := count (fun t => sql_negative (profit_loss t)) rows in
  mkMetrics total winning losing (win_rate_of winning total).

Definition is_closed (t : Trade) : bool := negb (is_open (status t)).

(** The distinct values of [l], in the order they first come. *)
Fixpoint distinct (l : list str) : list str :=
  match l with
  | [] => []
  | a :: l' => a :: filter (fun b => negb (PyStr.eqb a b)) (distinct l')
  end.

(** [get_performance_metrics()]: the ["overall"] counts and win rate over the
    closed trades, and the same per [action] under ["directional"]. *)
Definition get_performance_metrics (db : Db) : Metrics * list (str * Metrics) :=
  let closed := filter is_closed (trades db) in
  (metrics_of closed,
   map (fun a => (a, metrics_of (filter (fun t => PyStr.eqb a (action t)) closed)))
       (distinct (map action closed))).

(** ** Closing a position *)

(** The P/L of [handle_position_closure] and its percentage, by direction;
    an entry price of zero raises [ZeroDivisionError]. *)
Definition profit_and_loss (action : str) (current_price entry_price amount : float)
  : option (float * float) :=
  if PyStr.eqb action (py "long") then
    let profit_loss := ((current_price - entry_price) * amount)%float in
    option_map (fun q => (profit_loss, ((q - 1) * 100)%float))
               (fdiv current_price entry_price)
  else
    let profit_loss := ((entry_price - current_price) * amount)%float in
    option_map (fun q => (profit_loss, ((1 - q) * 100)%float))
               (fdiv current_price entry_price).

(** [handle_position_closure(current_price, side, amount, current_trade_id)];
    [side] is not used by the source either. *)
Definition handle_position_closure (env : Env) (current_price : float) (side : str)
    (amount : float) (current_trade_id : option Z) : M unit :=
  current_trade_id <-
    match current_trade_id with
    | None =>
        latest_trade <- get_latest_open_trade ;;
        ret (match latest_trade with
             | Some t => Some (id t)
             | None => None
             end)
    | Some _ => ret current_trade_id
    end ;;
  match current_trade_id with
  | Some trade_id =>
      if (trade_id =? 0)%Z then ret tt
      else
        latest_trade <- get_latest_open_trade ;;
        match latest_trade with
        | Some latest =>
            pl <- returned (profit_and_loss (action latest) current_price
                                            (entry_price latest) amount) ;;
            update_trade_status trade_id CLOSED (Some current_price)
                                (Some (now_exit env)) (Some (fst pl)) (Some (snd pl)) ;;
            print (MsgPositionClosed (entry_price latest) current_price (fst pl) (snd pl)) ;;
            db <- get_db ;;
            print (MsgSummary (get_trade_summary (week_ago env) db))
        | None => ret tt
        end
  | None => ret tt
  end.

(** ** The answer of the oracle *)

Definition fence : str := py "```".

(** Lines 793 to 805: the content is stripped; when it starts with a fence,
    what follows its first line feed is kept (all of it without one), then
    what precedes its last fence, and the result is stripped again. *)
Definition clean_response (content : str) : str :=
  let response_content := PyStr.strip content in
  if PyStr.startswith fence response_content then
    let response_content :=
      match PyStr.split_nl1 response_content with
      | (_, Some rest) => rest
      | (_, None) => response_content
      end in
    let response_content :=
      if PyStr.contains fence response_content
      then PyStr.rsplit1_head fence response_content
      else response_content in
    PyStr.strip response_content
  else response_content.

(** The six fields of the decision once lines 811 to 817 printed them:
    a size and the two percentages are numbers (each is multiplied by 100 and
    printed as a float, which the other types and an [int] too large for a
    float do not allow); the other three are any value. *)
Record Decision : Type := mkDecision {
  direction : json;
  recommended_position_size : pynum;
  recommended_leverage : json;
  stop_loss_percentage : pynum;
  take_profit_percentage : pynum;
  reasoning : json
}.

(** [f"{v*100:.1f}"] goes through. *)
Definition percent (v : json) : option pynum :=
  match as_number v with
  | Some (PInt n) => if is_some (int2float (n * 100)) then Some (PInt n) else None
  | Some (PFloat f) => Some (PFloat f)
  | None => None
  end.

Definition read_decision (trading_decision : json) : option Decision :=
  match getitem trading_decision (py "direction"),
        getitem trading_decision (py "recommended_position_size"),
        getitem trading_decision (py "recommended_leverage"),
        getitem trading_decision (py "stop_loss_percentage"),
        getitem trading_decision (py "take_profit_percentage"),
        getitem trading_decision (py "reasoning") with
  | Some d, Some ps, Some lev, Some sl, Some tp, Some r =>
      match percent ps, percent sl, percent tp with
      | Some ps', Some sl', Some tp' => Some (mkDecision d ps' lev sl' tp' r)
      | _, _, _ => None
      end
  | _, _, _, _, _, _ => None
  end.

(** ** Sizing an order *)

(** Lines 852-853: an amount below 100 USDT is raised to 100. *)
Definition minimum_order (investment_amount : float) : float :=
  if (investment_amount <? 100)%float then 100%float else investment_amount.

(** Lines 849 to 853: the share of the capital, raised to the minimum. *)
Definition investment (available_capital : float) (position_size_percentage : pynum)
  : option float :=
  option_map minimum_order (fmul available_capital position_size_percentage).

(** Line 860: [math.ceil((investment_amount / current_price) * 1000) / 1000]. *)
Definition order_amount (investment_amount current_price : float) : option float :=
  match fdiv investment_amount current_price with
  | Some q =>
      match math_ceil (q * 1000)%float with
      | Some n => int_truediv n 1000
      | None => None
      end
  | None => None
  end.

(** Lines 881-882 and 925-926: the stop-loss and the take-profit price. *)
Definition bracket (long : bool) (entry_price : float) (sl_percentage tp_percentage : pynum)
  : option (float * float) :=
  match fmul entry_price (if long then one_minus sl_percentage else one_plus sl_percentage),
        fmul entry_price (if long then one_plus tp_percentage else one_minus tp_percentage) with
  | Some sl, Some tp => Some (round2 sl, round2 tp)
  | _, _ => None
  end.

(** [UPDATE ai_analysis SET trade_id = ? WHERE id = ?] *)
Definition link_analysis (trade_id analysis_id : Z) : M unit :=
  db <- get_db ;;
  put_db (mkDb (trades db)
               (map (fun a =>
                       if (a_id a =? analysis_id)%Z then
                         mkAnalysis (a_id a) (a_timestamp a) (a_current_price a)
                           (a_direction a) (a_recommended_position_size a)
                           (a_recommended_leverage a) (a_stop_loss_percentage a)
                           (a_take_profit_percentage a) (a_reasoning a) (Some trade_id)
                       else a)
                    (analyses db))).

(** Lines 875 to 961, for one direction: the market order, the two exit
    orders on the other side, the row of the trade, its link. *)
Definition open_position (env : Env) (long : bool) (current_price amount : float)
    (d : Decision) (investment_amount : float) (analysis_id : Z) : M unit :=
  call (entry_order_ok env) (MarketOrder (if long then Buy else Sell) amount) ;;
  let entry_price := current_price in
  prices <- returned (bracket long entry_price (stop_loss_percentage d)
                              (take_profit_percentage d)) ;;
  let exit_side := if long then Sell else Buy in
  call (stop_order_ok env) (ConditionalOrder STOP_MARKET exit_side amount (fst prices)) ;;
  call (take_profit_order_ok env)
       (ConditionalOrder TAKE_PROFIT_MARKET exit_side amount (snd prices)) ;;
  trade_id <- save_trade (now_trade env)
                (mkTradeData (if long then py "long" else py "short")
                   entry_price amount (recommended_leverage d)
                   (fst prices) (snd prices)
                   (stop_loss_percentage d) (take_profit_percentage d)
                   (recommended_position_size d) investment_amount) ;;
  link_analysis trade_id analysis_id.

(** Lines 842 to 963: capital, investment, amount, leverage, then the
    position of the direction that was recommended. *)
Definition trade (env : Env) (current_price : float) (d : Decision) (analysis_id : Z)
    (action : str) : M unit :=
  available_capital <- returned (balance_free env) ;;
  investment_amount <- returned (fmul available_capital (recommended_position_size d)) ;;
  (if (investment_amount <? 100)%float then print MsgMinimumOrder else ret tt) ;;
  let investment_amount := minimum_order investment_amount in
  amount <- returned (order_amount investment_amount current_price) ;;
  call (set_leverage_ok env) (SetLeverage (recommended_leverage d)) ;;
  if PyStr.eqb action (py "long") then
    open_position env true current_price amount d investment_amount analysis_id
  else if PyStr.eqb action (py "short") then
    open_position env false current_price amount d investment_amount analysis_id
  else print MsgNotLongOrShort.

(** [json.loads(s)] in the loop: a text that is not JSON raises
    [json.JSONDecodeError]. *)
Definition json_loads (s : str) : M json :=
  match Json.loads s with
  | Some v => ret v
  | None => raise JSONDecodeError
  end.

(** Lines 792 to 963, the body of the inner [try]. *)
Definition decide_and_trade (env : Env) (current_price : float) (content : option str)
  : M unit :=
  content <- returned content ;;
  print (MsgRawResponse (PyStr.strip content)) ;;
  trading_decision <- json_loads (clean_response content) ;;
  d <- returned (read_decision trading_decision) ;;
  analysis_id <- save_ai_analysis (now_analysis env)
                   (mkAnalysisData current_price (direction d)
                      (num_json (recommended_position_size d))
                      (recommended_leverage d)
                      (num_json (stop_loss_percentage d))
                      (num_json (take_profit_percentage d))
                      (reasoning d))
                   None ;;
  action <- returned (match direction d with
                      | JStr s => Some (PyStr.lower s)
                      | _ => None
                      end) ;;
  if PyStr.eqb action (py "no_position") then
    print MsgNoPosition ;; sleep 60 ;; continue
  else trade env current_price d analysis_id action.

(** Lines 965 to 973, the two handlers of the inner [try]. *)
Definition on_error (content : option str) (e : exn) : M unit :=
  match e with
  | JSONDecodeError =>
      print (MsgJsonError (match content with Some c => c | None => [] end)) ;;
      sleep 30 ;; continue
  | Exception =>
      print MsgOtherError ;; sleep 10 ;; continue
  end.

(** ** The main loop *)

(** Lines 636 to 649: the side and the amount of the position held. *)
Definition current_position (positions : list (str * float)) : option str * float :=
  fold_left
    (fun (acc : option str * float) (p : str * float) =>
       if PyStr.eqb (fst p) (py "BTC/USDT:USDT") then
         if (0 <? snd p)%float then (Some (py "long"), snd p)
         else if (snd p <? 0)%float then (Some (py "short"), abs (snd p))
         else acc
       else acc)
    positions (None, 0%float).

Fixpoint cancel_all (orders : list (str * bool)) : M unit :=
  match orders with
  | [] => ret tt
  | (order_id, ok) :: rest => call ok (CancelOrder order_id) ;; cancel_all rest
  end.

(** Lines 684 to 693: the open orders are cancelled one by one; an exception
    is printed and stops the cancelling, nothing more. *)
Definition cancel_remaining_orders (env : Env) : M unit :=
  try_except (orders <- returned (open_orders env) ;; cancel_all orders)
             (fun _ => ret tt).

(** The synthetic trade of lines 662 to 673. *)
Definition temp_trade_data (current_side : str) (current_price amount : float) : TradeData :=
  mkTradeData current_side current_price amount (JInt 1) 0 0 (PInt 0) (PInt 0) (PInt 0) 0.

(** Lines 656 to 675: a position is held; without an open trade in the
    table, one is written for it. *)
Definition with_position (env : Env) (current_price : float) (current_side : str)
    (amount : float) (current_trade : option Trade) : M unit :=
  match current_trade with
  | None =>
      save_trade (now_trade env) (temp_trade_data current_side current_price amount) ;;
      print MsgAdopted
  | Some _ => ret tt
  end.

(** Line 681: the trade that is still open in the table is closed. *)
Definition close_open_trade (env : Env) (current_price : float)
    (current_trade : option Trade) : M unit :=
  match current_trade with
  | Some t =>
      handle_position_closure env current_price (action t) (amount t)
                              (option_map id current_trade)
  | None => ret tt
  end.

(** Lines 678 to 973: no position is held.  The market data, the news and
    the past performance that are read between the 5-second pause and the
    call of the oracle only feed that call; its answer is [oracle env]. *)
Definition without_position (env : Env) (current_price : float)
    (current_trade : option Trade) : M unit :=
  close_open_trade env current_price current_trade ;;
  cancel_remaining_orders env ;;
  sleep 5 ;;
  response <- returned (oracle env) ;;
  try_except (decide_and_trade env current_price response) (on_error response).

(** Lines 630 to 976: the body of the outer [try] of one pass. *)
Definition loop_body (env : Env) : M unit :=
  current_price <- returned (ticker_last env) ;;
  positions <- returned (positions env) ;;
  let current_side := fst (current_position positions) in
  let amount := snd (current_position positions) in
  current_trade <- get_latest_open_trade ;;
  match current_side with
  | Some side => with_position env current_price side amount current_trade
  | None => without_position env current_price current_trade
  end ;;
  sleep 60.

(** One pass of [while True]: the body, and the handler of line 978. *)
Definition iteration (env : Env) (db : Db) : Db * list event :=
  match loop_body env db with
  | (Raise _, db', ev) => (db', ev ++ [Print MsgLoopError; Sleep 5])
  | (_, db', ev) => (db', ev)
  end.

(** The passes for the answers [envs], one after the other. *)
Fixpoint run (envs : list Env) (db : Db) : Db * list event :=
  match envs with
  | [] => (db, [])
  | env :: rest =>
      let (db1, ev1) := iteration env db in
      let (db2, ev2) := run rest db1 in
      (db2, ev1 ++ ev2)
  end.

(** ** What the properties observe *)

(** The number of rows of [trades] whose status is ['OPEN']. *)
Definition open_trades (db : Db) : nat :=
  List.length (filter (fun t => is_open (status t)) (trades db)).

(** The orders among the events of a pass. *)
Definition is_order (e : event) : bool :=
  match e with
  | MarketOrder _ _ | ConditionalOrder _ _ _ _ => true
  | _ => false
  end.

Definition orders (ev : list event) : list event := filter is_order ev.

(** The rows of [trades] a pass added to the ones of [db]. *)
Definition new_trades (db db' : Db) : list Trade :=
  skipn (List.length (trades db)) (trades db').

(** The decision that is read in the content of an answer, if one is. *)
Definition read_content (content : option str) : option Decision :=
  match content with
  | Some c =>
      match Json.loads (clean_response c) with
      | Some j => read_decision j
      | None => None
      end
  | None => None
  end.

(** The decision a pass reads in the answer of the oracle, if it does. *)
Definition decision_of (env : Env) : option Decision :=
  match oracle env with
  | Some content => read_content content
  | None => None
  end.

(** No position is held on the exchange. *)
Definition flat (env : Env) : Prop :=
  exists ps, positions env = Some ps /\ fst (current_position ps) = None.

(** The three orders of an opening, and the row that records it. *)
Definition entry_order (long : bool) (q : float) : event :=
  MarketOrder (if long then Buy else Sell) q.

Definition stop_order (long : bool) (q sl : float) : event :=
  ConditionalOrder STOP_MARKET (if long then Sell else Buy) q sl.

Definition take_profit_order (long : bool) (q tp : float) : event :=
  ConditionalOrder TAKE_PROFIT_MARKET (if long then Sell else Buy) q tp.

Definition opened_row (env : Env) (long : bool) (price q : float) (d : Decision)
    (inv sl tp : float) (trade_id : Z) : Trade :=
  new_trade trade_id (now_trade env)
    (mkTradeData (if long then py "long" else py "short") price q
       (recommended_leverage d) sl tp (stop_loss_percentage d)
       (take_profit_percentage d) (recommended_position_size d) inv).

(** How far an opening went: the orders [ords] that were placed are the
    first ones of the three, in their order, and the table [ts] is left as it
    was unless all three were placed and the row was written after them. *)
Definition opening (env : Env) (long : bool) (price q : float) (d : Decision)
    (inv : float) (ts ts' : list Trade) (ords : list event) : Prop :=
  (exists n, ords = firstn n [entry_order long q] /\ ts' = ts)
  \/ exists sl tp,
      bracket long price (stop_loss_percentage d) (take_profit_percentage d) = Some (sl, tp)
      /\ ((exists n, ords = firstn n [entry_order long q; stop_order long q sl;
                                     take_profit_order long q tp] /\ ts' = ts)
          \/ (ords = [entry_order long q; stop_order long q sl; take_profit_order long q tp]
              /\ ts' = ts ++ [opened_row env long price q d inv sl tp (next_id ts)])).

(** The values an opening is sized from: the decision has the direction
    [long], the capital is [cap], its share is [raw], and the amount of the
    order, for the investment [minimum_order raw], is [q]. *)
Definition sized (env : Env) (long : bool) (price cap raw q : float) (d : Decision) : Prop :=
  (exists s, direction d = JStr s
             /\ PyStr.lower s = if long then py "long" else py "short")
  /\ balance_free env = Some cap
  /\ fmul cap (recommended_position_size d) = Some raw
  /\ order_amount (minimum_order raw) price = Some q.

(** What the decision of a pass did to the table [ts] and which orders
    [ords] it placed: nothing, or an opening sized from the decision. *)
Definition decided (env : Env) (price : float) (d : option Decision)
    (ts ts' : list Trade) (ords : list event) : Prop :=
  (ords = [] /\ ts' = ts)
  \/ exists long cap raw q d',
      d = Some d' /\ sized env long price cap raw q d'
      /\ opening env long price q d' (minimum_order raw) ts ts' ords.

(** The table once the closure of line 681 is through, [None] when it
    raised: the latest open trade, when there is one and its key is not 0, is
    closed at [price]. *)
Definition settle (env : Env) (price : float) (rows : list Trade) : option (list Trade) :=
  match latest_open rows with
  | Some t =>
      if (id t =? 0)%Z then Some rows
      else
        match profit_and_loss (action t) price (entry_price t) (amount t) with
        | Some pl =>
            Some (map (update_row (id t) CLOSED (Some price) (Some (now_exit env))
                                  (Some (fst pl)) (Some (snd pl))) rows)
        | None => None
        end
  | None => Some rows
  end.

(** A row whose P/L is a zero. *)
Definition break_even (t : Trade) : Prop :=
  profit_loss t = Some 0%float \/ profit_loss t = Some (-0)%float.

(** A fenced answer: white space, a fence with anything but a line feed
    after it, a line feed, the payload, white space, a fence, and a tail. *)
Definition fenced (w1 info payload w2 tail : str) : str :=
  w1 ++ (fence ++ info ++ 10%N :: payload ++ w2 ++ fence) ++ tail.

(** The number of open rows of a table. *)
Definition open_count (rows : list Trade) : nat :=
  List.length (filter (fun t => is_open (status t)) rows).

(** What every pass keeps: at most one open row, and no key that is 0. *)
Definition ledger_ok (rows : list Trade) : Prop :=
  (open_count rows <= 1)%nat /\ Forall (fun t => id t <> 0%Z) rows.

(** ** Examples *)

(** The text [s] with every single quote read as a double quote. *)
Definition dq (s : string) : str :=
  map (fun c => if (c =? 39)%N then 34%N else c) (py s).

(** A decision as the oracle writes it, and the same in a fence. *)
Definition payload (dir size sl tp : string) : str :=
  dq ("{'direction': '" ++ dir ++ "', 'recommended_position_size': " ++ size
      ++ ", 'recommended_leverage': 3, 'stop_loss_percentage': " ++ sl
      ++ ", 'take_profit_percentage': " ++ tp ++ ", 'reasoning': 'trend'}")%string.

Definition answer (dir size sl tp : string) : str :=
  fenced [] (py "json") (payload dir size sl tp) [10%N] [].

(** A pass at [price] with no position, the oracle answering [content], a
    free balance [cap], and an exchange that takes every order. *)
Definition flat_env (price cap : float) (content : str) : Env :=
  mkEnv (Some price) (Some []) (Some []) (Some (Some content)) (Some cap)
        true true true true
        (py "2025-01-02T00:00:00") (py "2025-01-02T00:00:00")
        (py "2025-01-02T00:00:00") (py "2024-12-26 00:00:00").

(** A pass at [price] with a position of [amt] on the exchange. *)
Definition position_env (price amt : float) : Env :=
  mkEnv (Some price) (Some [(py "BTC/USDT:USDT", amt)]) (Some []) None None
        true true true true
        (py "2025-01-02T00:00:00") (py "2025-01-02T00:00:00")
        (py "2025-01-02T00:00:00") (py "2024-12-26 00:00:00").

(** A table with one open trade: 1 BTC at 100, in the direction [a]. *)
Definition open_trade (a : string) : Trade :=
  mkTrade 1 (py "2025-01-01T00:00:00") (py a) 100 1 (JInt 3) 98 104
          0.02 0.04 0.05 100 OPEN None None None None.

Definition db_open (a : string) : Db := mkDb [open_trade a] [].

(** The passes of the examples: the oracle recommends a long, or a short,
    position at a price of 100, with a free balance of 1000. *)
Definition env_long : Env := flat_env 100 1000 (answer "LONG" "0.05" "0.02" "0.04").
Definition env_short : Env := flat_env 100 1000 (answer "SHORT" "0.05" "0.02" "0.04").

(** No backquote is in [s]; no line feed is in [s]. *)
Definition no_backquote (s : str) : bool := forallb (fun c => negb (c =? 96)%N) s.

Definition one_line (s : str) : bool := forallb (fun c => negb (c =? 10)%N) s.

(** The win rate does not rise, and falls when there is a winner, as one row
    that is neither a winner nor a loser joins [t] rows with [w] winners. *)
Definition lowered (w t : Z) : bool :=
  (win_rate_of w (t + 1) <=? win_rate_of w t)%float
  && ((w =? 0)%Z || (win_rate_of w (t + 1) <? win_rate_of w t)%float).

Definition lowered_upto (n : nat) : bool :=
  forallb (fun t => forallb (fun w => lowered (Z.of_nat w) (Z.of_nat t)) (seq 0 (S t)))
          (seq 0 (S n)).

(** The table [db] with the row [t] after its rows. *)
Definition with_row (db : Db) (t : Trade) : Db :=
  mkDb (trades db ++ [t]) (analyses db).

(** The sum of one count over the groups of ["directional"]. *)
Definition sum_over (f : Metrics -> Z) (groups : list (str * Metrics)) : Z :=
  fold_right (fun am acc => (f (snd am) + acc)%Z) 0%Z groups.

(** A row of [ai_analysis] once [UPDATE ai_analysis SET trade_id = ? WHERE
    id = ?] is through. *)
Definition linked (trade_id analysis_id : Z) (a : Analysis) : Analysis :=
  if (a_id a =? analysis_id)%Z then
    mkAnalysis (a_id a) (a_timestamp a) (a_current_price a)
      (a_direction a) (a_recommended_position_size a)
      (a_recommended_leverage a) (a_stop_loss_percentage a)
      (a_take_profit_percentage a) (a_reasoning a) (Some trade_id)
  else a.

(** The row line 829 writes for the decision [d], after the rows [an]. *)
Definition analysed (env : Env) (price : float) (d : Decision) (an : list Analysis)
  : Analysis :=
  new_analysis (next_id an) (now_analysis env)
    (mkAnalysisData price (direction d)
       (num_json (recommended_position_size d)) (recommended_leverage d)
       (num_json (stop_loss_percentage d)) (num_json (take_profit_percentage d))
       (reasoning d))
    None.

(** What the decision [d] of a pass at [price] makes of the tables [db1]:
    nothing; or the row of its analysis; or that row, the row of the trade it
    opened, and the link from the one to the other. *)
Definition recorded (env : Env) (price : float) (d : option Decision) (db1 db' : Db)
  : Prop :=
  db' = db1
  \/ exists d',
      d = Some d'
      /\ (db' = mkDb (trades db1) (analyses db1 ++ [analysed env price d' (analyses db1)])
          \/ exists long q inv sl tp,
              db' = mkDb (trades db1
                          ++ [opened_row env long price q d' inv sl tp
                                (next_id (trades db1))])
                         (map (linked (next_id (trades db1)) (next_id (analyses db1)))
                              (analyses db1 ++ [analysed env price d' (analyses db1)]))).

(** What one pass makes of the tables [db]: nothing; or the row of the
    position it found; or, without a position, the closure of the open trade
    and then what its decision makes of them. *)
Definition pass_db (env : Env) (db db' : Db) : Prop :=
  db' = db
  \/ (exists price ps side,
         ticker_last env = Some price /\ positions env = Some ps
         /\ fst (current_position ps) = Some side
         /\ latest_open (trades db) = None
         /\ db' = mkDb (trades db
                        ++ [new_trade (next_id (trades db)) (now_trade env)
                              (temp_trade_data side price (snd (current_position ps)))])
                       (analyses db))
  \/ (exists price ts,
         ticker_last env = Some price /\ flat env
         /\ settle env price (trades db) = Some ts
         /\ recorded env price (decision_of env) (mkDb ts (analyses db)) db').

(** The keys 1 to [n], as AUTOINCREMENT gives them. *)
Definition keys_upto (n : nat) : list Z := map Z.of_nat (seq 1 n).

(** The trade a row of [ai_analysis] is linked to, if it is. *)
Definition link_of (a : Analysis) : list Z :=
  match a_trade_id a with
  | Some k => [k]
  | None => []
  end.

(** What the passes keep of the two tables: the keys of each are 1, 2, ...
    in the order of the rows; a link of an analysis is the key of a trade,
    and no two analyses are linked to the same trade; a trade has an exit
    time exactly when it is closed; at most one trade is open. *)
Definition consistent (db : Db) : Prop :=
  map id (trades db) = keys_upto (List.length (trades db))
  /\ map a_id (analyses db) = keys_upto (List.length (analyses db))
  /\ (forall k, In k (flat_map link_of (analyses db)) -> In k (map id (trades db)))
  /\ NoDup (flat_map link_of (analyses db))
  /\ Forall (fun t => is_some (exit_timestamp t) = is_closed t) (trades db)
  /\ (open_count (trades db) <= 1)%nat.

(** A row of [trades] as a later table holds it: what it was opened with
    is as it was, and a closed row is the same row. *)
Definition row_kept (r r' : Trade) : Prop :=
  (status r = CLOSED -> r' = r)
  /\ id r' = id r /\ timestamp r' = timestamp r /\ action r' = action r
  /\ entry_price r' = entry_price r /\ amount r' = amount r
  /\ leverage r' = leverage r
  /\ sl_price r' = sl_price r /\ tp_price r' = tp_price r
  /\ sl_percentage r' = sl_percentage r /\ tp_percentage r' = tp_percentage r
  /\ position_size_percentage r' = position_size_percentage r
  /\ investment_amount r' = investment_amount r.

(** The tables [db'] hold the rows of [db], in their places, and maybe more
    after them. *)
Definition grows (db db' : Db) : Prop :=
  (exists kept new, trades db' = kept ++ new /\ Forall2 row_kept (trades db) kept)
  /\ exists new, analyses db' = analyses db ++ new.

(** The analyses of [an] that are linked to the trade [k]. *)
Definition analyses_of (k : Z) (an : list Analysis) : list Analysis :=
  filter (fun a => match a_trade_id a with
                   | Some k' => (k' =? k)%Z
                   | None => false
                   end) an.

(** The cancellations of lines 687-688 that go through: those before the
    first one that raises. *)
Fixpoint cancelled (os : list (str * bool)) : list event :=
  match os with
  | [] => []
  | (order_id, ok) :: rest => if ok then CancelOrder order_id :: cancelled rest else []
  end.

Definition cancel_events (env : Env) : list event :=
  match open_orders env with
  | Some os => cancelled os
  | None => []
  end.

(** What the closure of line 681 prints: the closed position and the
    summary of the week, when a trade was closed. *)
Definition closure_events (env : Env) (price : float) (db : Db) : list event :=
  match latest_open (trades db), settle env price (trades db) with
  | Some t, Some ts =>
      if (id t =? 0)%Z then []
      else
        match profit_and_loss (action t) price (entry_price t) (amount t) with
        | Some pl =>
            [Print (MsgPositionClosed (entry_price t) price (fst pl) (snd pl));
             Print (MsgSummary (get_trade_summary (week_ago env) (mkDb ts (analyses db))))]
        | None => []
        end
  | _, _ => []
  end.

(** Line 976: the minute a pass waits when its body came to its end. *)
Definition after_block (o : outcome unit) : list event :=
  match o with
  | Ret _ => [Sleep 60]
  | _ => []
  end.

(** Lines 791 to 973 of a pass at [price]: the inner [try] with its
    handlers, on the answer [content]. *)
Definition decision_block (env : Env) (price : float) (content : option str) : M unit :=
  try_except (decide_and_trade env price content) (on_error content).

(** The values of line 820 for the decision [d]. *)
Definition analysis_data (price : float) (d : Decision) : AnalysisData :=
  mkAnalysisData price (direction d)
    (num_json (recommended_position_size d)) (recommended_leverage d)
    (num_json (stop_loss_percentage d)) (num_json (take_profit_percentage d))
    (reasoning d).

(** The tables once line 829 wrote the analysis of [d]. *)
Definition with_analysis (env : Env) (price : float) (d : Decision) (db : Db) : Db :=
  mkDb (trades db) (analyses db ++ [analysed env price d (analyses db)]).

(** Line 854, when the share of the capital is below 100. *)
Definition minimum_notice (raw : float) : list event :=
  if (raw <? 100)%float then [Print MsgMinimumOrder] else [].

(** The values of lines 889 and 933 for a position that was opened. *)
Definition trade_data (long : bool) (price q : float) (d : Decision) (inv sl tp : float)
  : TradeData :=
  mkTradeData (if long then py "long" else py "short") price q
    (recommended_leverage d) sl tp (stop_loss_percentage d)
    (take_profit_percentage d) (recommended_position_size d) inv.

(** An event that reaches neither the exchange nor the tables. *)
Definition quiet (e : event) : bool :=
  match e with
  | Print _ | Sleep _ => true
  | _ => false
  end.

(** The events of a pass without a position, up to its decision. *)
Definition prelude (env : Env) (price : float) (db : Db) : list event :=
  closure_events env price db ++ cancel_events env ++ [Sleep 5].

(** A pass at [price] finds no position, leaves the rows [ts] once the
    open trade, if any, is closed, and gets the answer [content]. *)
Definition asks (env : Env) (db : Db) (price : float) (ts : list Trade)
    (content : option str) : Prop :=
  ticker_last env = Some price /\ flat env
  /\ settle env price (trades db) = Some ts
  /\ oracle env = Some content.

(** It reads the decision [d] in the answer [c], and can write its
    analysis. *)
Definition reaches (env : Env) (db : Db) (price : float) (ts : list Trade)
    (c : str) (d : Decision) : Prop :=
  asks env db price ts (Some c)
  /\ read_content (Some c) = Some d
  /\ analysis_data_ok (analysis_data price d) = true.

(** A pass whose oracle answers [c] while no position is held, no order is
    open, and the exchange takes the orders as [stop_ok] and [tp_ok] say. *)
Definition answering (price cap : float) (c : str) (stop_ok tp_ok : bool) : Env :=
  mkEnv (Some price) (Some []) (Some []) (Some (Some c)) (Some cap)
        true true stop_ok tp_ok
        (py "2025-01-02T00:00:00") (py "2025-01-02T00:00:00")
        (py "2025-01-02T00:00:00") (py "2024-12-26 00:00:00").

(** Every market order of [ev] comes after a leverage was set, in [ev] or
    before it when [set] holds. *)
Fixpoint leveraged (set : bool) (ev : list event) : bool :=
  match ev with
  | [] => true
  | SetLeverage _ :: rest => leveraged true rest
  | MarketOrder _ _ :: rest => set && leveraged set rest
  | _ :: rest => leveraged set rest
  end.

(** Neither a market order nor a leverage. *)
Definition harmless (e : event) : bool :=
  match e with
  | SetLeverage _ | MarketOrder _ _ => false
  | _ => true
  end.

(** The events [ev] end with one of the waits of the loop. *)
Definition ends_with_sleep (ev : list event) : Prop :=
  exists ev0 n, ev = ev0 ++ [Sleep n] /\ In n [5; 10; 30; 60]%Z.

(** ** The news ([fetch_bitcoin_news]) *)

(** What [requests.get] returned: the status code and, unless
    [response.json()] raises, the data of the body. *)
Record Response : Type := mkResponse {
  status_code : Z;
  json_body : option json
}.

(** An item of the result: the values under ["title"] and ["date"]. *)
Record NewsItem : Type := mkNewsItem {
  title : json;
  date : json
}.

(** [d.get(k, default)] on a [dict]. *)
Definition dict_get_default (k : str) (kv : list (str * json)) (default : json) : json :=
  match dict_get k kv with
  | Some v => v
  | None => default
  end.

(** Lines 533 to 536 for one item: [.get] is an [AttributeError] on what is
    not a [dict]. *)
Definition news_item (news : json) : option NewsItem :=
  match news with
  | JObj kv =>
      Some (mkNewsItem (dict_get_default (py "title") kv (JStr []))
                       (dict_get_default (py "date") kv (JStr [])))
  | _ => None
  end.

(** [news_results[:10]]: the first ten of a list, or the first ten
    characters of a [str]; anything else cannot be sliced. *)
Definition slice10 (news_results : json) : option (list json) :=
  match news_results with
  | JArr l => Some (firstn 10 l)
  | JStr s => Some (map (fun ch => JStr [ch]) (firstn 10 s))
  | _ => None
  end.

(** The loop of lines 532 to 537; [None] when an item raises. *)
Fixpoint news_items (l : list json) : option (list NewsItem) :=
  match l with
  | [] => Some []
  | news :: rest =>
      match news_item news with
      | Some item => option_map (cons item) (news_items rest)
      | None => None
      end
  end.

(** The body of the [try] of [fetch_bitcoin_news], for the answer of
    [requests.get] ([None] when it raised); [None] is an exception. *)
Definition fetch_news (response : option Response) : option (list NewsItem) :=
  match response with
  | Some r =>
      if (status_code r =? 200)%Z then
        match json_body r with
        | Some (JObj data) =>
            match slice10 (dict_get_default (py "news_results") data (JArr [])) with
            | Some first => news_items first
            | None => None
            end
        | _ => None
        end
      else Some []
  | None => None
  end.

(** [fetch_bitcoin_news()]: the handler returns the empty list (what the
    function prints is left out). *)
Definition fetch_bitcoin_news (response : option Response) : list NewsItem :=
  match fetch_news response with
  | Some recent_news => recent_news
  | None => []
  end.

(** A response with the status 200 and the news [items]. *)
Definition news_response (items : list json) : option Response :=
  Some (mkResponse 200 (Some (JObj [(py "news_results", JArr items)]))).

(** ** The past trades ([get_historical_trading_data]) *)

(** The rows the LEFT JOIN makes of one trade: one for each analysis that
    is linked to it, or one without an analysis.  A row of the result is
    given by the trade and the analysis whose columns it holds. *)
Definition joined (an : list Analysis) (t : Trade) : list (Trade * option Analysis) :=
  match analyses_of (id t) an with
  | [] => [(t, None)]
  | l => map (fun a => (t, Some a)) l
  end.

(** [ORDER BY t.timestamp DESC]: a row is put before the first row that is
    not later than it (rows with the same timestamp, whose order SQL leaves
    open, stay in the order of the join). *)
Fixpoint insert_desc (x : Trade * option Analysis) (l : list (Trade * option Analysis))
  : list (Trade * option Analysis) :=
  match l with
  | [] => [x]
  | y :: l' =>
      if PyStr.ltb (timestamp (fst x)) (timestamp (fst y)) then y :: insert_desc x l'
      else x :: l
  end.

Definition sort_desc (l : list (Trade * option Analysis)) : list (Trade * option Analysis) :=
  fold_right insert_desc [] l.

(** [get_historical_trading_data(limit)]: the closed trades with their
    analyses, the latest first, [limit] rows at most (all of them when
    [limit] is negative, as SQLite reads [LIMIT]). *)
Definition get_historical_trading_data (limit : Z) (db : Db)
  : list (Trade * option Analysis) :=
  let results := sort_desc (flat_map (joined (analyses db))
                                     (filter is_closed (trades db))) in
  if (limit <? 0)%Z then results else firstn (Z.to_nat limit) results.

(** A row is not earlier than the next one. *)
Definition not_earlier (x y : Trade * option Analysis) : Prop :=
  PyStr.leb (timestamp (fst y)) (timestamp (fst x)) = true.

(** * Properties *)

(** ** Floats: what the comparisons of the source rest on *)

Section FloatFacts.

Local Open Scope float_scope.

(** A float is not both above and below zero. *)
Lemma not_positive_and_negative (v : float) :
  (0 <? v) = true -> (v <? 0) = true -> False.
Proof.
  rewrite !ltb_spec.
  change (Prim2SF 0) with (S754_zero false).
  destruct (Prim2SF v) as [s | s | | s m e]; cbn; try discriminate;
    destruct s; discriminate.
Qed.

(** A float above zero is a number; so is the absolute value of one below. *)
Lemma positive_not_nan (v : float) : (0 <? v) = true -> is_nan v = false.
Proof.
  unfold is_nan. rewrite ltb_spec, eqb_spec.
  change (Prim2SF 0) with (S754_zero false).
  destruct (Prim2SF v) as [s | s | | s m e]; cbn; try discriminate;
    destruct s; try discriminate; intros _; try reflexivity;
    unfold SFeqb, SFcompare; rewrite Z.compare_refl, Pos.compare_refl;
    reflexivity.
Qed.

Lemma negative_abs_not_nan (v : float) : (v <? 0) = true -> is_nan (abs v) = false.
Proof.
  unfold is_nan. rewrite ltb_spec, eqb_spec, abs_spec.
  change (Prim2SF 0) with (S754_zero false).
  destruct (Prim2SF v) as [s | s | | s m e]; cbn; try discriminate;
    destruct s; try discriminate; intros _; try reflexivity;
    unfold SFeqb, SFcompare; rewrite Z.compare_refl, Pos.compare_refl;
    reflexivity.
Qed.

End FloatFacts.

(** ** The counts of the performance queries *)

Section Counts.

Local Open Scope Z_scope.

Lemma count_nonneg (c : Trade -> bool) (rows : list Trade) : 0 <= count c rows.
Proof. unfold count. lia. Qed.

Lemma count_app (c : Trade -> bool) (l1 l2 : list Trade) :
  count c (l1 ++ l2) = count c l1 + count c l2.
Proof. unfold count. rewrite filter_app, length_app. lia. Qed.

Lemma count_cons (c : Trade -> bool) (t : Trade) (rows : list Trade) :
  count c (t :: rows) = (if c t then 1 else 0) + count c rows.
Proof.
  unfold count. cbn [filter]. destruct (c t); cbn [List.length]; lia.
Qed.

Lemma count_all (rows : list Trade) :
  count (fun _ => true) rows = Z.of_nat (List.length rows).
Proof.
  induction rows as [| t rows IH]; [reflexivity |].
  rewrite count_cons, IH. cbn [List.length]. lia.
Qed.

(** Winners and losers are different rows. *)
Lemma winning_losing_le_total (rows : list Trade) :
  count (fun t => sql_positive (profit_loss t)) rows
  + count (fun t => sql_negative (profit_loss t)) rows
  <= count (fun _ => true) rows.
Proof.
  induction rows as [| t rows IH]; [unfold count; cbn; lia |].
  rewrite !count_cons.
  destruct (profit_loss t) as [v |]; cbn [sql_positive sql_negative]; [| lia].
  destruct (0 <? v)%float eqn:Hpos, (v <? 0)%float eqn:Hneg; try lia.
  destruct (not_positive_and_negative v Hpos Hneg).
Qed.

Lemma metrics_of_counts (rows : list Trade) :
  0 <= winning_trades (metrics_of rows)
  /\ 0 <= losing_trades (metrics_of rows)
  /\ winning_trades (metrics_of rows) + losing_trades (metrics_of rows)
     <= total_trades (metrics_of rows).
Proof.
  unfold metrics_of; cbn [winning_trades losing_trades total_trades].
  repeat split; try apply count_nonneg. apply winning_losing_le_total.
Qed.

Lemma break_even_neither (t : Trade) :
  break_even t ->
  sql_positive (profit_loss t) = false /\ sql_negative (profit_loss t) = false.
Proof. intros [H | H]; rewrite H; split; reflexivity. Qed.

Lemma metrics_of_break_even (rows : list Trade) (t : Trade) :
  break_even t ->
  total_trades (metrics_of (rows ++ [t])) = total_trades (metrics_of rows) + 1
  /\ winning_trades (metrics_of (rows ++ [t])) = winning_trades (metrics_of rows)
  /\ losing_trades (metrics_of (rows ++ [t])) = losing_trades (metrics_of rows).
Proof.
  intros H. destruct (break_even_neither t H) as [Hw Hl].
  unfold metrics_of; cbn [winning_trades losing_trades total_trades].
  rewrite !count_app, !count_cons, Hw, Hl. unfold count; cbn. lia.
Qed.

End Counts.

(** ** Strings: stripping and cutting *)

Section Strings.

Import PyStr.

Lemma startswith_app (p s : str) : startswith p (p ++ s) = true.
Proof.
  induction p as [| c p IH]; [reflexivity |].
  cbn. rewrite N.eqb_refl. exact IH.
Qed.

Lemma lstrip_spaces (w s : str) : forallb isspace w = true -> lstrip (w ++ s) = lstrip s.
Proof.
  induction w as [| c w IH]; [reflexivity |].
  cbn [forallb app lstrip]. intros H. apply andb_prop in H as [Hc Hw].
  rewrite Hc. auto.
Qed.

Lemma lstrip_all_spaces (w : str) : forallb isspace w = true -> lstrip w = [].
Proof.
  intros H. rewrite <- (app_nil_r w). rewrite lstrip_spaces by assumption. reflexivity.
Qed.

Lemma lstrip_nonspace (c : N) (s : str) : isspace c = false -> lstrip (c :: s) = c :: s.
Proof. intros H. cbn. rewrite H. reflexivity. Qed.

(** Stripping on the left keeps what follows the first character that is not
    white space. *)
Lemma lstrip_app (s w : str) :
  forallb isspace w = true ->
  lstrip (s ++ w) = if forallb isspace s then [] else lstrip s ++ w.
Proof.
  intros Hw. induction s as [| c s IH].
  - cbn. apply lstrip_all_spaces. exact Hw.
  - cbn [app lstrip forallb]. destruct (isspace c); cbn [andb]; [exact IH | reflexivity].
Qed.

Lemma forallb_rev (f : N -> bool) (s : str) : forallb f (rev s) = forallb f s.
Proof.
  induction s as [| c s IH]; [reflexivity |].
  cbn. rewrite forallb_app, IH. cbn. rewrite andb_true_r. apply andb_comm.
Qed.

Lemma rstrip_spaces (s w : str) : forallb isspace w = true -> rstrip (s ++ w) = rstrip s.
Proof.
  intros H. unfold rstrip. rewrite rev_app_distr.
  rewrite lstrip_spaces; [reflexivity |]. rewrite forallb_rev. exact H.
Qed.

Lemma rstrip_nonspace (s : str) (c : N) : isspace c = false -> rstrip (s ++ [c]) = s ++ [c].
Proof.
  intros H. unfold rstrip. rewrite rev_app_distr. cbn [rev app].
  rewrite lstrip_nonspace by assumption.
  change (c :: rev s) with ([c] ++ rev s).
  rewrite rev_app_distr, rev_involutive. reflexivity.
Qed.

(** White space after a text does not change what [strip] keeps of it. *)
Lemma strip_app_spaces (s w : str) : forallb isspace w = true -> strip (s ++ w) = strip s.
Proof.
  intros Hw. unfold strip. rewrite lstrip_app by assumption.
  destruct (forallb isspace s) eqn:Hs.
  - rewrite (lstrip_all_spaces s Hs). reflexivity.
  - apply rstrip_spaces. exact Hw.
Qed.

(** A text between two characters that are not white space, with white
    space around it, is stripped to itself. *)
Lemma strip_between (w1 w2 s : str) (a b : N) :
  forallb isspace w1 = true -> forallb isspace w2 = true ->
  isspace a = false -> isspace b = false ->
  strip (w1 ++ (a :: s ++ [b]) ++ w2) = a :: s ++ [b].
Proof.
  intros H1 H2 Ha Hb. unfold strip.
  rewrite lstrip_spaces by assumption.
  cbn [app]. rewrite lstrip_nonspace by assumption.
  change (a :: (s ++ [b]) ++ w2) with ((a :: s ++ [b]) ++ w2).
  rewrite rstrip_spaces by assumption.
  change (a :: s ++ [b]) with ((a :: s) ++ [b]).
  apply rstrip_nonspace. exact Hb.
Qed.

(** The first line feed of a text cuts it in two. *)
Lemma split_nl1_first (a rest : str) :
  forallb (fun c => negb (c =? 10)%N) a = true ->
  split_nl1 (a ++ 10%N :: rest) = (a, Some rest).
Proof.
  induction a as [| c a IH]; intros H; [reflexivity |].
  cbn [forallb] in H. apply andb_prop in H as [Hc Ha].
  cbn [app split_nl1]. apply negb_true_iff in Hc. rewrite Hc, (IH Ha). reflexivity.
Qed.

Lemma contains_app (sep a b : str) : contains sep (a ++ sep ++ b) = true.
Proof.
  induction a as [| c a IH].
  - cbn [app]. destruct (sep ++ b) eqn:E; cbn [contains];
      rewrite <- E, startswith_app; reflexivity.
  - cbn [app contains]. rewrite IH. apply orb_true_r.
Qed.

(** The rightmost fence of a text that ends with one is that one. *)
Lemma rfind_head_fence (p : str) : rfind_head fence (p ++ fence) = Some p.
Proof.
  induction p as [| c p IH]; [reflexivity |].
  cbn [app rfind_head]. rewrite IH. reflexivity.
Qed.

Lemma rsplit1_head_fence (p : str) : rsplit1_head fence (p ++ fence) = p.
Proof. unfold rsplit1_head. rewrite rfind_head_fence. reflexivity. Qed.

End Strings.

(** ** Computations, step by step *)

Lemma bind_inv {A B} (m : M A) (k : A -> M B) (db db' : Db) (o : outcome B)
    (ev : list event) :
  bind m k db = (o, db', ev) ->
  (exists a db1 ev1 ev2,
      m db = (Ret a, db1, ev1) /\ k a db1 = (o, db', ev2) /\ ev = ev1 ++ ev2)
  \/ (m db = (Continue, db', ev) /\ o = Continue)
  \/ (exists e, m db = (Raise e, db', ev) /\ o = Raise e).
Proof.
  unfold bind. destruct (m db) as [[[a | | e] db1] ev1].
  - destruct (k a db1) as [[o2 db2] ev2] eqn:Hk. intros H. inversion H; subst.
    left. exists a, db1, ev1, ev2. auto.
  - intros H. inversion H; subst. right; left. auto.
  - intros H. inversion H; subst. right; right. exists e. auto.
Qed.

Lemma try_except_inv {A} (body : M A) (handler : exn -> M A) (db db' : Db)
    (o : outcome A) (ev : list event) :
  try_except body handler db = (o, db', ev) ->
  (body db = (o, db', ev) /\ (forall e, o <> Raise e))
  \/ (exists e db1 ev1 ev2,
         body db = (Raise e, db1, ev1) /\ handler e db1 = (o, db', ev2)
         /\ ev = ev1 ++ ev2).
Proof.
  unfold try_except. destruct (body db) as [[[a | | e] db1] ev1].
  - intros H. left. split; [exact H |]. inversion H; subst. discriminate.
  - intros H. left. split; [exact H |]. inversion H; subst. discriminate.
  - destruct (handler e db1) as [[o2 db2] ev2] eqn:Hh. intros H. inversion H; subst.
    right. exists e, db1, ev1, ev2. auto.
Qed.

(** Takes a computation that is known to have produced a result apart, one
    step at a time. *)
Ltac mstep :=
  match goal with
  | H : bind _ _ _ = (_, _, _) |- _ =>
      apply bind_inv in H;
      destruct H as [(? & ? & ? & ? & ? & ? & ?) | [(? & ?) | (? & ? & ?)]]
  | H : ret _ _ = (_, _, _) |- _ => unfold ret in H; inversion H; clear H
  | H : raise _ _ = (_, _, _) |- _ => unfold raise in H; inversion H; clear H
  | H : continue _ = (_, _, _) |- _ => unfold continue in H; inversion H; clear H
  | H : emit _ _ = (_, _, _) |- _ => unfold emit in H; inversion H; clear H
  | H : sleep _ _ = (_, _, _) |- _ => unfold sleep in H
  | H : print _ _ = (_, _, _) |- _ => unfold print in H
  | H : get_db _ = (_, _, _) |- _ => unfold get_db in H; inversion H; clear H
  | H : put_db _ _ = (_, _, _) |- _ => unfold put_db in H; inversion H; clear H
  | H : returned ?o _ = (_, _, _) |- _ =>
      let E := fresh "E" in destruct o eqn:E; cbn [returned] in H
  | H : call ?b _ _ = (_, _, _) |- _ =>
      let E := fresh "E" in destruct b eqn:E; cbn [call] in H
  | H : (if ?b then _ else _) _ = (_, _, _) |- _ =>
      let E := fresh "E" in destruct b eqn:E
  end; subst.

Ltac msteps := repeat mstep.

(** ** The ledger functions *)

Section LedgerFacts.

Lemma save_trade_inv (now : str) (td : TradeData) (db db' : Db) (o : outcome Z)
    (ev : list event) :
  save_trade now td db = (o, db', ev) ->
  ev = [] /\
  ((o = Raise Exception /\ db' = db /\ trade_data_ok td = false)
   \/ (o = Ret (next_id (trades db)) /\ trade_data_ok td = true
       /\ db' = mkDb (trades db ++ [new_trade (next_id (trades db)) now td])
                     (analyses db))).
Proof.
  unfold save_trade. intros H. msteps; cbn; auto.
  all: split; [reflexivity |]; right; auto.
Qed.

Lemma save_ai_analysis_inv (now : str) (ad : AnalysisData) (tid : option Z)
    (db db' : Db) (o : outcome Z) (ev : list event) :
  save_ai_analysis now ad tid db = (o, db', ev) ->
  ev = [] /\ trades db' = trades db /\
  ((o = Raise Exception /\ db' = db)
   \/ (o = Ret (next_id (analyses db))
       /\ analyses db' = analyses db ++ [new_analysis (next_id (analyses db)) now ad tid])).
Proof.
  unfold save_ai_analysis. intros H. msteps; cbn; auto.
Qed.

Lemma link_analysis_inv (tid aid : Z) (db db' : Db) (o : outcome unit) (ev : list event) :
  link_analysis tid aid db = (o, db', ev) ->
  ev = [] /\ o = Ret tt /\ trades db' = trades db
  /\ List.length (analyses db') = List.length (analyses db).
Proof.
  unfold link_analysis. intros H. msteps; cbn. repeat split. apply length_map.
Qed.

Lemma get_latest_open_trade_inv (db db' : Db) (o : outcome (option Trade))
    (ev : list event) :
  get_latest_open_trade db = (o, db', ev) ->
  o = Ret (latest_open (trades db)) /\ db' = db /\ ev = [].
Proof. unfold get_latest_open_trade. intros H. msteps. auto. Qed.

Lemma update_trade_status_inv (tid : Z) (st : Status) (xp : option float)
    (xt : option str) (pl plp : option float) (db db' : Db) (o : outcome unit)
    (ev : list event) :
  update_trade_status tid st xp xt pl plp db = (o, db', ev) ->
  o = Ret tt /\ ev = []
  /\ db' = mkDb (map (update_row tid st xp xt pl plp) (trades db)) (analyses db).
Proof. unfold update_trade_status. intros H. msteps. auto. Qed.

(** The latest open trade is an open row of the table. *)
Lemma latest_open_some (rows : list Trade) (t : Trade) :
  latest_open rows = Some t -> In t rows /\ status t = OPEN.
Proof.
  induction rows as [| r rows IH]; cbn; [discriminate |].
  destruct (status r) eqn:Hr; cbn.
  - destruct (latest_open rows) as [u |].
    + destruct (PyStr.ltb (timestamp r) (timestamp u)); intros H; inversion H; subst.
      * destruct (IH eq_refl). auto.
      * auto.
    + intros H; inversion H; subst. auto.
  - intros H. destruct (IH H). auto.
Qed.

(** There is none exactly when no row is open. *)
Lemma latest_open_none (rows : list Trade) :
  latest_open rows = None -> filter (fun t => is_open (status t)) rows = [].
Proof.
  induction rows as [| r rows IH]; cbn; [reflexivity |].
  destruct (is_open (status r)).
  - destruct (latest_open rows) as [u |]; [| discriminate].
    destruct (PyStr.ltb (timestamp r) (timestamp u)); discriminate.
  - exact IH.
Qed.

Lemma status_update_row (tid : Z) (xp : option float) (xt : option str)
    (pl plp : option float) (r : Trade) :
  is_open (status (update_row tid CLOSED xp xt pl plp r))
  = is_open (status r) && negb (id r =? tid)%Z.
Proof.
  unfold update_row. destruct (id r =? tid)%Z; cbn.
  - rewrite andb_false_r. reflexivity.
  - rewrite andb_true_r. reflexivity.
Qed.

(** Closing by key closes the open rows with that key and opens none. *)
Lemma close_count_le (tid : Z) (xp : option float) (xt : option str)
    (pl plp : option float) (rows : list Trade) :
  (List.length (filter (fun t => is_open (status t))
                  (map (update_row tid CLOSED xp xt pl plp) rows))
   <= List.length (filter (fun t => is_open (status t)) rows))%nat.
Proof.
  induction rows as [| r rows IH]; cbn [map filter]; [lia |].
  rewrite status_update_row.
  destruct (is_open (status r)), (id r =? tid)%Z; cbn [andb negb List.length]; lia.
Qed.

Lemma close_count_lt (t : Trade) (xp : option float) (xt : option str)
    (pl plp : option float) (rows : list Trade) :
  In t rows -> status t = OPEN ->
  (List.length (filter (fun t => is_open (status t))
                  (map (update_row (id t) CLOSED xp xt pl plp) rows))
   < List.length (filter (fun t => is_open (status t)) rows))%nat.
Proof.
  intros Hin Hopen. induction rows as [| r rows IH]; [destruct Hin |].
  cbn [map filter]. rewrite status_update_row.
  destruct Hin as [-> | Hin].
  - rewrite Hopen, Z.eqb_refl. cbn [is_open andb negb List.length].
    pose proof (close_count_le (id t) xp xt pl plp rows). lia.
  - specialize (IH Hin).
    destruct (is_open (status r)), (id r =? id t)%Z; cbn [andb negb List.length]; lia.
Qed.

Lemma open_trades_app (ts : list Trade) (r : Trade) (an an' : list Analysis) :
  open_trades (mkDb (ts ++ [r]) an)
  = (open_trades (mkDb ts an') + (if is_open (status r) then 1 else 0))%nat.
Proof.
  unfold open_trades. cbn [trades]. rewrite filter_app, length_app. cbn [filter].
  destruct (is_open (status r)); reflexivity.
Qed.

End LedgerFacts.

(** ** Opening a position *)

Ltac ledger_inv :=
  repeat match goal with
    | H : save_trade _ _ _ = _ |- _ =>
        apply save_trade_inv in H; destruct H as [? [(? & ? & ?) | (? & ? & ?)]]; subst
    | H : save_ai_analysis _ _ _ _ = _ |- _ =>
        apply save_ai_analysis_inv in H; destruct H as (? & ? & [(? & ?) | (? & ?)]); subst
    | H : link_analysis _ _ _ = _ |- _ =>
        apply link_analysis_inv in H; destruct H as (? & ? & ? & ?); subst
    | H : get_latest_open_trade _ = _ |- _ =>
        apply get_latest_open_trade_inv in H; destruct H as (? & ? & ?); subst
    | H : update_trade_status _ _ _ _ _ _ _ = _ |- _ =>
        apply update_trade_status_inv in H; destruct H as (? & ? & ?); subst
    end.

Lemma pystr_eqb_eq (a b : str) : PyStr.eqb a b = true -> a = b.
Proof.
  revert b. induction a as [| x a IH]; intros [| y b]; cbn; try discriminate; auto.
  intros H. apply andb_prop in H as [Hx Hab]. apply N.eqb_eq in Hx. subst.
  f_equal. auto.
Qed.

Lemma orders_app (a b : list event) : orders (a ++ b) = orders a ++ orders b.
Proof. apply filter_app. Qed.

Lemma open_position_inv (env : Env) (long : bool) (price q : float) (d : Decision)
    (inv : float) (aid : Z) (db db' : Db) (o : outcome unit) (ev : list event) :
  open_position env long price q d inv aid db = (o, db', ev) ->
  opening env long price q d inv (trades db) (trades db') (orders ev).
Proof.
  unfold open_position, opening. intros H.
  msteps; ledger_inv; try discriminate; cbn [app orders filter is_order].
  all: try (left; (exists 0%nat + exists 1%nat); split; reflexivity).
  all: match goal with E : bracket _ _ _ _ = Some ?x |- _ => destruct x as [sl tp] end.
  all: right; exists sl, tp; (split; [first [assumption | reflexivity] |]);
    cbn [fst snd] in *.
  all: try (left; (exists 2%nat + exists 3%nat); split; reflexivity).
  right. split; [reflexivity |]. assumption.
Qed.

Lemma trade_inv (env : Env) (price : float) (d : Decision) (aid : Z) (action : str)
    (db db' : Db) (o : outcome unit) (ev : list event) :
  trade env price d aid action db = (o, db', ev) ->
  (orders ev = [] /\ trades db' = trades db)
  \/ exists (long : bool) cap raw q,
      action = (if long then py "long" else py "short")
      /\ balance_free env = Some cap
      /\ fmul cap (recommended_position_size d) = Some raw
      /\ order_amount (minimum_order raw) price = Some q
      /\ opening env long price q d (minimum_order raw) (trades db) (trades db') (orders ev).
Proof.
  unfold trade. intros H. msteps.
  all: repeat match goal with
         | H : open_position _ _ _ _ _ _ _ _ = _ |- _ => apply open_position_inv in H
         | H : PyStr.eqb _ _ = true |- _ => apply pystr_eqb_eq in H
         end; subst.
  all: rewrite ?orders_app; cbn [orders filter is_order app].
  all: try (left; split; reflexivity).
  all: right; (exists true + exists false); do 3 eexists;
    repeat (split; [first [reflexivity | eassumption] |]); eassumption.
Qed.

Lemma json_loads_inv (s : str) (db db' : Db) (o : outcome json) (ev : list event) :
  json_loads s db = (o, db', ev) ->
  db' = db /\ ev = []
  /\ ((Json.loads s = None /\ o = Raise JSONDecodeError)
      \/ exists j, Json.loads s = Some j /\ o = Ret j).
Proof.
  unfold json_loads. destruct (Json.loads s) as [j |]; intros H; msteps; eauto 6.
Qed.

Lemma decide_and_trade_inv (env : Env) (price : float) (content : option str)
    (db db' : Db) (o : outcome unit) (ev : list event) :
  decide_and_trade env price content db = (o, db', ev) ->
  decided env price (read_content content) (trades db) (trades db') (orders ev).
Proof.
  unfold decide_and_trade, read_content. intros H. msteps; ledger_inv.
  all: repeat match goal with
         | H : json_loads _ _ = _ |- _ =>
             apply json_loads_inv in H;
             destruct H as (? & ? & [(? & ?) | (? & ? & ?)]); subst
         end; try congruence.
  all: rewrite ?orders_app; cbn [orders filter is_order app]; rewrite ?app_nil_r.
  all: try (left; split; [reflexivity | congruence]).
  match goal with H : trade _ _ _ _ _ _ = _ |- _ => apply trade_inv in H; rename H into Ht end.
  destruct Ht as [[Ho Ht] | (long & cap & raw & q & Ha & Hb & Hm & Hq & Hopen)].
  - left. split; [exact Ho | congruence].
  - right. match goal with H : Json.loads _ = Some _ |- _ => rewrite H end.
    repeat match goal with H : Ret _ = Ret _ |- _ => inversion H; subst; clear H end.
    match goal with H : read_decision _ = Some ?d |- _ => exists long, cap, raw, q, d; split; [exact H |] end.
    split.
    + repeat split; try assumption.
      match goal with E : match direction ?d with _ => _ end = Some _ |- _ =>
        destruct (direction d); try discriminate; inversion E; subst end.
      eexists; split; [reflexivity | assumption].
    + match goal with H : trades _ = trades _ |- _ => rewrite <- H end. exact Hopen.
Qed.

Lemma decide_inv (env : Env) (price : float) (content : option str)
    (db db' : Db) (o : outcome unit) (ev : list event) :
  try_except (decide_and_trade env price content) (on_error content) db = (o, db', ev) ->
  (forall e, o <> Raise e)
  /\ decided env price (read_content content) (trades db) (trades db') (orders ev).
Proof.
  intros H. apply try_except_inv in H.
  destruct H as [[H Ho] | (e & db1 & ev1 & ev2 & H & Hh & ->)].
  - split; [exact Ho |]. eapply decide_and_trade_inv; eassumption.
  - apply decide_and_trade_inv in H.
    unfold on_error in Hh. destruct e; msteps; try discriminate.
    all: split; [intros e; discriminate |].
    all: rewrite !orders_app; cbn [orders filter is_order app]; rewrite ?app_nil_r; exact H.
Qed.

(** ** Closing, cancelling *)

Lemma closure_inv (env : Env) (price : float) (side : str) (t : Trade)
    (db db' : Db) (o : outcome unit) (ev : list event) :
  latest_open (trades db) = Some t ->
  handle_position_closure env price side (amount t) (Some (id t)) db = (o, db', ev) ->
  analyses db' = analyses db /\ orders ev = []
  /\ match settle env price (trades db) with
     | Some ts => o = Ret tt /\ trades db' = ts
     | None => o = Raise Exception /\ db' = db
     end.
Proof.
  intros Ht H. unfold settle. rewrite Ht.
  unfold handle_position_closure in H. msteps; ledger_inv.
  all: repeat match goal with H : Ret _ = Ret _ |- _ => inversion H; subst; clear H end.
  all: try congruence.
  all: try match goal with
         | H : latest_open ?r = Some _, H' : context [latest_open ?r] |- _ =>
             rewrite H in H'
         end.
  all: msteps; ledger_inv.
  all: rewrite ?orders_app; cbn [orders filter is_order app].
  all: repeat match goal with
         | H : (_ =? _)%Z = _ |- _ => rewrite H
         | H : profit_and_loss _ _ _ _ = _ |- _ => rewrite H
         end.
  all: cbn [trades analyses]; auto.
Qed.

Lemma cancel_all_inv (os : list (str * bool)) (db db' : Db) (o : outcome unit)
    (ev : list event) :
  cancel_all os db = (o, db', ev) ->
  db' = db /\ orders ev = [] /\ (o = Ret tt \/ o = Raise Exception).
Proof.
  revert db db' o ev. induction os as [| [oid ok] os IH]; intros db db' o ev H.
  - cbn in H. msteps. auto.
  - cbn [cancel_all] in H. msteps; try (repeat split; auto; fail).
    match goal with H : cancel_all _ _ = _ |- _ =>
      apply IH in H; destruct H as (-> & Ho & Hr) end.
    repeat split; [| exact Hr]. rewrite orders_app, Ho. reflexivity.
Qed.

Lemma cancel_inv (env : Env) (db db' : Db) (o : outcome unit) (ev : list event) :
  cancel_remaining_orders env db = (o, db', ev) ->
  o = Ret tt /\ db' = db /\ orders ev = [].
Proof.
  unfold cancel_remaining_orders. intros H. apply try_except_inv in H.
  destruct H as [[H Ho] | (e & db1 & ev1 & ev2 & H & Hh & ->)].
  - msteps; try (exfalso; eapply Ho; reflexivity).
    match goal with H : cancel_all _ _ = _ |- _ =>
      pose proof (cancel_all_inv _ _ _ _ _ H) as (-> & Hev & [-> | ->]) end.
    + auto.
    + exfalso; eapply Ho; reflexivity.
  - msteps.
    + match goal with H : cancel_all _ _ = _ |- _ =>
        pose proof (cancel_all_inv _ _ _ _ _ H) as (-> & Hev & _) end.
      rewrite !orders_app, Hev. auto.
    + auto.
Qed.

(** ** One pass *)

Lemma decision_of_read (env : Env) (content : option str) :
  oracle env = Some content -> decision_of env = read_content content.
Proof. unfold decision_of. intros ->. reflexivity. Qed.

Lemma iteration_out (env : Env) (db db' : Db) (ev : list event) :
  iteration env db = (db', ev) ->
  exists o ev1, loop_body env db = (o, db', ev1)
                /\ orders ev = orders ev1
                /\ (forall a, o = Ret a -> ev = ev1).
Proof.
  unfold iteration. destruct (loop_body env db) as [[o db1] ev1].
  destruct o as [a | | e]; intros H; inversion H; subst; clear H.
  all: eexists _, _; repeat split; auto; try discriminate.
  rewrite orders_app. cbn. apply app_nil_r.
Qed.

Lemma close_open_trade_inv (env : Env) (price : float) (db db' : Db)
    (o : outcome unit) (ev : list event) :
  close_open_trade env price (latest_open (trades db)) db = (o, db', ev) ->
  analyses db' = analyses db /\ orders ev = []
  /\ match settle env price (trades db) with
     | Some ts => o = Ret tt /\ trades db' = ts
     | None => o = Raise Exception /\ db' = db
     end.
Proof.
  unfold close_open_trade. destruct (latest_open (trades db)) as [t |] eqn:Ht.
  - cbn [option_map]. apply closure_inv. exact Ht.
  - intros H. msteps. unfold settle. rewrite Ht. auto.
Qed.

(** A pass that finds no position: the closure, then the decision. *)
Lemma without_position_inv (env : Env) (price : float) (db db' : Db)
    (o : outcome unit) (ev : list event) :
  without_position env price (latest_open (trades db)) db = (o, db', ev) ->
  match settle env price (trades db) with
  | None => db' = db /\ orders ev = [] /\ o = Raise Exception
  | Some ts => decided env price (decision_of env) ts (trades db') (orders ev)
  end.
Proof.
  unfold without_position. intros H.
  apply bind_inv in H.
  destruct H as [(a & db1 & ev1 & ev2 & Hc & H & ->) | [(Hc & ->) | (e & Hc & ->)]];
    apply close_open_trade_inv in Hc; destruct Hc as (Han & Hev & Hc);
    destruct (settle env price (trades db)) as [ts |]; destruct Hc as [Ho Hts];
    try discriminate; auto.
  subst ts.
  apply bind_inv in H.
  destruct H as [(a2 & db2 & ev3 & ev4 & Hc & H & ->) | [(Hc & ->) | (e & Hc & ->)]];
    apply cancel_inv in Hc; destruct Hc as (Ho2 & -> & Hev2); try discriminate.
  rewrite !orders_app, Hev, Hev2. cbn [app].
  msteps; cbn [orders filter is_order app]; try (left; auto; fail).
  all: rewrite ?orders_app; cbn [orders filter is_order app].
  all: match goal with H : try_except _ _ _ = _ |- _ =>
         apply decide_inv in H; destruct H as [_ H];
         erewrite decision_of_read by eassumption; exact H
       end.
Qed.

Ltac same :=
  repeat match goal with
    | H : Ret _ = Ret _ |- _ => inversion H; subst; clear H
    | H : Raise _ = Raise _ |- _ => inversion H; subst; clear H
    | H : Some _ = Some _ |- _ => inversion H; subst; clear H
    end.

Lemma bind_ret_l {A B} (a : A) (k : A -> M B) (db : Db) : bind (ret a) k db = k a db.
Proof. unfold bind, ret. destruct (k a db) as [[o db'] ev]. reflexivity. Qed.

Lemma bind_get_latest {B} (k : option Trade -> M B) (db : Db) :
  bind get_latest_open_trade k db = k (latest_open (trades db)) db.
Proof.
  unfold get_latest_open_trade, bind, get_db, ret.
  destruct (k _ db) as [[o db'] ev]. reflexivity.
Qed.

(** A pass that finds a position. *)
Lemma with_position_inv (env : Env) (price : float) (side : str) (amt : float)
    (db db' : Db) (o : outcome unit) (ev : list event) :
  with_position env price side amt (latest_open (trades db)) db = (o, db', ev) ->
  analyses db' = analyses db
  /\ match latest_open (trades db) with
     | Some _ => db' = db /\ o = Ret tt /\ ev = []
     | None =>
         if trade_data_ok (temp_trade_data side price amt)
         then o = Ret tt /\ ev = [Print MsgAdopted]
              /\ trades db' = trades db ++ [new_trade (next_id (trades db)) (now_trade env)
                                              (temp_trade_data side price amt)]
         else o = Raise Exception /\ db' = db /\ ev = []
     end.
Proof.
  unfold with_position. destruct (latest_open (trades db)) as [t |].
  - intros H. msteps. auto.
  - intros H. msteps; ledger_inv; same; try discriminate.
    all: match goal with H : trade_data_ok _ = _ |- _ => rewrite H end; cbn; auto.
Qed.

(** What a pass does, by what it finds. *)
Lemma iteration_inv (env : Env) (db db' : Db) (ev : list event) :
  iteration env db = (db', ev) ->
  match ticker_last env, positions env with
  | Some price, Some ps =>
      match fst (current_position ps) with
      | Some side =>
          analyses db' = analyses db
          /\ match latest_open (trades db) with
             | Some _ => db' = db /\ ev = [Sleep 60]
             | None =>
                 if trade_data_ok (temp_trade_data side price (snd (current_position ps)))
                 then ev = [Print MsgAdopted; Sleep 60]
                      /\ trades db' = trades db
                                      ++ [new_trade (next_id (trades db)) (now_trade env)
                                            (temp_trade_data side price
                                               (snd (current_position ps)))]
                 else db' = db /\ ev = [Print MsgLoopError; Sleep 5]
             end
      | None =>
          match settle env price (trades db) with
          | None => db' = db /\ orders ev = []
          | Some ts => decided env price (decision_of env) ts (trades db') (orders ev)
          end
      end
  | _, _ => db' = db /\ ev = [Print MsgLoopError; Sleep 5]
  end.
Proof.
  unfold iteration, loop_body. intros H.
  destruct (ticker_last env) as [price |]; [| cbn in H; inversion H; auto].
  destruct (positions env) as [ps |]; [| cbn in H; inversion H; auto].
  cbn [returned] in H. rewrite !bind_ret_l, bind_get_latest in H.
  destruct (bind _ _ db) as [[o db1] ev1] eqn:Hb in H.
  apply bind_inv in Hb.
  destruct (fst (current_position ps)) as [side |].
  - destruct Hb as [(a & db2 & ev2 & ev3 & Hw & Hs & ->) | [(Hw & ->) | (e & Hw & ->)]];
      msteps; inversion H; subst; clear H;
      apply with_position_inv in Hw; destruct Hw as [Han Hw]; (split; [exact Han |]);
      destruct (latest_open (trades db));
      try destruct (trade_data_ok _);
      intuition (subst; try discriminate; same; auto).
  - destruct Hb as [(a & db2 & ev2 & ev3 & Hw & Hs & ->) | [(Hw & ->) | (e & Hw & ->)]];
      msteps; inversion H; subst; clear H;
      apply without_position_inv in Hw;
      destruct (settle env price (trades db)) as [ts |];
      rewrite ?orders_app in *; cbn [orders filter is_order app] in *;
      rewrite ?app_nil_r in *; intuition (subst; try discriminate; auto).
Qed.

(** ** The single open trade *)

Section SingleOpen.


Lemma next_id_nonzero {A} (rows : list A) : next_id rows <> 0%Z.
Proof. unfold next_id. lia. Qed.

Lemma id_update_row (tid : Z) (st : Status) (xp : option float) (xt : option str)
    (pl plp : option float) (r : Trade) :
  id (update_row tid st xp xt pl plp r) = id r.
Proof. unfold update_row. destruct (id r =? tid)%Z; reflexivity. Qed.

Lemma settle_length (env : Env) (price : float) (rows ts : list Trade) :
  settle env price rows = Some ts -> List.length ts = List.length rows.
Proof.
  unfold settle. destruct (latest_open rows) as [t |]; [| congruence].
  destruct (id t =? 0)%Z; [congruence |].
  destruct (profit_and_loss _ _ _ _); [| discriminate].
  intros H; inversion H. apply length_map.
Qed.

(** Once the closure is through, no row is open. *)
Lemma settle_closes (env : Env) (price : float) (rows ts : list Trade) :
  ledger_ok rows -> settle env price rows = Some ts ->
  open_count ts = 0%nat /\ Forall (fun t => id t <> 0%Z) ts.
Proof.
  intros [Hcount Hids]. unfold settle.
  destruct (latest_open rows) as [t |] eqn:Ht.
  - destruct (latest_open_some rows t Ht) as [Hin Hopen].
    destruct (id t =? 0)%Z eqn:Hid.
    + apply Z.eqb_eq in Hid. rewrite Forall_forall in Hids.
      destruct (Hids t Hin Hid).
    + destruct (profit_and_loss _ _ _ _) as [pl |]; [| discriminate].
      intros [= <-]. split.
      * pose proof (close_count_lt t (Some price) (Some (now_exit env))
                      (Some (fst pl)) (Some (snd pl)) rows Hin Hopen).
        unfold open_count in *. lia.
      * rewrite Forall_forall in *. intros r Hr. apply in_map_iff in Hr.
        destruct Hr as (r0 & <- & Hr0). rewrite id_update_row. auto.
  - intros [= <-]. split; [| exact Hids].
    unfold open_count. rewrite (latest_open_none rows Ht). reflexivity.
Qed.

Lemma open_count_app (ts : list Trade) (r : Trade) :
  open_count (ts ++ [r]) = (open_count ts + if is_open (status r) then 1 else 0)%nat.
Proof.
  unfold open_count. rewrite filter_app, length_app. cbn [filter].
  destruct (is_open (status r)); reflexivity.
Qed.

(** A decision adds at most one row, with a key that is not 0. *)
Lemma decided_keeps (env : Env) (price : float) (d : option Decision)
    (ts ts' : list Trade) (ords : list event) :
  decided env price d ts ts' ords ->
  open_count ts = 0%nat -> Forall (fun t => id t <> 0%Z) ts -> ledger_ok ts'.
Proof.
  intros Hd Hc Hids.
  assert (Hts : ts' = ts \/ exists r, id r = next_id ts /\ ts' = ts ++ [r]).
  { destruct Hd as [[_ ->] | (long & cap & raw & q & d' & _ & _ & Ho)]; [auto |].
    destruct Ho as [(n & _ & ->) | (sl & tp & _ & [(n & _ & ->) | (_ & ->)])]; auto.
    right. eexists. split; [| reflexivity]. reflexivity. }
  destruct Hts as [-> | (r & Hr & ->)].
  - split; [lia | exact Hids].
  - split.
    + rewrite open_count_app, Hc. destruct (is_open (status r)); lia.
    + apply Forall_app. split; [exact Hids |]. constructor; [| constructor].
      rewrite Hr. apply next_id_nonzero.
Qed.

Lemma iteration_keeps (env : Env) (db : Db) :
  ledger_ok (trades db) -> ledger_ok (trades (fst (iteration env db))).
Proof.
  intros Hok. destruct (iteration env db) as [db' ev] eqn:H. cbn [fst].
  apply iteration_inv in H.
  destruct (ticker_last env) as [price |]; [| destruct H as [-> _]; exact Hok].
  destruct (positions env) as [ps |]; [| destruct H as [-> _]; exact Hok].
  destruct (fst (current_position ps)) as [side |].
  - destruct H as [_ H]. destruct (latest_open (trades db)) as [t |] eqn:Ht.
    + destruct H as [-> _]. exact Hok.
    + destruct (trade_data_ok _); [| destruct H as [-> _]; exact Hok].
      destruct H as [_ ->]. destruct Hok as [_ Hids]. split.
      * rewrite open_count_app. unfold open_count.
        rewrite (latest_open_none _ Ht). cbn. lia.
      * apply Forall_app. split; [exact Hids |]. constructor; [| constructor].
        cbn. apply next_id_nonzero.
  - destruct (settle env price (trades db)) as [ts |] eqn:Hs.
    + destruct (settle_closes env price _ ts Hok Hs) as [Hc Hids].
      eapply decided_keeps; eassumption.
    + destruct H as [-> _]. exact Hok.
Qed.

Lemma run_keeps (envs : list Env) (db : Db) :
  ledger_ok (trades db) -> ledger_ok (trades (fst (run envs db))).
Proof.
  revert db. induction envs as [| env envs IH]; intros db Hok; [exact Hok |].
  cbn [run]. pose proof (iteration_keeps env db Hok) as H1.
  destruct (iteration env db) as [db1 ev1]. cbn [fst] in H1.
  specialize (IH db1 H1). destruct (run envs db1) as [db2 ev2]. exact IH.
Qed.

End SingleOpen.

(** C1. Single-open invariant: whatever the exchange, the oracle and the
    clock answer during any number of passes of the main loop, started on an
    empty ledger, at most one row of [trades] has the status ['OPEN'] once
    the passes are through (hence after every one of them, a prefix of the
    answers being a list of answers too). *)
Theorem single_open_invariant (envs : list Env) :
  (open_trades (fst (run envs empty_db)) <= 1)%nat.
Proof.
  assert (H : ledger_ok (trades (fst (run envs empty_db)))).
  { apply run_keeps. split; [cbn; lia | constructor]. }
  exact (proj1 H).
Qed.

(** ** The adopt path *)

Section Adopt.

Lemma open_trades_zero (db : Db) :
  open_trades db = 0%nat -> latest_open (trades db) = None.
Proof.
  unfold open_trades. intros H.
  destruct (latest_open (trades db)) as [t |] eqn:Ht; [| reflexivity].
  destruct (latest_open_some _ _ Ht) as [Hin Hopen].
  assert (Hf : In t (filter (fun t => is_open (status t)) (trades db))).
  { apply filter_In. split; [exact Hin |]. rewrite Hopen. reflexivity. }
  destruct (filter _ (trades db)); [destruct Hf | discriminate].
Qed.

(** The side and the amount that are kept are those of a position of the
    symbol that the exchange reported, long above zero and short below. *)
Lemma current_position_reported (ps : list (str * float)) (side : str) :
  fst (current_position ps) = Some side ->
  exists a, In (py "BTC/USDT:USDT", a) ps
            /\ (((0 <? a)%float = true /\ side = py "long"
                 /\ snd (current_position ps) = a)
                \/ ((a <? 0)%float = true /\ side = py "short"
                    /\ snd (current_position ps) = abs a)).
Proof.
  unfold current_position. revert side.
  induction ps as [| p ps IH] using rev_ind; intros side; [discriminate |].
  rewrite fold_left_app. cbn [fold_left].
  destruct (PyStr.eqb (fst p) (py "BTC/USDT:USDT")) eqn:Hsym.
  - apply pystr_eqb_eq in Hsym.
    destruct (0 <? snd p)%float eqn:Hpos; [| destruct (snd p <? 0)%float eqn:Hneg].
    + cbn [fst snd]. intros [= <-]. exists (snd p). split.
      * apply in_or_app. right. left. rewrite <- Hsym. destruct p; reflexivity.
      * left. auto.
    + cbn [fst snd]. intros [= <-]. exists (snd p). split.
      * apply in_or_app. right. left. rewrite <- Hsym. destruct p; reflexivity.
      * right. auto.
    + intros H. destruct (IH side H) as (a & Hin & Ha). exists a. split; [| exact Ha].
      apply in_or_app. left. exact Hin.
  - intros H. destruct (IH side H) as (a & Hin & Ha). exists a. split; [| exact Ha].
    apply in_or_app. left. exact Hin.
Qed.

Lemma current_position_amount (ps : list (str * float)) (side : str) :
  fst (current_position ps) = Some side ->
  is_nan (snd (current_position ps)) = false.
Proof.
  intros H. destruct (current_position_reported ps side H)
    as (a & _ & [(Ha & _ & ->) | (Ha & _ & ->)]).
  - apply positive_not_nan. exact Ha.
  - apply negative_abs_not_nan. exact Ha.
Qed.

Lemma temp_trade_data_ok (side : str) (price amt : float) :
  trade_data_ok (temp_trade_data side price amt)
  = negb (is_nan price) && negb (is_nan amt).
Proof.
  unfold trade_data_ok, temp_trade_data. cbn.
  rewrite !andb_true_r. reflexivity.
Qed.

End Adopt.

(** C9. Adopt path: in a pass where the exchange reports a position (the
    ticker giving a price, which is a number) and no row of [trades] is open,
    exactly one row is added to [trades]; it is ['OPEN'] and carries the side
    and the amount of a position the exchange reported (long with its amount
    when above zero, short with the absolute value when below), the price of
    the ticker as entry price, a leverage of 1, and zero in the stop-loss and
    take-profit prices and percentages, in the position size and in the
    investment; nothing else is written and no order is placed. *)
Theorem adopt_path (env : Env) (db : Db) (price : float) (ps : list (str * float))
    (side : str) :
  ticker_last env = Some price ->
  is_nan price = false ->
  positions env = Some ps ->
  fst (current_position ps) = Some side ->
  open_trades db = 0%nat ->
  iteration env db
  = (mkDb (trades db
           ++ [mkTrade (next_id (trades db)) (now_trade env) side price
                 (snd (current_position ps)) (JInt 1)
                 0%float 0%float 0%float 0%float 0%float 0%float
                 OPEN None None None None])
          (analyses db),
     [Print MsgAdopted; Sleep 60])
  /\ exists a, In (py "BTC/USDT:USDT", a) ps
               /\ (((0 <? a)%float = true /\ side = py "long"
                    /\ snd (current_position ps) = a)
                   \/ ((a <? 0)%float = true /\ side = py "short"
                       /\ snd (current_position ps) = abs a)).
Proof.
  intros Hprice Hnan Hps Hside Hopen.
  split; [| apply current_position_reported; exact Hside].
  destruct (iteration env db) as [db' ev] eqn:H.
  apply iteration_inv in H. rewrite Hprice, Hps, Hside in H.
  rewrite (open_trades_zero db Hopen) in H.
  rewrite temp_trade_data_ok, Hnan, (current_position_amount ps side Hside) in H.
  cbn [negb andb] in H. destruct H as (Han & -> & Hts).
  destruct db' as [ts an]. cbn [trades analyses] in *. subst. reflexivity.
Qed.

(** A short position of 0.5 BTC is found while the table is empty. *)
Lemma adopt_path_witness :
  fst (iteration (position_env 110 (-0.5)) empty_db)
  = mkDb [mkTrade 1 (py "2025-01-02T00:00:00") (py "short") 110 0.5 (JInt 1)
            0 0 0 0 0 0 OPEN None None None None] []
  /\ snd (iteration (position_env 110 (-0.5)) empty_db) = [Print MsgAdopted; Sleep 60].
Proof.
  destruct (adopt_path (position_env 110 (-0.5)) empty_db 110
              [(py "BTC/USDT:USDT", (-0.5)%float)] (py "short")) as [H _].
  - reflexivity.
  - reflexivity.
  - reflexivity.
  - reflexivity.
  - reflexivity.
  - rewrite H. split; reflexivity.
Defined.

(** ** Profit and loss of a closure *)

Section Closure.

Lemma decided_keeps_rows (env : Env) (price : float) (d : option Decision)
    (ts ts' : list Trade) (ords : list event) :
  decided env price d ts ts' ords -> forall r, In r ts -> In r ts'.
Proof.
  intros Hd r Hr.
  destruct Hd as [[_ ->] | (long & cap & raw & q & d' & _ & _ & Ho)]; [exact Hr |].
  destruct Ho as [(n & _ & ->) | (sl & tp & _ & [(n & _ & ->) | (_ & ->)])];
    try exact Hr.
  apply in_or_app. left. exact Hr.
Qed.

Lemma profit_and_loss_long (price entry amt : float) :
  (entry =? 0)%float = false ->
  profit_and_loss (py "long") price entry amt
  = Some (((price - entry) * amt)%float, ((price / entry - 1) * 100)%float).
Proof. intros H. unfold profit_and_loss, fdiv. rewrite H. reflexivity. Qed.

Lemma profit_and_loss_short (price entry amt : float) :
  (entry =? 0)%float = false ->
  profit_and_loss (py "short") price entry amt
  = Some (((entry - price) * amt)%float, ((1 - price / entry) * 100)%float).
Proof. intros H. unfold profit_and_loss, fdiv. rewrite H. reflexivity. Qed.

Lemma profit_and_loss_some (a : str) (price entry amt : float) :
  (entry =? 0)%float = false ->
  exists pl, profit_and_loss a price entry amt = Some pl.
Proof.
  intros H. unfold profit_and_loss, fdiv. rewrite H.
  destruct (PyStr.eqb a (py "long")); eexists; reflexivity.
Qed.

(** A pass without a position closes the open trade [t] of the table with
    the P/L of its direction, computed on its own entry price and amount and
    on the price of the ticker. *)
Lemma closure_recorded (env : Env) (db : Db) (t : Trade) (price : float) :
  ticker_last env = Some price ->
  flat env ->
  latest_open (trades db) = Some t ->
  id t <> 0%Z ->
  (entry_price t =? 0)%float = false ->
  exists pl,
    profit_and_loss (action t) price (entry_price t) (amount t) = Some pl
    /\ In (update_row (id t) CLOSED (Some price) (Some (now_exit env))
                      (Some (fst pl)) (Some (snd pl)) t)
          (trades (fst (iteration env db))).
Proof.
  intros Hprice (ps & Hps & Hflat) Ht Hid Hentry.
  destruct (profit_and_loss_some (action t) price (entry_price t) (amount t) Hentry)
    as [pl Hpl].
  exists pl. split; [exact Hpl |].
  destruct (iteration env db) as [db' ev] eqn:H. cbn [fst].
  apply iteration_inv in H. rewrite Hprice, Hps, Hflat in H.
  unfold settle in H. rewrite Ht, Hpl in H.
  apply Z.eqb_neq in Hid. rewrite Hid in H.
  eapply decided_keeps_rows; [exact H |].
  apply in_map. exact (proj1 (latest_open_some _ _ Ht)).
Qed.

End Closure.


(** C2 (as amended). P/L on closure: a pass that finds no position while
    a trade [t] is open in the table (with a key and an entry price that are
    not 0) closes that row with the price of the ticker as exit price and,
    for the action ['long'], [pnl = (exit - entry) * amount] and
    [pnlPct = (exit / entry - 1) * 100], for the action ['short'],
    [pnl = (entry - exit) * amount] and [pnlPct = (1 - exit / entry) * 100],
    entry price and amount being those of the row.  The operations are those
    of binary64: long with entry 100, exit 110, amount 1 yields pnl 10 and
    pnlPct 10.000000000000009; short with entry 100, exit 90, amount 1 yields
    pnl 10 and pnlPct 9.999999999999998. *)
Theorem closure_profit_and_loss :
  (forall (env : Env) (db : Db) (t : Trade) (price : float),
      ticker_last env = Some price ->
      flat env ->
      latest_open (trades db) = Some t ->
      id t <> 0%Z ->
      (entry_price t =? 0)%float = false ->
      exists pnl pnl_pct : float,
        (action t = py "long" ->
         pnl = ((price - entry_price t) * amount t)%float
         /\ pnl_pct = ((price / entry_price t - 1) * 100)%float)
        /\ (action t = py "short" ->
            pnl = ((entry_price t - price) * amount t)%float
            /\ pnl_pct = ((1 - price / entry_price t) * 100)%float)
        /\ exists row,
            In row (trades (fst (iteration env db)))
            /\ id row = id t
            /\ status row = CLOSED
            /\ exit_price row = nan_to_null price
            /\ exit_timestamp row = Some (now_exit env)
            /\ profit_loss row = nan_to_null pnl
            /\ profit_loss_percentage row = nan_to_null pnl_pct)
  /\ profit_and_loss (py "long") 110 100 1
     = Some (10%float, 10.000000000000009%float)
  /\ profit_and_loss (py "short") 90 100 1
     = Some (10%float, 9.999999999999998%float).
Proof.
  split; [| split; reflexivity].
  intros env db t price Hprice Hflat Ht Hid Hentry.
  destruct (closure_recorded env db t price Hprice Hflat Ht Hid Hentry)
    as ([pnl pnl_pct] & Hpl & Hin).
  exists pnl, pnl_pct. split; [| split].
  - intros Ha. rewrite Ha, (profit_and_loss_long _ _ _ Hentry) in Hpl.
    inversion Hpl. auto.
  - intros Ha. rewrite Ha, (profit_and_loss_short _ _ _ Hentry) in Hpl.
    inversion Hpl. auto.
  - eexists. split; [exact Hin |].
    unfold update_row. rewrite Z.eqb_refl. cbn. auto 10.
Qed.

Lemma closure_profit_and_loss_witness :
  exists row,
    In row (trades (fst (iteration (flat_env 110 1000 (py "no")) (db_open "long"))))
    /\ status row = CLOSED
    /\ profit_loss row = Some 10%float
    /\ profit_loss_percentage row = Some 10.000000000000009%float.
Proof.
  destruct (proj1 closure_profit_and_loss
              (flat_env 110 1000 (py "no")) (db_open "long") (open_trade "long") 110%float)
    as (pnl & pnl_pct & Hlong & _ & row & Hin & _ & Hst & _ & _ & Hpl & Hpct).
  - reflexivity.
  - exists []. split; reflexivity.
  - reflexivity.
  - discriminate.
  - reflexivity.
  - destruct (Hlong eq_refl) as [-> ->].
    exists row. repeat split; assumption.
Defined.

(** C2, the counterexample: on the trades of the claim the percentage the
    code computes is not 10.0, for the long trade nor for the short one. *)
Lemma closure_percentage_inexact :
  profit_and_loss (py "long") 110 100 1 <> Some (10%float, 10%float)
  /\ profit_and_loss (py "short") 90 100 1 <> Some (10%float, 10%float).
Proof.
  split; intros H;
    apply (f_equal (fun o => match o with
                             | Some (_, p) => (p =? 10)%float
                             | None => true
                             end)) in H;
    vm_compute in H; discriminate.
Qed.

(** ** Orders and rows of an opening *)

Section Openings.

Lemma in_firstn {A} (x : A) (n : nat) (l : list A) : In x (firstn n l) -> In x l.
Proof.
  revert l. induction n as [| n IH]; intros [| a l]; cbn; try tauto.
  intros [H | H]; auto.
Qed.

Lemma in_orders (e : event) (ev : list event) :
  In e ev -> is_order e = true -> In e (orders ev).
Proof. intros H1 H2. apply filter_In. auto. Qed.

Lemma orders_in (e : event) (ev : list event) : In e (orders ev) -> In e ev.
Proof. intros H. apply filter_In in H. tauto. Qed.

(** The orders of an opening are among its three orders. *)
Lemma opening_orders (env : Env) (long : bool) (price q : float) (d : Decision)
    (inv : float) (ts ts' : list Trade) (ords : list event) (e : event) :
  opening env long price q d inv ts ts' ords -> In e ords ->
  e = entry_order long q
  \/ exists sl tp,
      bracket long price (stop_loss_percentage d) (take_profit_percentage d) = Some (sl, tp)
      /\ (e = stop_order long q sl \/ e = take_profit_order long q tp).
Proof.
  intros [(n & -> & _) | (sl & tp & Hb & [(n & -> & _) | (-> & _)])] He.
  - apply in_firstn in He. destruct He as [<- | []]. auto.
  - apply in_firstn in He. destruct He as [<- | [<- | [<- | []]]]; eauto 6.
  - destruct He as [<- | [<- | [<- | []]]]; eauto 6.
Qed.

(** The row of an opening, when one is written, comes after its three
    orders. *)
Lemma opening_row (env : Env) (long : bool) (price q : float) (d : Decision)
    (inv : float) (ts ts' : list Trade) (ords : list event) :
  opening env long price q d inv ts ts' ords ->
  ts' = ts
  \/ exists sl tp,
      bracket long price (stop_loss_percentage d) (take_profit_percentage d) = Some (sl, tp)
      /\ ords = [entry_order long q; stop_order long q sl; take_profit_order long q tp]
      /\ ts' = ts ++ [opened_row env long price q d inv sl tp (next_id ts)].
Proof.
  intros [(n & _ & ->) | (sl & tp & Hb & [(n & _ & ->) | (-> & ->)])]; eauto 6.
Qed.

Lemma skipn_length_app {A} (l1 l2 l : list A) :
  List.length l = List.length l1 -> skipn (List.length l) (l1 ++ l2) = l2.
Proof.
  intros ->. rewrite skipn_app, skipn_all, Nat.sub_diag. reflexivity.
Qed.

(** A pass that placed an order, or that found no position and added a row,
    is a pass that took the decision of the oracle and sized an opening
    from it. *)
Lemma iteration_decided (env : Env) (db : Db) :
  orders (snd (iteration env db)) <> []
  \/ (flat env /\ new_trades db (fst (iteration env db)) <> []) ->
  exists price ts long cap raw q d,
    ticker_last env = Some price /\ flat env
    /\ settle env price (trades db) = Some ts
    /\ decision_of env = Some d
    /\ sized env long price cap raw q d
    /\ opening env long price q d (minimum_order raw) ts
               (trades (fst (iteration env db))) (orders (snd (iteration env db))).
Proof.
  destruct (iteration env db) as [db' ev] eqn:H. cbn [fst snd].
  apply iteration_inv in H. unfold new_trades, flat. intros Hsome.
  destruct (ticker_last env) as [price |].
  2:{ destruct H as [-> ->]. rewrite skipn_all in Hsome.
      destruct Hsome as [Hs | [_ Hs]]; destruct Hs; reflexivity. }
  destruct (positions env) as [ps |].
  2:{ destruct H as [-> ->]. rewrite skipn_all in Hsome.
      destruct Hsome as [Hs | [_ Hs]]; destruct Hs; reflexivity. }
  destruct (fst (current_position ps)) as [side |] eqn:Hside.
  - exfalso. destruct H as [_ H].
    assert (Hev : orders ev = []).
    { destruct (latest_open (trades db)); [destruct H as [_ ->]; reflexivity |].
      destruct (trade_data_ok _); destruct H as [H1 H2]; subst; reflexivity. }
    destruct Hsome as [Hs | [(ps' & [= <-] & Hf) _]]; [auto | congruence].
  - destruct (settle env price (trades db)) as [ts |] eqn:Hs.
    + destruct H as [[Hev Hts] | (long & cap & raw & q & d & Hd & Hsz & Ho)].
      * exfalso. rewrite Hev, Hts in Hsome.
        rewrite <- (settle_length _ _ _ _ Hs), skipn_all in Hsome.
        destruct Hsome as [Hx | [_ Hx]]; destruct Hx; reflexivity.
      * exists price, ts, long, cap, raw, q, d.
        split; [reflexivity |]. split; [exists ps; auto |]. auto.
    + exfalso. destruct H as [-> Hev]. rewrite Hev, skipn_all in Hsome.
      destruct Hsome as [Hx | [_ Hx]]; destruct Hx; reflexivity.
Qed.

(** The rows a pass without a position added. *)
Lemma new_trades_opening (env : Env) (price : float) (db db' : Db) (ts : list Trade)
    (long : bool) (q : float) (d : Decision) (inv : float) (ords : list event)
    (r : Trade) :
  settle env price (trades db) = Some ts ->
  opening env long price q d inv ts (trades db') ords ->
  In r (new_trades db db') ->
  exists sl tp,
    bracket long price (stop_loss_percentage d) (take_profit_percentage d) = Some (sl, tp)
    /\ ords = [entry_order long q; stop_order long q sl; take_profit_order long q tp]
    /\ r = opened_row env long price q d inv sl tp (next_id ts).
Proof.
  intros Hs Ho Hr. unfold new_trades in Hr.
  apply opening_row in Ho. destruct Ho as [Hts | (sl & tp & Hb & Hords & Hts)];
    rewrite Hts in Hr.
  - rewrite <- (settle_length _ _ _ _ Hs), skipn_all in Hr. destruct Hr.
  - rewrite skipn_length_app in Hr by (symmetry; eapply settle_length; eassumption).
    destruct Hr as [<- | []]. eauto.
Qed.

(** [math.ceil] gives the least integer that is not below the float. *)
Lemma math_ceil_least (x : float) (n : Z) :
  math_ceil x = Some n ->
  exists v, float_value x = Some v
            /\ (inject_Z (n - 1) < v)%Q /\ (v <= inject_Z n)%Q.
Proof.
  unfold math_ceil. destruct (float_value x) as [v |]; [| discriminate].
  intros [= <-]. exists v. split; [reflexivity |]. split.
  - apply Qceiling_lt.
  - apply Qle_ceiling.
Qed.

Lemma order_amount_inv (inv price q : float) :
  order_amount inv price = Some q ->
  (price =? 0)%float = false
  /\ exists n, math_ceil (inv / price * 1000)%float = Some n
               /\ int_truediv n 1000 = Some q.
Proof.
  unfold order_amount, fdiv. destruct (price =? 0)%float; [discriminate |].
  destruct (math_ceil _) as [n |]; [| discriminate]. eauto.
Qed.

End Openings.


Section Sizing.

Lemma fmul_inv (x : float) (a : pynum) (y : float) :
  fmul x a = Some y -> exists f, to_float a = Some f /\ y = (x * f)%float.
Proof.
  unfold fmul. destruct (to_float a) as [f |]; [| discriminate].
  intros [= <-]. eauto.
Qed.

(** An entry order that a pass placed comes from a sized opening. *)
Lemma entry_order_inv (env : Env) (db : Db) (side : Side) (q : float) :
  In (MarketOrder side q) (snd (iteration env db)) ->
  exists price ts long cap raw d,
    ticker_last env = Some price /\ flat env
    /\ settle env price (trades db) = Some ts
    /\ decision_of env = Some d
    /\ sized env long price cap raw q d
    /\ side = (if long then Buy else Sell)
    /\ opening env long price q d (minimum_order raw) ts
               (trades (fst (iteration env db))) (orders (snd (iteration env db))).
Proof.
  intros Hin. apply in_orders in Hin; [| reflexivity].
  destruct (iteration_decided env db) as (price & ts & long & cap & raw & q' & d & H).
  { left. intros E. rewrite E in Hin. destruct Hin. }
  destruct H as (Hp & Hf & Hs & Hd & Hsz & Ho).
  destruct (opening_orders _ _ _ _ _ _ _ _ _ _ Ho Hin)
    as [He | (sl & tp & _ & [He | He])]; inversion He; subst.
  exists price, ts, long, cap, raw, d. auto 10.
Qed.

(** So does an exit order. *)
Lemma exit_order_inv (env : Env) (db : Db) (kind : OrderKind) (side : Side)
    (q p : float) :
  In (ConditionalOrder kind side q p) (snd (iteration env db)) ->
  exists price ts long cap raw d sl tp,
    ticker_last env = Some price /\ flat env
    /\ settle env price (trades db) = Some ts
    /\ decision_of env = Some d
    /\ sized env long price cap raw q d
    /\ bracket long price (stop_loss_percentage d) (take_profit_percentage d) = Some (sl, tp)
    /\ side = (if long then Sell else Buy)
    /\ p = match kind with STOP_MARKET => sl | TAKE_PROFIT_MARKET => tp end
    /\ opening env long price q d (minimum_order raw) ts
               (trades (fst (iteration env db))) (orders (snd (iteration env db))).
Proof.
  intros Hin. apply in_orders in Hin; [| reflexivity].
  destruct (iteration_decided env db) as (price & ts & long & cap & raw & q' & d & H).
  { left. intros E. rewrite E in Hin. destruct Hin. }
  destruct H as (Hp & Hf & Hs & Hd & Hsz & Ho).
  destruct (opening_orders _ _ _ _ _ _ _ _ _ _ Ho Hin)
    as [He | (sl & tp & Hb & [He | He])]; inversion He; subst.
  all: exists price, ts, long, cap, raw, d, sl, tp; auto 12.
Qed.

End Sizing.

(** C3 (as amended). Order quantity: the quantity [q] of every entry order
    a pass places is [ceil((investment / currentPrice) * 1000) / 1000]
    evaluated in binary64, for the investment sized from the balance and the
    decision and the price of the ticker (which is then not 0): [n] is the
    least integer that is not below the float [investment / price * 1000],
    each operation rounded, and [q] is the float nearest to [n / 1000]; the
    exit orders of the pass are for the same quantity and the row written
    for the trade records it.  Investment 333 at price 100 gives 3.33 and
    investment 100.001 at price 3 gives 33.334; investment 403 at price 100
    gives 4.031, and investment 100.06400000000001 at price 1 gives
    100.064. *)
Theorem order_quantity_rounded_up :
  (forall (env : Env) (db : Db) (side : Side) (q : float),
      In (MarketOrder side q) (snd (iteration env db)) ->
      exists (price cap inv : float) (d : Decision) (n : Z) (v : Q),
        ticker_last env = Some price
        /\ balance_free env = Some cap
        /\ decision_of env = Some d
        /\ investment cap (recommended_position_size d) = Some inv
        /\ (price =? 0)%float = false
        /\ math_ceil (inv / price * 1000)%float = Some n
        /\ float_value (inv / price * 1000)%float = Some v
        /\ (inject_Z (n - 1) < v)%Q /\ (v <= inject_Z n)%Q
        /\ int_truediv n 1000 = Some q
        /\ (forall kind s q' p,
               In (ConditionalOrder kind s q' p) (snd (iteration env db)) -> q' = q)
        /\ (forall r, In r (new_trades db (fst (iteration env db))) -> amount r = q))
  /\ order_amount 333 100 = Some 3.33%float
  /\ order_amount 100.001 3 = Some 33.334%float
  /\ order_amount 403 100 = Some 4.031%float
  /\ order_amount 100.06400000000001 1 = Some 100.064%float.
Proof.
  split; [| repeat split; reflexivity].
  intros env db side q Hin.
  destruct (entry_order_inv env db side q Hin)
    as (price & ts & long & cap & raw & d & Hp & Hf & Hs & Hd & Hsz & Hside & Ho).
  destruct Hsz as (Hdir & Hcap & Hraw & Hq).
  destruct (order_amount_inv _ _ _ Hq) as (Hprice & n & Hn & Hdiv).
  destruct (math_ceil_least _ _ Hn) as (v & Hv & Hlo & Hhi).
  exists price, cap, (minimum_order raw), d, n, v.
  repeat (split; [first [assumption | unfold investment; rewrite Hraw; reflexivity] |]).
  split.
  - intros kind s q' p Hc. apply in_orders in Hc; [| reflexivity].
    destruct (opening_orders _ _ _ _ _ _ _ _ _ _ Ho Hc)
      as [He | (sl & tp & _ & [He | He])]; inversion He; reflexivity.
  - intros r Hr.
    destruct (new_trades_opening _ _ _ _ _ _ _ _ _ _ _ Hs Ho Hr)
      as (sl & tp & _ & _ & ->). reflexivity.
Qed.

Lemma order_quantity_rounded_up_witness :
  exists (price cap inv : float) (d : Decision) (n : Z) (v : Q),
    ticker_last env_long = Some price
    /\ balance_free env_long = Some cap
    /\ decision_of env_long = Some d
    /\ investment cap (recommended_position_size d) = Some inv
    /\ (price =? 0)%float = false
    /\ math_ceil (inv / price * 1000)%float = Some n
    /\ float_value (inv / price * 1000)%float = Some v
    /\ (inject_Z (n - 1) < v)%Q /\ (v <= inject_Z n)%Q
    /\ int_truediv n 1000 = Some 1%float
    /\ (forall kind s q' p,
           In (ConditionalOrder kind s q' p) (snd (iteration env_long empty_db))
           -> q' = 1%float)
    /\ (forall r, In r (new_trades empty_db (fst (iteration env_long empty_db)))
                  -> amount r = 1%float).
Proof.
  apply (proj1 order_quantity_rounded_up env_long empty_db Buy 1%float).
  vm_compute. auto 10.
Defined.

(** C3, the counterexample: the quantity is not always the quotient rounded
    up to three decimals.  The quotient of 403 by 100 is 4.03, whose
    thousandfold has the ceiling 4030, but the float [403 / 100 * 1000] is
    above 4030 and the quantity is 4.031, not 4.03; and the quantity for
    100.06400000000001 at price 1 is 100.064, which is below the quotient. *)
Lemma order_quantity_not_rounded_up :
  (exists inv price : Q,
      float_value 403 = Some inv /\ float_value 100 = Some price
      /\ (inv / price == 403 # 100)%Q
      /\ Qceiling (inv / price * (1000 # 1)) = 4030%Z)
  /\ math_ceil (403 / 100 * 1000)%float = Some 4031%Z
  /\ order_amount 403 100 = Some 4.031%float
  /\ order_amount 403 100 <> Some 4.03%float
  /\ order_amount 100.06400000000001 1 = Some 100.064%float
  /\ (100.064 <? 100.06400000000001 / 1)%float = true.
Proof.
  split.
  { eexists. eexists. split; [reflexivity |]. split; [reflexivity |].
    split; vm_compute; reflexivity. }
  repeat split; try reflexivity.
  intros H.
  apply (f_equal (fun o => match o with
                           | Some q => (q =? 4.03)%float
                           | None => true
                           end)) in H.
  vm_compute in H. discriminate.
Qed.

(** C4. Minimum notional clamp: for every entry order a pass places, the
    investment the quantity is computed from is the free balance times the
    recommended position size (as a float), replaced by exactly 100 when it
    is below 100 and left as it is otherwise; the row written for the trade
    records that investment.  A balance of 1000 with a size of 0.05 is an
    investment of 50, raised to 100. *)
Theorem minimum_notional_clamp :
  (forall (env : Env) (db : Db) (side : Side) (q : float),
      In (MarketOrder side q) (snd (iteration env db)) ->
      exists (price available_capital fraction : float) (d : Decision),
        ticker_last env = Some price
        /\ balance_free env = Some available_capital
        /\ decision_of env = Some d
        /\ to_float (recommended_position_size d) = Some fraction
        /\ let invested :=
             if (available_capital * fraction <? 100)%float then 100%float
             else (available_capital * fraction)%float in
           order_amount invested price = Some q
           /\ forall r, In r (new_trades db (fst (iteration env db))) ->
                        investment_amount r = invested)
  /\ (1000 * 0.05 = 50)%float
  /\ investment 1000 (PFloat 0.05) = Some 100%float.
Proof.
  split; [| split; reflexivity].
  intros env db side q Hin.
  destruct (entry_order_inv env db side q Hin)
    as (price & ts & long & cap & raw & d & Hp & Hf & Hs & Hd & Hsz & Hside & Ho).
  destruct Hsz as (Hdir & Hcap & Hraw & Hq).
  destruct (fmul_inv _ _ _ Hraw) as (fraction & Hfrac & ->).
  exists price, cap, fraction, d.
  do 4 (split; [assumption |]). cbn zeta. split; [exact Hq |].
  intros r Hr.
  destruct (new_trades_opening _ _ _ _ _ _ _ _ _ _ _ Hs Ho Hr)
    as (sl & tp & _ & _ & ->). reflexivity.
Qed.

Lemma minimum_notional_clamp_witness :
  exists (price available_capital fraction : float) (d : Decision),
    ticker_last env_long = Some price
    /\ balance_free env_long = Some available_capital
    /\ decision_of env_long = Some d
    /\ to_float (recommended_position_size d) = Some fraction
    /\ let invested :=
         if (available_capital * fraction <? 100)%float then 100%float
         else (available_capital * fraction)%float in
       order_amount invested price = Some 1%float
       /\ forall r, In r (new_trades empty_db (fst (iteration env_long empty_db))) ->
                    investment_amount r = invested.
Proof.
  apply (proj1 minimum_notional_clamp env_long empty_db Buy 1%float).
  vm_compute. auto 10.
Defined.

(** ** Rounding to two decimals *)

Section Rounding.

(** The integer [round_half_even] picks is at most one half away. *)
Lemma round_half_even_nearest (q : Q) :
  (Qabs (q - inject_Z (round_half_even q)) <= 1 # 2)%Q.
Proof.
  unfold round_half_even.
  pose proof (Qfloor_le q) as Hlo. pose proof (Qlt_floor q) as Hhi.
  rewrite inject_Z_plus in Hhi. change (inject_Z 1) with 1%Q in Hhi.
  set (k := Qfloor q) in *.
  apply Qabs_Qle_condition.
  destruct (Qcompare ((q - inject_Z k) * (2 # 1)) (1 # 1)) eqn:Hc.
  - apply Qeq_alt in Hc. destruct (Z.even k).
    + split; lra.
    + rewrite inject_Z_plus. change (inject_Z 1) with 1%Q. split; lra.
  - apply Qlt_alt in Hc. split; lra.
  - apply Qgt_alt in Hc. rewrite inject_Z_plus. change (inject_Z 1) with 1%Q.
    split; lra.
Qed.

(** On a tie [round_half_even] picks the even integer. *)
Lemma round_half_even_tie (q : Q) :
  (Qabs (q - inject_Z (round_half_even q)) == 1 # 2)%Q ->
  Z.even (round_half_even q) = true.
Proof.
  unfold round_half_even.
  pose proof (Qfloor_le q) as Hlo. pose proof (Qlt_floor q) as Hhi.
  rewrite inject_Z_plus in Hhi. change (inject_Z 1) with 1%Q in Hhi.
  set (k := Qfloor q) in *.
  destruct (Qcompare ((q - inject_Z k) * (2 # 1)) (1 # 1)) eqn:Hc.
  - destruct (Z.even k) eqn:He; intros _; [exact He |].
    rewrite Z.add_1_r, Z.even_succ, <- Z.negb_even, He. reflexivity.
  - apply Qlt_alt in Hc. intros H. exfalso.
    rewrite Qabs_pos in H by lra. lra.
  - apply Qgt_alt in Hc. intros H. exfalso.
    rewrite inject_Z_plus in H. change (inject_Z 1) with 1%Q in H.
    rewrite Qabs_neg in H by lra. lra.
Qed.

(** The value of a finite float has the sign of the float. *)
Lemma float_value_sign (x : float) (s : bool) (m : positive) (e : Z) :
  Prim2SF x = S754_finite s m e ->
  exists v, float_value x = Some v
            /\ (if s then v < 0 else 0 < v)%Q.
Proof.
  intros H. unfold float_value. rewrite H. cbn [SF2Q].
  eexists. split; [reflexivity |].
  assert (Hp : forall p : positive, (0 < 2 ^ Zpos p)%Z) by (intros p; apply Z.pow_pos_nonneg; lia).
  destruct e as [| p | p]; destruct s; cbn [cond_Zopp]; unfold Qlt; cbn [Qnum Qden];
    try lia; specialize (Hp p); nia.
Qed.

(** [round(x, 2)] on a finite float that is not a zero: the float nearest
    to [k / 100], where [k] is the integer nearest to a hundred times the
    exact value of [x], the even one of the two on a tie. *)
Lemma round2_finite (x : float) (s : bool) (m : positive) (e : Z) :
  Prim2SF x = S754_finite s m e ->
  exists (v : Q) (k : Z),
    float_value x = Some v
    /\ (Qabs (v * (100 # 1) - inject_Z k) <= 1 # 2)%Q
    /\ ((Qabs (v * (100 # 1) - inject_Z k) == 1 # 2)%Q -> Z.even k = true)
    /\ (if s then (k <= 0)%Z else (0 <= k)%Z)
    /\ round2 x = ratio2float s (Z.abs k) 100.
Proof.
  intros H. destruct (float_value_sign x s m e H) as (v & Hv & Hs).
  exists v, (round_half_even (v * (100 # 1))).
  pose proof (round_half_even_nearest (v * (100 # 1))) as Hn.
  split; [exact Hv |]. split; [exact Hn |].
  split; [apply round_half_even_tie |]. split.
  - apply Qabs_Qle_condition in Hn. destruct Hn as [Hlo Hhi].
    set (k := round_half_even (v * (100 # 1))) in *.
    destruct s.
    + assert (Hk : (inject_Z k < 1)%Q) by lra.
      unfold Qlt, inject_Z in Hk. cbn in Hk. lia.
    + assert (Hk : (inject_Z (-1) < inject_Z k)%Q)
        by (change (inject_Z (-1)) with (-1 # 1)%Q; lra).
      unfold Qlt, inject_Z in Hk. cbn in Hk. lia.
  - unfold round2. rewrite H, Hv. reflexivity.
Qed.

(** A zero, an infinity and NaN are returned as they are. *)
Lemma round2_not_rounded (x : float) :
  (forall s m e, Prim2SF x <> S754_finite s m e) -> round2 x = x.
Proof.
  intros H. unfold round2. destruct (Prim2SF x) as [s | s | | s m e]; try reflexivity.
  destruct (H s m e eq_refl).
Qed.

Lemma bracket_inv (long : bool) (entry : float) (slp tpp : pynum) (sl tp : float) :
  bracket long entry slp tpp = Some (sl, tp) ->
  exists fs ft,
    to_float (if long then one_minus slp else one_plus slp) = Some fs
    /\ to_float (if long then one_plus tpp else one_minus tpp) = Some ft
    /\ sl = round2 (entry * fs) /\ tp = round2 (entry * ft).
Proof.
  unfold bracket, fmul.
  destruct (to_float (if long then one_minus slp else one_plus slp)) as [fs |]; [| discriminate].
  destruct (to_float (if long then one_plus tpp else one_minus tpp)) as [ft |]; [| discriminate].
  cbn [option_map]. intros [= <- <-]. exists fs, ft. repeat split; reflexivity.
Qed.

Lemma bracket_long (e sl tp : float) :
  bracket true e (PFloat sl) (PFloat tp)
  = Some (round2 (e * (1 - sl)), round2 (e * (1 + tp)))%float.
Proof. reflexivity. Qed.

Lemma bracket_short (e sl tp : float) :
  bracket false e (PFloat sl) (PFloat tp)
  = Some (round2 (e * (1 + sl)), round2 (e * (1 - tp)))%float.
Proof. reflexivity. Qed.

End Rounding.

(** C5. Bracket prices: every exit order a pass places has for trigger
    the price of the bracket of the recommended direction, computed on the
    entry price (the price of the ticker) and the recommended percentages:
    for a long entry [entry * (1 - slPct)] for the stop-loss and
    [entry * (1 + tpPct)] for the take-profit, for a short entry
    [entry * (1 + slPct)] and [entry * (1 - tpPct)], each product taken in
    binary64 and rounded to two decimals by [round(x, 2)]; the order is on
    the side opposite to the entry, and the row written for the trade
    records the same prices.  [round(x, 2)] of a finite [x] that is not a
    zero is the float nearest to [k / 100], with the sign of [x], where [k]
    is the integer nearest to a hundred times the exact value of [x], the
    even one on a tie; a zero, an infinity and NaN are left as they are.
    Entry 100 with slPct 0.02 and tpPct 0.04 gives 98 and 104 for a long
    entry, 102 and 96 for a short one; entry 100.123 with slPct 0.0215 and
    tpPct 0.0433 gives 97.97 (from 97.970355500000011) and 104.46, and 102.28
    and 95.79; the ties 0.125 and 0.375 go to 0.12 and 0.38, and 2.675, which
    is below the tie as a float, to 2.67. *)
Theorem bracket_prices :
  (forall (env : Env) (db : Db) (kind : OrderKind) (side : Side) (q p : float),
      In (ConditionalOrder kind side q p) (snd (iteration env db)) ->
      exists (entry sl tp : float) (d : Decision) (long : bool),
        ticker_last env = Some entry
        /\ decision_of env = Some d
        /\ (exists s, direction d = JStr s
                      /\ PyStr.lower s = if long then py "long" else py "short")
        /\ bracket long entry (stop_loss_percentage d) (take_profit_percentage d)
           = Some (sl, tp)
        /\ side = (if long then Sell else Buy)
        /\ p = match kind with STOP_MARKET => sl | TAKE_PROFIT_MARKET => tp end
        /\ forall r, In r (new_trades db (fst (iteration env db))) ->
                     entry_price r = entry /\ sl_price r = sl /\ tp_price r = tp
                     /\ action r = if long then py "long" else py "short")
  /\ (forall entry sl_pct tp_pct : float,
         bracket true entry (PFloat sl_pct) (PFloat tp_pct)
         = Some (round2 (entry * (1 - sl_pct)), round2 (entry * (1 + tp_pct)))%float)
  /\ (forall entry sl_pct tp_pct : float,
         bracket false entry (PFloat sl_pct) (PFloat tp_pct)
         = Some (round2 (entry * (1 + sl_pct)), round2 (entry * (1 - tp_pct)))%float)
  /\ (forall (long : bool) (entry : float) (sl_pct tp_pct : pynum) (sl tp : float),
         bracket long entry sl_pct tp_pct = Some (sl, tp) ->
         exists fs ft,
           to_float (if long then one_minus sl_pct else one_plus sl_pct) = Some fs
           /\ to_float (if long then one_plus tp_pct else one_minus tp_pct) = Some ft
           /\ sl = round2 (entry * fs) /\ tp = round2 (entry * ft))
  /\ (forall (x : float) (s : bool) (m : positive) (e : Z),
         Prim2SF x = S754_finite s m e ->
         exists (v : Q) (k : Z),
           float_value x = Some v
           /\ (Qabs (v * (100 # 1) - inject_Z k) <= 1 # 2)%Q
           /\ ((Qabs (v * (100 # 1) - inject_Z k) == 1 # 2)%Q -> Z.even k = true)
           /\ (if s then (k <= 0)%Z else (0 <= k)%Z)
           /\ round2 x = ratio2float s (Z.abs k) 100)
  /\ (forall x : float,
         (forall s m e, Prim2SF x <> S754_finite s m e) -> round2 x = x)
  /\ bracket true 100 (PFloat 0.02) (PFloat 0.04) = Some (98, 104)%float
  /\ bracket false 100 (PFloat 0.02) (PFloat 0.04) = Some (102, 96)%float
  /\ (100.123 * (1 - 0.0215) = 97.970355500000011)%float
  /\ bracket true 100.123 (PFloat 0.0215) (PFloat 0.0433) = Some (97.97, 104.46)%float
  /\ bracket false 100.123 (PFloat 0.0215) (PFloat 0.0433) = Some (102.28, 95.79)%float
  /\ round2 0.125 = 0.12%float
  /\ round2 0.375 = 0.38%float
  /\ round2 2.675 = 2.67%float.
Proof.
  split; [| split; [exact bracket_long | split; [exact bracket_short |
            split; [exact bracket_inv | split; [exact round2_finite |
            split; [exact round2_not_rounded | repeat split; reflexivity]]]]]].
  intros env db kind side q p Hin.
  destruct (exit_order_inv env db kind side q p Hin)
    as (price & ts & long & cap & raw & d & sl & tp
        & Hp & Hf & Hs & Hd & Hsz & Hb & Hside & Hprice & Ho).
  exists price, sl, tp, d, long.
  do 2 (split; [assumption |]). split; [exact (proj1 Hsz) |].
  do 3 (split; [assumption |]).
  intros r Hr.
  destruct (new_trades_opening _ _ _ _ _ _ _ _ _ _ _ Hs Ho Hr)
    as (sl' & tp' & Hb' & _ & ->).
  rewrite Hb in Hb'. inversion Hb'; subst. cbn. auto.
Qed.

Lemma bracket_prices_witness :
  exists (entry sl tp : float) (d : Decision) (long : bool),
    ticker_last env_short = Some entry
    /\ decision_of env_short = Some d
    /\ (exists s, direction d = JStr s
                  /\ PyStr.lower s = if long then py "long" else py "short")
    /\ bracket long entry (stop_loss_percentage d) (take_profit_percentage d)
       = Some (sl, tp)
    /\ Buy = (if long then Sell else Buy)
    /\ 102%float = match STOP_MARKET with STOP_MARKET => sl | TAKE_PROFIT_MARKET => tp end
    /\ forall r, In r (new_trades empty_db (fst (iteration env_short empty_db))) ->
                 entry_price r = entry /\ sl_price r = sl /\ tp_price r = tp
                 /\ action r = if long then py "long" else py "short".
Proof.
  apply (proj1 bracket_prices env_short empty_db STOP_MARKET Buy 1%float 102%float).
  vm_compute. auto 10.
Defined.

(** ** An answer that is not JSON *)

Section ParseFailure.

(** The inner [try] on such an answer: the raw answer is printed, the
    handler of [json.JSONDecodeError] prints it again and waits 30 seconds,
    and the pass ends there. *)
Lemma parse_failure_block (env : Env) (price : float) (content : str) (db : Db) :
  Json.loads (clean_response content) = None ->
  try_except (decide_and_trade env price (Some content)) (on_error (Some content)) db
  = (Continue, db,
     [Print (MsgRawResponse (PyStr.strip content)); Print (MsgJsonError content); Sleep 30]).
Proof.
  intros H.
  unfold try_except, decide_and_trade, json_loads, on_error, bind, returned,
    print, sleep, emit, ret, raise, continue.
  rewrite H. reflexivity.
Qed.

Lemma without_position_parse_failure (env : Env) (price : float) (content : str)
    (db db' : Db) (ts : list Trade) (o : outcome unit) (ev : list event) :
  settle env price (trades db) = Some ts ->
  oracle env = Some (Some content) ->
  Json.loads (clean_response content) = None ->
  without_position env price (latest_open (trades db)) db = (o, db', ev) ->
  o = Continue /\ trades db' = ts /\ analyses db' = analyses db
  /\ exists ev0,
      orders ev0 = []
      /\ ev = ev0 ++ [Sleep 5; Print (MsgRawResponse (PyStr.strip content));
                      Print (MsgJsonError content); Sleep 30].
Proof.
  intros Hs Ho Hl H. unfold without_position in H.
  apply bind_inv in H.
  destruct H as [(a & db1 & ev1 & ev2 & Hc & H & ->) | [(Hc & ->) | (e & Hc & ->)]];
    apply close_open_trade_inv in Hc; destruct Hc as (Han & Hev & Hc);
    rewrite Hs in Hc; destruct Hc as [Hret Hts]; try discriminate.
  apply bind_inv in H.
  destruct H as [(a2 & db2 & ev3 & ev4 & Hc & H & ->) | [(Hc & ->) | (e & Hc & ->)]];
    apply cancel_inv in Hc; destruct Hc as (Hret2 & -> & Hev2); try discriminate.
  rewrite Ho in H.
  unfold bind at 1 in H. unfold sleep, emit in H.
  unfold bind at 1 in H. cbn [returned ret] in H.
  rewrite parse_failure_block in H by exact Hl.
  inversion H; subst; clear H.
  repeat split; [exact Han |].
  exists (ev1 ++ ev3). split.
  - rewrite orders_app, Hev, Hev2. reflexivity.
  - rewrite <- app_assoc. reflexivity.
Qed.

End ParseFailure.

(** C7. Parse failure: in a pass that reaches the oracle (the ticker and
    the positions were read, no position is held, the closure of an open
    trade, if any, went through) and gets an answer whose cleaned text is not
    JSON, no order is placed, no row is added to [ai_analysis] nor to
    [trades], the raw answer is printed, the pass waits 30 seconds, and the
    loop goes on with the next pass. *)
Theorem parse_failure_handling (env : Env) (db : Db) (price : float)
    (ts : list Trade) (content : str) (rest : list Env) :
  ticker_last env = Some price ->
  flat env ->
  settle env price (trades db) = Some ts ->
  oracle env = Some (Some content) ->
  Json.loads (clean_response content) = None ->
  orders (snd (iteration env db)) = []
  /\ analyses (fst (iteration env db)) = analyses db
  /\ trades (fst (iteration env db)) = ts
  /\ new_trades db (fst (iteration env db)) = []
  /\ (exists ev0,
         snd (iteration env db)
         = ev0 ++ [Sleep 5; Print (MsgRawResponse (PyStr.strip content));
                   Print (MsgJsonError content); Sleep 30])
  /\ run (env :: rest) db
     = (fst (run rest (fst (iteration env db))),
        snd (iteration env db) ++ snd (run rest (fst (iteration env db)))).
Proof.
  intros Hprice (ps & Hps & Hflat) Hs Ho Hl.
  assert (Hrun : run (env :: rest) db
                 = (fst (run rest (fst (iteration env db))),
                    snd (iteration env db) ++ snd (run rest (fst (iteration env db))))).
  { cbn [run]. destruct (iteration env db) as [db1 ev1]. cbn [fst snd].
    destruct (run rest db1) as [db2 ev2]. reflexivity. }
  unfold iteration in *. unfold loop_body in *.
  rewrite Hprice, Hps in *. cbn [returned] in *.
  rewrite !bind_ret_l, bind_get_latest in *. rewrite Hflat in *.
  destruct (without_position env price (latest_open (trades db)) db)
    as [[o db'] ev] eqn:H.
  destruct (without_position_parse_failure _ _ _ _ _ _ _ _ Hs Ho Hl H)
    as (-> & Hts & Han & ev0 & Hev0 & ->).
  unfold bind in *. rewrite H in *. cbn [fst snd] in *.
  repeat split; auto.
  - rewrite orders_app, Hev0. reflexivity.
  - unfold new_trades. cbn [fst]. rewrite Hts.
    rewrite <- (settle_length _ _ _ _ Hs). apply skipn_all.
  - exists ev0. reflexivity.
Qed.

Lemma parse_failure_handling_witness :
  orders (snd (iteration (flat_env 110 1000 (py "no")) (db_open "long"))) = []
  /\ analyses (fst (iteration (flat_env 110 1000 (py "no")) (db_open "long"))) = []
  /\ List.length (trades (fst (iteration (flat_env 110 1000 (py "no")) (db_open "long"))))
     = 1%nat.
Proof.
  destruct (parse_failure_handling (flat_env 110 1000 (py "no")) (db_open "long")
              110%float
              [update_row 1 CLOSED (Some 110%float) (Some (py "2025-01-02T00:00:00"))
                 (Some 10%float) (Some 10.000000000000009%float) (open_trade "long")]
              (py "no") [])
    as (Ho & Han & Hts & _).
  - reflexivity.
  - exists []. split; reflexivity.
  - reflexivity.
  - reflexivity.
  - reflexivity.
  - rewrite Ho, Han, Hts. repeat split.
Defined.

(** ** A fenced answer *)

Section Fences.

Import PyStr.

Lemma startswith_head (x : N) (p : str) (c : N) (s : str) :
  startswith (x :: p) (c :: s) = true -> c = x.
Proof.
  cbn [startswith]. intros H. apply andb_prop in H as [H _].
  apply N.eqb_eq in H. auto.
Qed.

(** A JSON value starts with a character that is neither white space nor a
    backquote. *)
Lemma scan_once_head (fuel : nat) (c : N) (s : str) (r : json * str) :
  scan_once fuel (c :: s) = Some r -> isspace c = false /\ c <> 96%N.
Proof.
  destruct fuel as [| fuel]; [discriminate |]. cbn [scan_once].
  repeat match goal with
    | |- context [(c =? ?k)%N] =>
        destruct (N.eqb_spec c k) as [-> | ?]; [intros _; split; [reflexivity | discriminate] |]
    | |- context [startswith (py ?lit) (c :: s)] =>
        let E := fresh "E" in
        let l := eval vm_compute in (py lit) in
        destruct (startswith (py lit) (c :: s)) eqn:E;
        [ change (py lit) with l in E; apply startswith_head in E; subst c;
          intros _; split; [reflexivity | discriminate] |]
    end.
  unfold match_number.
  destruct (c =? 48)%N eqn:Hzero.
  - apply N.eqb_eq in Hzero. subst. intros _. split; [reflexivity | discriminate].
  - destruct (is_digit c) eqn:Ed; [| discriminate].
    intros _. unfold is_digit in Ed. apply andb_prop in Ed as [H1 H2].
    apply N.leb_le in H1, H2. split.
    + unfold isspace.
      repeat match goal with
        | |- context [(?a <=? ?b)%N] => destruct (N.leb_spec a b); try lia
        | |- context [(?a =? ?b)%N] => destruct (N.eqb_spec a b); try lia
        end; reflexivity.
    + lia.
Qed.

Lemma is_ws_isspace (c : N) : is_ws c = true -> isspace c = true.
Proof.
  unfold is_ws. intros H.
  repeat (apply orb_prop in H as [H | H]); apply N.eqb_eq in H; subst; reflexivity.
Qed.

Lemma lstrip_skip_ws (s : str) : lstrip s = lstrip (skip_ws s).
Proof.
  induction s as [| c s IH]; [reflexivity |].
  cbn [skip_ws]. destruct (is_ws c) eqn:E; [| reflexivity].
  cbn [lstrip]. rewrite (is_ws_isspace c E). exact IH.
Qed.

Lemma rstrip_head (c : N) (s : str) :
  isspace c = false -> exists r, rstrip (c :: s) = c :: r.
Proof.
  intros Hc. unfold rstrip. cbn [rev].
  assert (H : forall l, exists r, lstrip (l ++ [c]) = r ++ [c]).
  { induction l as [| x l IH].
    - exists []. cbn. rewrite Hc. reflexivity.
    - cbn [app lstrip]. destruct (isspace x); [exact IH |].
      exists (x :: l). reflexivity. }
  destruct (H (rev s)) as [r Hr]. rewrite Hr, rev_app_distr. cbn. eauto.
Qed.

(** A text that is JSON does not start with a fence once stripped. *)
Lemma json_not_fenced (payload : str) (j : json) :
  Json.loads payload = Some j -> startswith fence (strip payload) = false.
Proof.
  unfold Json.loads. intros H.
  destruct (skip_ws payload) as [| c s] eqn:Hs.
  - destruct (List.length payload); discriminate.
  - destruct (scan_once _ (c :: s)) as [r |] eqn:Hscan; [| discriminate].
    destruct (scan_once_head _ _ _ _ Hscan) as [Hc Hne].
    unfold strip. rewrite lstrip_skip_ws, Hs. rewrite lstrip_nonspace by exact Hc.
    destruct (rstrip_head c s Hc) as [r' ->].
    change fence with [96; 96; 96]%N. cbn [startswith].
    destruct (N.eqb_spec 96 c); [congruence | reflexivity].
Qed.

Lemma clean_response_plain (payload : str) :
  startswith fence (strip payload) = false ->
  clean_response payload = strip payload.
Proof. unfold clean_response. intros ->. reflexivity. Qed.

End Fences.

Section FencedAnswer.

Import PyStr.


Lemma lstrip_app_nonspace (x : str) (c : N) (y : str) :
  isspace c = false -> lstrip (x ++ c :: y) = lstrip x ++ c :: y.
Proof.
  intros Hc. induction x as [| a x IH].
  - cbn. rewrite Hc. reflexivity.
  - cbn [app lstrip]. destruct (isspace a); [exact IH | reflexivity].
Qed.

(** Stripping on the right stops at a character that is not white space. *)
Lemma rstrip_app_nonspace (a : str) (c : N) (b : str) :
  isspace c = false -> rstrip (a ++ c :: b) = a ++ c :: rstrip b.
Proof.
  intros Hc. unfold rstrip.
  rewrite rev_app_distr. cbn [rev]. rewrite <- app_assoc. cbn [app].
  rewrite lstrip_app_nonspace by exact Hc.
  rewrite rev_app_distr. cbn [rev]. rewrite rev_involutive.
  rewrite <- app_assoc. reflexivity.
Qed.

Lemma forallb_lstrip (f : N -> bool) (s : str) :
  forallb f s = true -> forallb f (lstrip s) = true.
Proof.
  induction s as [| c s IH]; [reflexivity |].
  cbn [forallb lstrip]. intros H. destruct (isspace c).
  - apply andb_prop in H as [_ H]. auto.
  - exact H.
Qed.

Lemma forallb_rstrip (f : N -> bool) (s : str) :
  forallb f s = true -> forallb f (rstrip s) = true.
Proof.
  intros H. unfold rstrip. rewrite forallb_rev. apply forallb_lstrip.
  rewrite forallb_rev. exact H.
Qed.

Lemma startswith_cons (x : N) (p : str) (y : N) (s : str) :
  startswith (x :: p) (y :: s) = (x =? y)%N && startswith p s.
Proof. reflexivity. Qed.

Lemma rfind_head_cons (sep : str) (c : N) (s : str) :
  rfind_head sep (c :: s)
  = match rfind_head sep s with
    | Some a => Some (c :: a)
    | None => if startswith sep (c :: s) then Some [] else None
    end.
Proof. reflexivity. Qed.

Lemma startswith_no_backquote (p t : str) :
  no_backquote t = true -> startswith (96%N :: p) t = false.
Proof.
  destruct t as [| c t]; [reflexivity |].
  cbn [no_backquote forallb]. intros H. apply andb_prop in H as [Hc _].
  apply negb_true_iff in Hc. rewrite startswith_cons, N.eqb_sym, Hc. reflexivity.
Qed.

(** No fence starts in a text without a backquote, nor one or two
    backquotes before it. *)
Lemma rfind_head_none (t : str) :
  no_backquote t = true ->
  rfind_head fence t = None
  /\ rfind_head fence (96%N :: t) = None
  /\ rfind_head fence (96%N :: 96%N :: t) = None.
Proof.
  intros H. change fence with [96; 96; 96]%N.
  assert (H0 : rfind_head [96; 96; 96]%N t = None).
  { induction t as [| c t IH]; [reflexivity |].
    rewrite rfind_head_cons, startswith_no_backquote by exact H.
    cbn [no_backquote forallb] in H. apply andb_prop in H as [_ Ht].
    rewrite (IH Ht). reflexivity. }
  assert (H1 : rfind_head [96; 96; 96]%N (96%N :: t) = None).
  { rewrite rfind_head_cons, H0, startswith_cons, startswith_no_backquote by exact H.
    reflexivity. }
  repeat split; auto.
  rewrite rfind_head_cons, H1, !startswith_cons, startswith_no_backquote by exact H.
  reflexivity.
Qed.

(** The rightmost fence of a text is the one no backquote follows. *)
Lemma rfind_head_last_fence (p t : str) :
  no_backquote t = true -> rfind_head fence (p ++ fence ++ t) = Some p.
Proof.
  intros H. induction p as [| c p IH].
  - destruct (rfind_head_none t H) as (H0 & H1 & H2).
    change fence with [96; 96; 96]%N in *. cbn [app].
    rewrite rfind_head_cons, H2, !startswith_cons, !N.eqb_refl. reflexivity.
  - cbn [app]. rewrite rfind_head_cons, IH. reflexivity.
Qed.

(** A text that starts and ends with characters that are not white space
    is kept whole by [strip], with what follows it stripped on the right. *)
Lemma strip_delimited (w1 body tail A B : str) (c d : N) :
  body = A ++ [c] -> body = d :: B ->
  isspace c = false -> isspace d = false ->
  forallb isspace w1 = true ->
  strip (w1 ++ body ++ tail) = body ++ rstrip tail.
Proof.
  intros EA EB Hc Hd Hw. unfold strip.
  rewrite lstrip_spaces by exact Hw.
  rewrite EB at 1. change ((d :: B) ++ tail) with (d :: (B ++ tail)).
  rewrite lstrip_nonspace by exact Hd.
  change (d :: (B ++ tail)) with ((d :: B) ++ tail). rewrite <- EB.
  rewrite EA. rewrite <- !app_assoc.
  change ([c] ++ tail) with (c :: tail).
  rewrite rstrip_app_nonspace by exact Hc. reflexivity.
Qed.

(** A fenced answer is cleaned to its payload, stripped. *)
Lemma clean_response_fenced (w1 info payload w2 tail : str) :
  forallb isspace w1 = true ->
  forallb isspace w2 = true ->
  no_backquote tail = true ->
  one_line info = true ->
  clean_response (fenced w1 info payload w2 tail) = strip payload.
Proof.
  intros H1 H2 H3 Hinfo. unfold clean_response, fenced.
  rewrite (strip_delimited w1 _ tail
             (fence ++ info ++ 10%N :: payload ++ w2 ++ [96; 96]%N)
             ([96; 96]%N ++ info ++ 10%N :: payload ++ w2 ++ fence) 96%N 96%N);
    try reflexivity; try exact H1.
  2:{ change fence with [96; 96; 96]%N. cbn [app]. do 3 f_equal.
      repeat first [rewrite <- app_assoc | rewrite <- app_comm_cons]. reflexivity. }
  repeat first [rewrite <- app_assoc | rewrite <- app_comm_cons].
  rewrite startswith_app.
  rewrite (app_assoc fence info).
  rewrite split_nl1_first by (unfold one_line in Hinfo; rewrite forallb_app, Hinfo; reflexivity).
  rewrite (app_assoc payload w2).
  rewrite contains_app.
  unfold rsplit1_head.
  rewrite rfind_head_last_fence by (apply forallb_rstrip; exact H3).
  apply strip_app_spaces. exact H2.
Qed.

End FencedAnswer.

(** C8. A fenced answer parses as its payload: when [payload] is JSON, the
    answer made of white space, a fence, a first line with anything on it,
    the payload, white space, a closing fence and any text without a
    backquote is cleaned to the same text as [payload] alone, so
    [json.loads] gives the same value (or fails the same way on both) and the
    same decision is read. *)
Theorem fenced_answer_parses (w1 info payload w2 tail : str) (j : json) :
  Json.loads payload = Some j ->
  forallb PyStr.isspace w1 = true ->
  forallb PyStr.isspace w2 = true ->
  one_line info = true ->
  no_backquote tail = true ->
  clean_response (fenced w1 info payload w2 tail) = clean_response payload
  /\ Json.loads (clean_response (fenced w1 info payload w2 tail))
     = Json.loads (clean_response payload)
  /\ read_content (Some (fenced w1 info payload w2 tail))
     = read_content (Some payload).
Proof.
  intros Hj H1 H2 Hinfo Htail.
  assert (E : clean_response (fenced w1 info payload w2 tail) = clean_response payload).
  { rewrite clean_response_fenced by assumption.
    symmetry. apply clean_response_plain. exact (json_not_fenced payload j Hj). }
  unfold read_content. rewrite E. repeat split.
Qed.

Lemma fenced_answer_parses_witness :
  read_content (Some (answer "LONG" "0.05" "0.02" "0.04"))
  = read_content (Some (payload "LONG" "0.05" "0.02" "0.04"))
  /\ read_content (Some (payload "LONG" "0.05" "0.02" "0.04")) <> None.
Proof.
  split.
  - eapply (fenced_answer_parses [] (py "json") (payload "LONG" "0.05" "0.02" "0.04")
              [10%N] []).
    + vm_compute. reflexivity.
    + reflexivity.
    + reflexivity.
    + reflexivity.
    + reflexivity.
  - vm_compute. discriminate.
Defined.

(** The payload alone is read, and is not once a sentence comes before it,
    nor between fences with no line feed after the first. *)
Lemma wrapping_text_not_tolerated :
  read_content (Some (payload "LONG" "0.05" "0.02" "0.04")) <> None
  /\ Json.loads (clean_response (py "Here is my decision: "
                                  ++ payload "LONG" "0.05" "0.02" "0.04")) = None
  /\ read_content (Some (py "Here is my decision: "
                         ++ payload "LONG" "0.05" "0.02" "0.04")) = None
  /\ read_content (Some (fence ++ payload "LONG" "0.05" "0.02" "0.04" ++ fence)) = None.
Proof.
  split; [vm_compute; discriminate |]. repeat split; vm_compute; reflexivity.
Qed.


(** ** Break-even trades in the metrics *)

Section BreakEven.

Local Open Scope Z_scope.

Lemma lowered_upto_spec (n : nat) (w t : Z) :
  lowered_upto n = true -> 0 <= w <= t -> t <= Z.of_nat n -> lowered w t = true.
Proof.
  unfold lowered_upto. intros H Hw Ht.
  rewrite forallb_forall in H.
  specialize (H (Z.to_nat t)). rewrite forallb_forall in H.
  specialize (fun Hin => H Hin (Z.to_nat w)).
  rewrite !Z2Nat.id in H by lia.
  apply H; apply in_seq; lia.
Qed.

Lemma lowered_upto_100 : lowered_upto 100 = true.
Proof. vm_compute. reflexivity. Qed.

Lemma metrics_of_nil : metrics_of [] = mkMetrics 0 0 0 0%float.
Proof. reflexivity. Qed.

Lemma summary_counts (cutoff : str) (db : Db) :
  0 <= s_winning_trades (get_trade_summary cutoff db)
  /\ 0 <= s_losing_trades (get_trade_summary cutoff db)
  /\ s_winning_trades (get_trade_summary cutoff db)
     + s_losing_trades (get_trade_summary cutoff db)
     <= s_total_trades (get_trade_summary cutoff db).
Proof.
  unfold get_trade_summary; cbn [s_winning_trades s_losing_trades s_total_trades].
  repeat split; try apply count_nonneg. apply winning_losing_le_total.
Qed.

Lemma directional_counts (db : Db) :
  Forall (fun am => winning_trades (snd am) + losing_trades (snd am)
                    <= total_trades (snd am))
         (snd (get_performance_metrics db)).
Proof.
  unfold get_performance_metrics. cbn [snd].
  apply Forall_forall. intros [a m] Hin.
  apply in_map_iff in Hin as (a' & [= <- <-] & _).
  apply metrics_of_counts.
Qed.

Lemma overall_with_row (db : Db) (t : Trade) :
  is_closed t = true ->
  fst (get_performance_metrics (with_row db t))
  = metrics_of (filter is_closed (trades db) ++ [t]).
Proof.
  intros Hc. unfold get_performance_metrics, with_row. cbn [fst trades].
  rewrite filter_app. cbn [filter]. rewrite Hc. reflexivity.
Qed.

Lemma summary_with_row (cutoff : str) (db : Db) (t : Trade) :
  in_summary cutoff t = true -> break_even t ->
  get_trade_summary cutoff (with_row db t)
  = mkSummary (s_total_trades (get_trade_summary cutoff db) + 1)
              (s_winning_trades (get_trade_summary cutoff db))
              (s_losing_trades (get_trade_summary cutoff db)).
Proof.
  intros Hin Hbe. destruct (break_even_neither t Hbe) as [Hw Hl].
  unfold get_trade_summary, with_row.
  cbn [trades s_total_trades s_winning_trades s_losing_trades].
  rewrite filter_app. cbn [filter]. rewrite Hin.
  rewrite !count_app, !count_cons, Hw, Hl. unfold count at 2 4 6. cbn [filter List.length].
  f_equal; lia.
Qed.

End BreakEven.

(** C10. Break-even trades in the metrics.  In [get_performance_metrics]
    and in [get_trade_summary] the winners and the losers are counted with
    [> 0] and [< 0], so that together they are at most the total, in the
    overall counts, in every direction and in the summary.  A closed trade
    whose [profit_loss] is a zero, coming after the rows of the table, adds
    one to the total of both and nothing to their winners and losers; the
    ratio of winners to total does not rise, and falls when there is a
    winner, and so does the [win_rate], a float, of a table of up to 100
    closed trades.  With no closed trade every count and the win rate are 0. *)
Theorem break_even_in_metrics (cutoff : str) (db : Db) (t : Trade) :
  let m := fst (get_performance_metrics db) in
  let m' := fst (get_performance_metrics (with_row db t)) in
  let s := get_trade_summary cutoff db in
  let s' := get_trade_summary cutoff (with_row db t) in
  is_closed t = true ->
  in_summary cutoff t = true ->
  break_even t ->
  (winning_trades m + losing_trades m <= total_trades m
   /\ s_winning_trades s + s_losing_trades s <= s_total_trades s
   /\ Forall (fun am => winning_trades (snd am) + losing_trades (snd am)
                        <= total_trades (snd am))
             (snd (get_performance_metrics db)))%Z
  /\ (total_trades m' = total_trades m + 1
      /\ winning_trades m' = winning_trades m
      /\ losing_trades m' = losing_trades m
      /\ winning_trades m' + losing_trades m' < total_trades m')%Z
  /\ (s_total_trades s' = s_total_trades s + 1
      /\ s_winning_trades s' = s_winning_trades s
      /\ s_losing_trades s' = s_losing_trades s
      /\ s_winning_trades s' + s_losing_trades s' < s_total_trades s')%Z
  /\ (win_rate m = win_rate_of (winning_trades m) (total_trades m)
      /\ win_rate m' = win_rate_of (winning_trades m') (total_trades m')
      /\ (winning_trades m' * total_trades m <= winning_trades m * total_trades m')%Z
      /\ (0 < winning_trades m ->
          winning_trades m' * total_trades m < winning_trades m * total_trades m')%Z
      /\ ((total_trades m <= 100)%Z ->
          (win_rate m' <=? win_rate m)%float = true
          /\ ((0 < winning_trades m)%Z -> (win_rate m' <? win_rate m)%float = true)))
  /\ (filter is_closed (trades db) = [] ->
      get_performance_metrics db = (mkMetrics 0 0 0 0%float, []))
  /\ (filter (in_summary cutoff) (trades db) = [] ->
      get_trade_summary cutoff db = mkSummary 0 0 0).
Proof.
  intros m m' s s' Hc Hin Hbe.
  assert (Hm' : m' = metrics_of (filter is_closed (trades db) ++ [t])).
  { apply overall_with_row. exact Hc. }
  assert (Hm : m = metrics_of (filter is_closed (trades db))) by reflexivity.
  destruct (metrics_of_break_even (filter is_closed (trades db)) t Hbe)
    as (Ht & Hw & Hl).
  rewrite <- Hm, <- Hm' in Ht, Hw, Hl.
  destruct (metrics_of_counts (filter is_closed (trades db))) as (Hw0 & Hl0 & Hle).
  rewrite <- Hm in Hw0, Hl0, Hle.
  assert (Hs' : s' = mkSummary (s_total_trades s + 1) (s_winning_trades s)
                               (s_losing_trades s)).
  { apply summary_with_row; assumption. }
  destruct (summary_counts cutoff db) as (Hsw & Hsl & Hsle). fold s in Hsw, Hsl, Hsle.
  split; [| split; [| split; [| split; [| split]]]].
  - repeat split; [exact Hle | exact Hsle | apply directional_counts].
  - rewrite Ht, Hw, Hl. repeat split. lia.
  - rewrite Hs'. cbn [s_total_trades s_winning_trades s_losing_trades].
    repeat split. lia.
  - assert (Hr : win_rate m = win_rate_of (winning_trades m) (total_trades m))
      by reflexivity.
    assert (Hr' : win_rate m' = win_rate_of (winning_trades m') (total_trades m')).
    { rewrite Hm'. reflexivity. }
    split; [exact Hr |]. split; [exact Hr' |].
    rewrite Ht, Hw in *. split; [nia |]. split; [nia |].
    intros Hb.
    assert (Hlow : lowered (winning_trades m) (total_trades m) = true).
    { apply (lowered_upto_spec 100); [exact lowered_upto_100 | lia | lia]. }
    unfold lowered in Hlow. apply andb_prop in Hlow as [Hle' Hlt'].
    rewrite Hr, Hr'. split; [exact Hle' |].
    intros Hpos. apply orb_prop in Hlt' as [Hz | Hlt']; [| exact Hlt'].
    apply Z.eqb_eq in Hz. lia.
  - unfold get_performance_metrics. intros ->. reflexivity.
  - unfold get_trade_summary. intros ->. reflexivity.
Qed.

(** One winner, then a break-even trade after it: the win rate goes from
    100 to 50. *)
Lemma break_even_in_metrics_witness :
  win_rate (fst (get_performance_metrics
                   (mkDb [update_row 1 CLOSED (Some 110%float)
                            (Some (py "2025-01-02T00:00:00"))
                            (Some 10%float) (Some 10.000000000000009%float)
                            (open_trade "long")] [])))
  = 100%float
  /\ win_rate (fst (get_performance_metrics
                      (with_row
                         (mkDb [update_row 1 CLOSED (Some 110%float)
                                  (Some (py "2025-01-02T00:00:00"))
                                  (Some 10%float) (Some 10.000000000000009%float)
                                  (open_trade "long")] [])
                         (update_row 1 CLOSED (Some 100%float)
                            (Some (py "2025-01-03T00:00:00"))
                            (Some 0%float) (Some 0%float) (open_trade "long")))))
     = 50%float
  /\ (total_trades
        (fst (get_performance_metrics
                (with_row
                   (mkDb [update_row 1 CLOSED (Some 110%float)
                            (Some (py "2025-01-02T00:00:00"))
                            (Some 10%float) (Some 10.000000000000009%float)
                            (open_trade "long")] [])
                   (update_row 1 CLOSED (Some 100%float)
                      (Some (py "2025-01-03T00:00:00"))
                      (Some 0%float) (Some 0%float) (open_trade "long")))))
      = 2)%Z.
Proof.
  pose proof (break_even_in_metrics (py "2024-12-26 00:00:00")
                (mkDb [update_row 1 CLOSED (Some 110%float)
                         (Some (py "2025-01-02T00:00:00"))
                         (Some 10%float) (Some 10.000000000000009%float)
                         (open_trade "long")] [])
                (update_row 1 CLOSED (Some 100%float)
                   (Some (py "2025-01-03T00:00:00"))
                   (Some 0%float) (Some 0%float) (open_trade "long"))) as H.
  cbv zeta in H.
  destruct H as (_ & (Ht & _) & _).
  - reflexivity.
  - reflexivity.
  - left. reflexivity.
  - split; [vm_compute; reflexivity |]. split; [vm_compute; reflexivity |].
    rewrite Ht. reflexivity.
Defined.

(** * Further properties of the ledger functions *)

(** ** The order of timestamps *)

Section TextOrder.

Import PyStr.

Lemma ltb_irrefl (a : str) : ltb a a = false.
Proof.
  induction a as [| x a IH]; [reflexivity |].
  cbn [ltb]. rewrite N.ltb_irrefl, N.eqb_refl, IH. reflexivity.
Qed.

Lemma ltb_asym (a b : str) : ltb a b = true -> ltb b a = false.
Proof.
  revert b. induction a as [| x a IH]; intros [| y b]; cbn [ltb]; try discriminate; auto.
  intros H. apply orb_prop in H as [H | H].
  - apply N.ltb_lt in H.
    destruct (N.ltb_spec y x); [lia |]. destruct (N.eqb_spec y x); [lia | reflexivity].
  - apply andb_prop in H as [Hxy H]. apply N.eqb_eq in Hxy. subst y.
    rewrite N.ltb_irrefl, N.eqb_refl. cbn. auto.
Qed.

(** What is below [c] is below [b] or above [a], whatever [b]. *)
Lemma ltb_cotrans (a b c : str) :
  ltb a c = true -> ltb a b = true \/ ltb b c = true.
Proof.
  revert b c. induction a as [| x a IH]; intros [| y b] [| z c]; cbn [ltb];
    try discriminate; auto.
  intros H. apply orb_prop in H as [H | H].
  - apply N.ltb_lt in H.
    destruct (N.ltb_spec x y) as [Hxy | Hxy]; [left; reflexivity |].
    right. destruct (N.ltb_spec y z); [reflexivity | lia].
  - apply andb_prop in H as [Hxz H]. apply N.eqb_eq in Hxz. subst z.
    destruct (N.ltb_spec x y) as [Hxy | Hxy]; [left; reflexivity |].
    destruct (N.ltb_spec y x) as [Hyx | Hyx]; [right; reflexivity |].
    assert (y = x) by lia. subst y. rewrite N.eqb_refl. cbn [orb andb].
    apply IH. exact H.
Qed.

Lemma leb_refl (a : str) : leb a a = true.
Proof. unfold leb. rewrite ltb_irrefl. reflexivity. Qed.

Lemma leb_trans (a b c : str) : leb a b = true -> leb b c = true -> leb a c = true.
Proof.
  unfold leb. intros Hab Hbc. apply negb_true_iff in Hab, Hbc. apply negb_true_iff.
  destruct (ltb c a) eqn:H; [| reflexivity].
  destruct (ltb_cotrans c b a H); congruence.
Qed.

Lemma ltb_leb (a b : str) : ltb a b = true -> leb a b = true.
Proof. intros H. unfold leb. rewrite (ltb_asym a b H). reflexivity. Qed.

End TextOrder.

(** ** Looking the open trade up *)

Section Lookup.

Lemma latest_open_greatest (rows : list Trade) (t u : Trade) :
  latest_open rows = Some t -> In u rows -> status u = OPEN ->
  PyStr.leb (timestamp u) (timestamp t) = true.
Proof.
  revert t. induction rows as [| r rows IH]; intros t Ht Hin Hu; [destruct Hin |].
  cbn [latest_open] in Ht. destruct (is_open (status r)) eqn:Hr.
  - destruct (latest_open rows) as [v |] eqn:Hv.
    + destruct (PyStr.ltb (timestamp r) (timestamp v)) eqn:Hlt; inversion Ht; subst; clear Ht.
      * destruct Hin as [-> | Hin]; [apply ltb_leb; exact Hlt | auto].
      * destruct Hin as [-> | Hin]; [apply leb_refl |].
        apply (leb_trans _ (timestamp v)); [auto |].
        unfold PyStr.leb. rewrite Hlt. reflexivity.
    + inversion Ht; subst; clear Ht.
      destruct Hin as [-> | Hin]; [apply leb_refl |].
      pose proof (latest_open_none rows Hv) as Hnone.
      assert (Hf : In u (filter (fun t => is_open (status t)) rows)).
      { apply filter_In. rewrite Hu. auto. }
      rewrite Hnone in Hf. destruct Hf.
  - destruct Hin as [-> | Hin]; [rewrite Hu in Hr; discriminate | auto].
Qed.

Lemma latest_open_none_closed (rows : list Trade) (u : Trade) :
  latest_open rows = None -> In u rows -> status u = CLOSED.
Proof.
  intros H Hin. pose proof (latest_open_none rows H) as Hnone.
  destruct (status u) eqn:Hu; [| reflexivity].
  assert (Hf : In u (filter (fun t => is_open (status t)) rows)).
  { apply filter_In. rewrite Hu. auto. }
  rewrite Hnone in Hf. destruct Hf.
Qed.

(** A row that is later than every open row of the table is the latest
    open row once it is put after them. *)
Lemma latest_open_app_later (rows : list Trade) (r : Trade) :
  status r = OPEN ->
  (forall u, In u rows -> status u = OPEN ->
             PyStr.ltb (timestamp u) (timestamp r) = true) ->
  latest_open (rows ++ [r]) = Some r.
Proof.
  intros Hr. induction rows as [| x rows IH]; intros Hlt.
  - cbn. rewrite Hr. reflexivity.
  - cbn [app latest_open]. rewrite IH by (intros u Hu; apply Hlt; right; exact Hu).
    destruct (status x) eqn:Hx; cbn [is_open]; [| reflexivity].
    rewrite (Hlt x (or_introl eq_refl) Hx). reflexivity.
Qed.

End Lookup.

(** X1. [get_latest_open_trade] returns an open row of [trades] that no open
    row is later than (by [timestamp], as text), and [None] exactly when
    every row is closed; it writes nothing. *)
Theorem latest_open_trade_is_latest (db : Db) :
  exists result,
    get_latest_open_trade db = (Ret result, db, [])
    /\ match result with
       | Some t =>
           In t (trades db) /\ status t = OPEN
           /\ forall u, In u (trades db) -> status u = OPEN ->
                        PyStr.leb (timestamp u) (timestamp t) = true
       | None => forall u, In u (trades db) -> status u = CLOSED
       end.
Proof.
  exists (latest_open (trades db)). split; [reflexivity |].
  destruct (latest_open (trades db)) as [t |] eqn:Ht.
  - destruct (latest_open_some _ _ Ht) as [Hin Hopen].
    repeat split; auto. intros u Hu Hs. eapply latest_open_greatest; eassumption.
  - intros u Hu. eapply latest_open_none_closed; eassumption.
Qed.

(** ** Updating a trade *)

Section Update.

Lemma update_row_other (tid : Z) (st : Status) (xp : option float) (xt : option str)
    (pl plp : option float) (r : Trade) :
  id r <> tid -> update_row tid st xp xt pl plp r = r.
Proof.
  intros H. unfold update_row. destruct (Z.eqb_spec (id r) tid); [contradiction | reflexivity].
Qed.

Lemma map_update_row_absent (tid : Z) (st : Status) (xp : option float)
    (xt : option str) (pl plp : option float) (rows : list Trade) :
  ~ In tid (map id rows) -> map (update_row tid st xp xt pl plp) rows = rows.
Proof.
  induction rows as [| r rows IH]; [reflexivity |].
  cbn [map In]. intros H. rewrite update_row_other by tauto.
  rewrite IH by tauto. reflexivity.
Qed.

Lemma map_id_update_row (tid : Z) (st : Status) (xp : option float)
    (xt : option str) (pl plp : option float) (rows : list Trade) :
  map id (map (update_row tid st xp xt pl plp) rows) = map id rows.
Proof.
  rewrite map_map. apply map_ext. intros r. apply id_update_row.
Qed.

End Update.

(** X3. [update_trade_status] changes the rows of [trades] that have the
    key it is given and no other: the table keeps its length, its keys and
    their order; a row with another key is left as it is; a row with the key
    gets the status, keeps every column it was opened with (the key, the
    timestamp, the action, the entry price, the amount, the leverage, the
    stop-loss and take-profit prices and percentages, the position size and
    the investment), keeps each exit field for which [None] is passed and
    gets the value passed for the others; with a key that no row has the
    table is left as it is, without an error. *)
Theorem update_trade_status_by_key (tid : Z) (st : Status)
    (xp : option float) (xt : option str) (pl plp : option float) (db : Db) :
  exists rows',
    update_trade_status tid st xp xt pl plp db
    = (Ret tt, mkDb rows' (analyses db), [])
    /\ List.length rows' = List.length (trades db)
    /\ map id rows' = map id (trades db)
    /\ (forall i r, nth_error (trades db) i = Some r -> id r <> tid ->
                    nth_error rows' i = Some r)
    /\ (forall i r, nth_error (trades db) i = Some r -> id r = tid ->
          exists r',
            nth_error rows' i = Some r'
            /\ status r' = st
            /\ id r' = id r
            /\ timestamp r' = timestamp r /\ action r' = action r
            /\ entry_price r' = entry_price r /\ amount r' = amount r
            /\ leverage r' = leverage r
            /\ sl_price r' = sl_price r /\ tp_price r' = tp_price r
            /\ sl_percentage r' = sl_percentage r
            /\ tp_percentage r' = tp_percentage r
            /\ position_size_percentage r' = position_size_percentage r
            /\ investment_amount r' = investment_amount r
            /\ (xp = None -> exit_price r' = exit_price r)
            /\ (xt = None -> exit_timestamp r' = exit_timestamp r)
            /\ (pl = None -> profit_loss r' = profit_loss r)
            /\ (plp = None -> profit_loss_percentage r' = profit_loss_percentage r)
            /\ (forall x, xp = Some x -> is_nan x = false -> exit_price r' = Some x)
            /\ (forall s, xt = Some s -> exit_timestamp r' = Some s)
            /\ (forall x, pl = Some x -> is_nan x = false -> profit_loss r' = Some x)
            /\ (forall x, plp = Some x -> is_nan x = false ->
                          profit_loss_percentage r' = Some x))
    /\ (~ In tid (map id (trades db)) -> rows' = trades db).
Proof.
  exists (map (update_row tid st xp xt pl plp) (trades db)).
  split; [reflexivity |]. split; [apply length_map |].
  split; [apply map_id_update_row |]. split; [| split].
  - intros i r Hi Hr. rewrite nth_error_map, Hi. cbn [option_map].
    rewrite update_row_other by exact Hr. reflexivity.
  - intros i r Hi Hr. exists (update_row tid st xp xt pl plp r). split.
    + rewrite nth_error_map, Hi. reflexivity.
    + unfold update_row. apply Z.eqb_eq in Hr. rewrite Hr. cbn.
      repeat split;
        first [ reflexivity
              | intros ->; reflexivity
              | intros x ->; reflexivity
              | intros x -> Hx; unfold nan_to_null; rewrite Hx; reflexivity ].
  - apply map_update_row_absent.
Qed.

(** X4. Closing with nothing to close: when no row of [trades] is open,
    [handle_position_closure] writes nothing and prints nothing, whatever
    the price, the side, the amount and the key it is called with; and
    called without a key it does what it does with the key of the latest
    open trade. *)
Theorem closure_without_open_trade (env : Env) (price : float) (side : str)
    (amt : float) (db : Db) :
  (latest_open (trades db) = None ->
   forall tid, handle_position_closure env price side amt tid db = (Ret tt, db, []))
  /\ (forall t, latest_open (trades db) = Some t ->
                handle_position_closure env price side amt None db
                = handle_position_closure env price side amt (Some (id t)) db).
Proof.
  split.
  - intros Hnone tid.
    unfold handle_position_closure, get_latest_open_trade, bind, get_db, ret.
    destruct tid as [k |]; cbn.
    + destruct (k =? 0)%Z; cbn; rewrite ?Hnone; reflexivity.
    + rewrite Hnone. reflexivity.
  - intros t Ht.
    unfold handle_position_closure, get_latest_open_trade, bind, get_db, ret.
    cbn. rewrite Ht. reflexivity.
Qed.

Lemma closure_without_open_trade_witness :
  handle_position_closure (flat_env 110 1000 (py "no")) 110 (py "long") 1 (Some 7%Z)
                          empty_db
  = (Ret tt, empty_db, []).
Proof.
  apply (proj1 (closure_without_open_trade (flat_env 110 1000 (py "no")) 110
                  (py "long") 1 empty_db)).
  reflexivity.
Defined.


(** ** The metrics by direction *)

Section Directional.

Local Open Scope Z_scope.

Lemma pystr_eqb_refl (a : str) : PyStr.eqb a a = true.
Proof.
  induction a as [| x a IH]; [reflexivity |].
  cbn. rewrite N.eqb_refl. exact IH.
Qed.

Lemma pystr_eqb_neq (a b : str) : PyStr.eqb a b = false -> a <> b.
Proof. intros H ->. rewrite pystr_eqb_refl in H. discriminate. Qed.

Lemma in_distinct (x : str) (l : list str) : In x (distinct l) <-> In x l.
Proof.
  induction l as [| a l IH]; [tauto |].
  cbn [distinct In]. rewrite filter_In, IH. split.
  - intros [H | [H _]]; auto.
  - intros [H | H]; [auto |].
    destruct (PyStr.eqb a x) eqn:E; [left; apply pystr_eqb_eq; exact E | right; auto].
Qed.

Lemma nodup_distinct (l : list str) : NoDup (distinct l).
Proof.
  induction l as [| a l IH]; [constructor |].
  cbn [distinct]. constructor.
  - rewrite filter_In. intros [_ H]. rewrite pystr_eqb_refl in H. discriminate.
  - apply NoDup_filter. exact IH.
Qed.

(** Among keys that are all different, [x] is met once if it is one of
    them. *)
Lemma count_key (x : str) (keys : list str) :
  NoDup keys -> In x keys ->
  fold_right (fun a acc => (if PyStr.eqb a x then 1 else 0) + acc) 0 keys = 1.
Proof.
  induction keys as [| a keys IH]; intros Hnd Hin; [destruct Hin |].
  inversion Hnd as [| ? ? Hnotin Hnd']; subst. cbn [fold_right].
  destruct Hin as [-> | Hin].
  - rewrite pystr_eqb_refl.
    assert (H0 : fold_right (fun a acc => (if PyStr.eqb a x then 1 else 0) + acc) 0 keys = 0).
    { clear IH Hnd Hnd'. induction keys as [| b keys IH]; [reflexivity |].
      cbn [fold_right]. destruct (PyStr.eqb b x) eqn:E.
      - apply pystr_eqb_eq in E. subst. destruct Hnotin. left. reflexivity.
      - rewrite IH; [reflexivity |]. intros H. apply Hnotin. right. exact H. }
    rewrite H0. reflexivity.
  - destruct (PyStr.eqb a x) eqn:E.
    + apply pystr_eqb_eq in E. subst. contradiction.
    + rewrite IH by assumption. reflexivity.
Qed.

(** The counts of the groups of a table, over keys that are all different
    and among which the action of every row is, add up to the count of the
    table. *)
Lemma count_by_key (c : Trade -> bool) (keys : list str) (rows : list Trade) :
  NoDup keys -> (forall r, In r rows -> In (action r) keys) ->
  fold_right (fun a acc => count c (filter (fun t => PyStr.eqb a (action t)) rows) + acc)
             0 keys
  = count c rows.
Proof.
  intros Hnd. induction rows as [| r rows IH]; intros Hin.
  - unfold count. cbn. clear. induction keys as [| a keys IH]; [reflexivity |].
    cbn [fold_right]. rewrite IH. reflexivity.
  - assert (Hsplit : forall ks,
             fold_right (fun a acc =>
                           count c (filter (fun t => PyStr.eqb a (action t)) (r :: rows))
                           + acc) 0 ks
             = (if c r then 1 else 0)
               * fold_right (fun a acc => (if PyStr.eqb a (action r) then 1 else 0) + acc)
                            0 ks
               + fold_right (fun a acc =>
                               count c (filter (fun t => PyStr.eqb a (action t)) rows)
                               + acc) 0 ks).
    { induction ks as [| a ks IHk]; [cbn; lia |].
      cbn [fold_right]. rewrite IHk. cbn [filter].
      destruct (PyStr.eqb a (action r)); [rewrite count_cons |]; lia. }
    rewrite Hsplit, IH by (intros r' Hr'; apply Hin; right; exact Hr').
    rewrite (count_key (action r) keys Hnd (Hin r (or_introl eq_refl))).
    rewrite count_cons. lia.
Qed.

Lemma sum_over_map (f : Metrics -> Z) (g : str -> Metrics) (keys : list str) :
  sum_over f (map (fun a => (a, g a)) keys)
  = fold_right (fun a acc => f (g a) + acc) 0 keys.
Proof.
  induction keys as [| a keys IH]; [reflexivity |].
  cbn [map sum_over fold_right snd]. f_equal. exact IH.
Qed.

End Directional.

(** X5. The metrics by direction add up: in what [get_performance_metrics]
    returns, the groups of ["directional"] have actions that are all
    different, every group has a trade, and the totals, the winners and the
    losers of the groups sum to those of ["overall"]. *)
Theorem directional_metrics_add_up (db : Db) :
  let overall := fst (get_performance_metrics db) in
  let directional := snd (get_performance_metrics db) in
  NoDup (map fst directional)
  /\ Forall (fun am => (0 < total_trades (snd am))%Z) directional
  /\ sum_over total_trades directional = total_trades overall
  /\ sum_over winning_trades directional = winning_trades overall
  /\ sum_over losing_trades directional = losing_trades overall.
Proof.
  cbv zeta. unfold get_performance_metrics. cbn [fst snd].
  set (closed := filter is_closed (trades db)).
  assert (Hin : forall r, In r closed -> In (action r) (distinct (map action closed))).
  { intros r Hr. apply in_distinct. apply in_map. exact Hr. }
  pose proof (nodup_distinct (map action closed)) as Hnd.
  split; [| split; [| split; [| split]]].
  - rewrite map_map. cbn [fst]. rewrite map_id. exact Hnd.
  - apply Forall_forall. intros [a m] Ham. apply in_map_iff in Ham.
    destruct Ham as (a' & [= <- <-] & Ha). cbn [snd metrics_of total_trades].
    apply (proj1 (in_distinct _ _)) in Ha. apply in_map_iff in Ha. destruct Ha as (r & <- & Hr).
    rewrite count_all.
    assert (Hf : In r (filter (fun t => PyStr.eqb (action r) (action t)) closed)).
    { apply filter_In. split; [exact Hr | apply pystr_eqb_refl]. }
    destruct (filter _ closed); [destruct Hf | cbn [List.length]; lia].
  - rewrite (sum_over_map total_trades
               (fun a => metrics_of (filter (fun t => PyStr.eqb a (action t)) closed))).
    cbn [metrics_of total_trades]. apply count_by_key; assumption.
  - rewrite (sum_over_map winning_trades
               (fun a => metrics_of (filter (fun t => PyStr.eqb a (action t)) closed))).
    cbn [metrics_of winning_trades]. apply count_by_key; assumption.
  - rewrite (sum_over_map losing_trades
               (fun a => metrics_of (filter (fun t => PyStr.eqb a (action t)) closed))).
    cbn [metrics_of losing_trades]. apply count_by_key; assumption.
Qed.


(** ** What a pass writes *)

Section PassDb.

Lemma link_analysis_db (tid aid : Z) (db db' : Db) (o : outcome unit) (ev : list event) :
  link_analysis tid aid db = (o, db', ev) ->
  ev = [] /\ o = Ret tt
  /\ db' = mkDb (trades db) (map (linked tid aid) (analyses db)).
Proof. unfold link_analysis. intros H. msteps. auto. Qed.

Lemma save_ai_analysis_db (now : str) (ad : AnalysisData) (tid : option Z)
    (db db' : Db) (o : outcome Z) (ev : list event) :
  save_ai_analysis now ad tid db = (o, db', ev) ->
  ev = [] /\
  ((o = Raise Exception /\ db' = db)
   \/ (o = Ret (next_id (analyses db))
       /\ db' = mkDb (trades db)
                     (analyses db ++ [new_analysis (next_id (analyses db)) now ad tid]))).
Proof. unfold save_ai_analysis. intros H. msteps; cbn; auto. Qed.

Lemma open_position_db (env : Env) (long : bool) (price q : float) (d : Decision)
    (inv : float) (aid : Z) (db db' : Db) (o : outcome unit) (ev : list event) :
  open_position env long price q d inv aid db = (o, db', ev) ->
  db' = db
  \/ exists sl tp,
      db' = mkDb (trades db ++ [opened_row env long price q d inv sl tp (next_id (trades db))])
                 (map (linked (next_id (trades db)) aid) (analyses db)).
Proof.
  unfold open_position. intros H.
  msteps;
    repeat match goal with
      | H : save_trade _ _ _ = _ |- _ =>
          apply save_trade_inv in H; destruct H as [? [(? & ? & ?) | (? & ? & ?)]]; subst
      | H : link_analysis _ _ _ = _ |- _ =>
          apply link_analysis_db in H; destruct H as (? & ? & ?); subst
      end; same; try discriminate; auto.
  right. match goal with E : bracket _ _ _ _ = Some ?x |- _ => destruct x as [sl tp] end.
  exists sl, tp. reflexivity.
Qed.

Lemma trade_db (env : Env) (price : float) (d : Decision) (aid : Z) (action : str)
    (db db' : Db) (o : outcome unit) (ev : list event) :
  trade env price d aid action db = (o, db', ev) ->
  db' = db
  \/ exists long q inv sl tp,
      db' = mkDb (trades db ++ [opened_row env long price q d inv sl tp (next_id (trades db))])
                 (map (linked (next_id (trades db)) aid) (analyses db)).
Proof.
  unfold trade. intros H. msteps; auto.
  all: match goal with
       | H : open_position _ _ _ _ _ _ _ _ = _ |- _ =>
           apply open_position_db in H; destruct H as [-> | (sl & tp & ->)]; [auto |]
       end.
  all: right; eexists _, _, _, sl, tp; reflexivity.
Qed.

Lemma decide_and_trade_db (env : Env) (price : float) (content : option str)
    (db db' : Db) (o : outcome unit) (ev : list event) :
  decide_and_trade env price content db = (o, db', ev) ->
  recorded env price (read_content content) db db'.
Proof.
  unfold decide_and_trade, read_content, recorded. intros H. msteps.
  all: repeat match goal with
         | H : json_loads _ _ = _ |- _ =>
             apply json_loads_inv in H;
             destruct H as (? & ? & [(? & ?) | (? & ? & ?)]); subst
         | H : save_ai_analysis _ _ _ _ = _ |- _ =>
             apply save_ai_analysis_db in H;
             destruct H as (? & [(? & ?) | (? & ?)]); subst
         end; same; try discriminate; auto.
  all: right;
    match goal with
    | H : Json.loads _ = Some _, H' : read_decision _ = Some ?d |- _ =>
        rewrite H; exists d; split; [exact H' |]
    end.
  all: try (left; reflexivity).
  match goal with H : trade _ _ _ _ _ _ = _ |- _ => apply trade_db in H; rename H into Ht end.
  cbn [trades analyses] in Ht.
  destruct Ht as [-> | (long & q & inv & sl & tp & ->)]; [left; reflexivity |].
  right. exists long, q, inv, sl, tp. reflexivity.
Qed.

Lemma on_error_db (content : option str) (e : exn) (db db' : Db) (o : outcome unit)
    (ev : list event) :
  on_error content e db = (o, db', ev) -> db' = db /\ o = Continue.
Proof. unfold on_error. intros H. destruct e; msteps; auto. Qed.

Lemma decide_db (env : Env) (price : float) (content : option str)
    (db db' : Db) (o : outcome unit) (ev : list event) :
  try_except (decide_and_trade env price content) (on_error content) db = (o, db', ev) ->
  recorded env price (read_content content) db db'.
Proof.
  intros H. apply try_except_inv in H.
  destruct H as [[H _] | (e & db1 & ev1 & ev2 & H & Hh & ->)].
  - eapply decide_and_trade_db; eassumption.
  - apply on_error_db in Hh. destruct Hh as [-> _].
    eapply decide_and_trade_db; eassumption.
Qed.

Lemma without_position_db (env : Env) (price : float) (db db' : Db)
    (o : outcome unit) (ev : list event) :
  without_position env price (latest_open (trades db)) db = (o, db', ev) ->
  db' = db
  \/ exists ts, settle env price (trades db) = Some ts
                /\ recorded env price (decision_of env) (mkDb ts (analyses db)) db'.
Proof.
  unfold without_position. intros H.
  apply bind_inv in H.
  destruct H as [(a & db1 & ev1 & ev2 & Hc & H & ->) | [(Hc & ->) | (e & Hc & ->)]];
    apply close_open_trade_inv in Hc; destruct Hc as (Han & Hev & Hc);
    destruct (settle env price (trades db)) as [ts |]; destruct Hc as [Ho Hts];
    try discriminate; auto.
  right. exists ts. split; [reflexivity |].
  assert (Hdb1 : db1 = mkDb ts (analyses db)).
  { destruct db1 as [t1 a1]. cbn [trades analyses] in *. subst. reflexivity. }
  subst db1.
  apply bind_inv in H.
  destruct H as [(a2 & db2 & ev3 & ev4 & Hc & H & ->) | [(Hc & ->) | (e & Hc & ->)]];
    apply cancel_inv in Hc; destruct Hc as (Ho2 & -> & Hev2); try discriminate.
  msteps; try (left; reflexivity).
  all: match goal with H : try_except _ _ _ = _ |- _ =>
         apply decide_db in H;
         erewrite decision_of_read by eassumption; exact H
       end.
Qed.

(** What a pass writes, by what it finds. *)
Lemma iteration_db (env : Env) (db : Db) : pass_db env db (fst (iteration env db)).
Proof.
  unfold pass_db. destruct (iteration env db) as [db' ev] eqn:H. cbn [fst].
  pose proof (iteration_inv env db db' ev H) as Hinv.
  destruct (ticker_last env) as [price |] eqn:Hp; [| left; tauto].
  destruct (positions env) as [ps |] eqn:Hps; [| left; tauto].
  destruct (fst (current_position ps)) as [side |] eqn:Hside.
  - destruct Hinv as [Han Hinv].
    destruct (latest_open (trades db)) as [t |] eqn:Ht; [left; tauto |].
    destruct (trade_data_ok _); [| left; tauto].
    right; left. exists price, ps, side. repeat split; auto.
    destruct Hinv as [_ Hts]. destruct db' as [t1 a1]. cbn [trades analyses] in *.
    subst. reflexivity.
  - clear Hinv. unfold iteration, loop_body in H. rewrite Hp, Hps in H.
    cbn [returned] in H. rewrite !bind_ret_l, bind_get_latest, Hside in H.
    destruct (without_position env price (latest_open (trades db)) db)
      as [[o db1] ev1] eqn:Hw.
    assert (Hdb : db' = db1).
    { unfold bind in H. rewrite Hw in H. destruct o; cbn in H; inversion H; reflexivity. }
    subst db1. apply without_position_db in Hw.
    destruct Hw as [-> | (ts & Hs & Hr)]; [left; reflexivity |].
    right; right. exists price, ts. repeat split; auto.
    exists ps. auto.
Qed.

End PassDb.


(** ** What the passes keep *)

Section Consistency.

Lemma keys_upto_S (n : nat) : keys_upto (S n) = keys_upto n ++ [Z.of_nat (S n)].
Proof. unfold keys_upto. rewrite seq_S, map_app. reflexivity. Qed.

Lemma in_keys_upto (k : Z) (n : nat) : In k (keys_upto n) <-> (1 <= k <= Z.of_nat n)%Z.
Proof.
  unfold keys_upto. rewrite in_map_iff. split.
  - intros (i & <- & Hi). apply in_seq in Hi. lia.
  - intros H. exists (Z.to_nat k). split; [lia |]. apply in_seq. lia.
Qed.

Lemma next_id_S {A} (rows : list A) : next_id rows = Z.of_nat (S (List.length rows)).
Proof. unfold next_id. lia. Qed.

Lemma keys_app {A} (key : A -> Z) (rows : list A) (r : A) :
  map key rows = keys_upto (List.length rows) -> key r = next_id rows ->
  map key (rows ++ [r]) = keys_upto (List.length (rows ++ [r])).
Proof.
  intros H Hr. rewrite map_app, length_app, H. cbn [map List.length].
  rewrite Nat.add_1_r, keys_upto_S, Hr, next_id_S. reflexivity.
Qed.

Lemma next_id_fresh {A} (key : A -> Z) (rows : list A) :
  map key rows = keys_upto (List.length rows) -> ~ In (next_id rows) (map key rows).
Proof. intros H. rewrite H, in_keys_upto. unfold next_id. lia. Qed.

Lemma keys_nonzero (rows : list Trade) :
  map id rows = keys_upto (List.length rows) -> Forall (fun t => id t <> 0%Z) rows.
Proof.
  intros H. apply Forall_forall. intros t Ht Hz.
  assert (Hin : In (id t) (map id rows)) by (apply in_map; exact Ht).
  rewrite H, in_keys_upto in Hin. lia.
Qed.

Lemma a_id_linked (tid aid : Z) (a : Analysis) : a_id (linked tid aid a) = a_id a.
Proof. unfold linked. destruct (a_id a =? aid)%Z; reflexivity. Qed.

Lemma linked_other (tid aid : Z) (a : Analysis) : a_id a <> aid -> linked tid aid a = a.
Proof.
  intros H. unfold linked. destruct (Z.eqb_spec (a_id a) aid); [contradiction | reflexivity].
Qed.

Lemma map_linked_fresh (tid aid : Z) (an : list Analysis) :
  ~ In aid (map a_id an) -> map (linked tid aid) an = an.
Proof.
  induction an as [| a an IH]; [reflexivity |].
  cbn [map In]. intros H. rewrite linked_other by tauto. rewrite IH by tauto. reflexivity.
Qed.

(** With keys in order, the link is set on the row that was just written
    and on no other. *)
Lemma linked_last (env : Env) (price : float) (d : Decision) (tid : Z)
    (an : list Analysis) :
  map a_id an = keys_upto (List.length an) ->
  map (linked tid (next_id an)) (an ++ [analysed env price d an])
  = an ++ [linked tid (next_id an) (analysed env price d an)]
  /\ a_trade_id (linked tid (next_id an) (analysed env price d an)) = Some tid
  /\ a_id (linked tid (next_id an) (analysed env price d an)) = next_id an.
Proof.
  intros H. rewrite map_app, map_linked_fresh by (apply next_id_fresh; exact H).
  cbn [map]. unfold linked, analysed, new_analysis. cbn [a_id].
  rewrite Z.eqb_refl. cbn. auto.
Qed.

Lemma flat_map_link_app (an : list Analysis) (a : Analysis) :
  flat_map link_of (an ++ [a]) = flat_map link_of an ++ link_of a.
Proof. rewrite flat_map_app. cbn [flat_map]. rewrite app_nil_r. reflexivity. Qed.

(** The closure leaves the keys as they are, and closes with an exit time. *)
Lemma settle_consistent (env : Env) (price : float) (rows ts : list Trade) :
  settle env price rows = Some ts ->
  map id ts = map id rows
  /\ (Forall (fun t => is_some (exit_timestamp t) = is_closed t) rows ->
      Forall (fun t => is_some (exit_timestamp t) = is_closed t) ts).
Proof.
  unfold settle. destruct (latest_open rows) as [t |]; [| intros [= <-]; auto].
  destruct (id t =? 0)%Z; [intros [= <-]; auto |].
  destruct (profit_and_loss _ _ _ _) as [pl |]; [| discriminate].
  intros [= <-]. split; [apply map_id_update_row |].
  intros H. apply Forall_map. eapply Forall_impl; [| exact H].
  intros r Hr. unfold update_row. destruct (id r =? id t)%Z; [reflexivity | exact Hr].
Qed.

Lemma recorded_consistent (env : Env) (price : float) (d : option Decision)
    (db1 db' : Db) :
  recorded env price d db1 db' ->
  open_count (trades db1) = 0%nat ->
  consistent db1 -> consistent db'.
Proof.
  intros Hrec Hnone (Hk & Ha & Hl & Hnd & Hx & Ho).
  destruct Hrec as [-> | (d' & _ & [-> | (long & q & inv & sl & tp & ->)])].
  - repeat split; assumption.
  - unfold consistent. cbn [trades analyses].
    rewrite flat_map_link_app. cbn [link_of analysed new_analysis a_trade_id].
    rewrite app_nil_r. repeat split; try assumption.
    apply keys_app; [exact Ha | reflexivity].
  - destruct (linked_last env price d' (next_id (trades db1)) (analyses db1) Ha)
      as (Hmap & Hlink & Hid).
    unfold consistent. cbn [trades analyses]. rewrite Hmap, flat_map_link_app.
    unfold link_of at 2 4. rewrite Hlink.
    split; [apply keys_app; [exact Hk | reflexivity] |].
    split; [apply keys_app; [exact Ha | exact Hid] |].
    split; [| split; [| split]].
    + intros k Hin. rewrite map_app. apply in_or_app.
      apply in_app_or in Hin. destruct Hin as [Hin | [<- | []]]; [left; auto |].
      right. left. reflexivity.
    + apply NoDup_app; [exact Hnd | repeat constructor; intros [] |].
      intros k Hin [<- | []]. apply Hl in Hin.
      exact (next_id_fresh id (trades db1) Hk Hin).
    + apply Forall_app. split; [exact Hx |]. repeat constructor.
    + rewrite open_count_app, Hnone. cbn. lia.
Qed.

Lemma pass_consistent (env : Env) (db db' : Db) :
  pass_db env db db' -> consistent db -> consistent db'.
Proof.
  intros Hpass Hc. pose proof Hc as (Hk & Ha & Hl & Hnd & Hx & Ho).
  destruct Hpass as [-> | [(price & ps & side & _ & _ & _ & Hnone & ->)
                          | (price & ts & _ & _ & Hs & Hrec)]].
  - exact Hc.
  - unfold consistent. cbn [trades analyses].
    split; [apply keys_app; [exact Hk | reflexivity] |].
    split; [exact Ha |]. split; [| split; [exact Hnd | split]].
    + intros k Hin. rewrite map_app. apply in_or_app. left. auto.
    + apply Forall_app. split; [exact Hx |]. repeat constructor.
    + rewrite open_count_app. unfold open_count.
      rewrite (latest_open_none _ Hnone). cbn. lia.
  - destruct (settle_consistent env price _ ts Hs) as [Hids Hexit].
    destruct (settle_closes env price (trades db) ts) as [Hzero _];
      [split; [exact Ho | apply keys_nonzero; exact Hk] | exact Hs |].
    eapply recorded_consistent; [exact Hrec | exact Hzero |].
    unfold consistent. cbn [trades analyses].
    rewrite Hids, (settle_length _ _ _ _ Hs).
    repeat split; auto. rewrite Hzero. lia.
Qed.

Lemma consistent_empty : consistent empty_db.
Proof.
  unfold consistent, empty_db. cbn.
  repeat split; try constructor; try tauto. lia.
Qed.

Lemma run_fst_cons (env : Env) (envs : list Env) (db : Db) :
  fst (run (env :: envs) db) = fst (run envs (fst (iteration env db))).
Proof.
  cbn [run]. destruct (iteration env db) as [db1 ev1]. cbn [fst].
  destruct (run envs db1) as [db2 ev2]. reflexivity.
Qed.

Lemma run_consistent (envs : list Env) (db : Db) :
  consistent db -> consistent (fst (run envs db)).
Proof.
  revert db. induction envs as [| env envs IH]; intros db H; [exact H |].
  rewrite run_fst_cons. apply IH. eapply pass_consistent; [apply iteration_db | exact H].
Qed.

End Consistency.


(** ** The tables over the passes *)

Section History.

Lemma nodup_keys_upto (n : nat) : NoDup (keys_upto n).
Proof.
  induction n as [| n IH]; [constructor |].
  rewrite keys_upto_S. apply NoDup_app; [exact IH | repeat constructor; intros [] |].
  intros k Hk [<- | []]. apply in_keys_upto in Hk. lia.
Qed.

Lemma pass_lengths (env : Env) (db db' : Db) :
  pass_db env db db' ->
  (List.length (trades db') <= S (List.length (trades db)))%nat
  /\ (List.length (analyses db') <= S (List.length (analyses db)))%nat.
Proof.
  intros [-> | [(price & ps & side & _ & _ & _ & _ & ->) | (price & ts & _ & _ & Hs & Hrec)]].
  - lia.
  - cbn [trades analyses]. rewrite length_app. cbn. lia.
  - pose proof (settle_length _ _ _ _ Hs) as Hlen.
    destruct Hrec as [-> | (d' & _ & [-> | (long & q & inv & sl & tp & ->)])];
      cbn [trades analyses]; rewrite ?length_map, ?length_app; cbn [List.length]; lia.
Qed.

Lemma run_lengths (envs : list Env) (db : Db) :
  (List.length (trades (fst (run envs db)))
   <= List.length envs + List.length (trades db))%nat
  /\ (List.length (analyses (fst (run envs db)))
      <= List.length envs + List.length (analyses db))%nat.
Proof.
  revert db. induction envs as [| env envs IH]; intros db; [cbn; lia |].
  rewrite run_fst_cons. destruct (IH (fst (iteration env db))) as [H1 H2].
  destruct (pass_lengths env db _ (iteration_db env db)) as [H3 H4].
  cbn [List.length]. lia.
Qed.

(** With keys that are all different, a row is known by its key. *)
Lemma same_key_same_row (rows : list Trade) (r t : Trade) :
  NoDup (map id rows) -> In r rows -> In t rows -> id r = id t -> r = t.
Proof.
  induction rows as [| x rows IH]; intros Hnd Hr Ht Hid; [destruct Hr |].
  cbn [map] in Hnd. inversion Hnd as [| ? ? Hnotin Hnd']; subst.
  destruct Hr as [-> | Hr], Ht as [-> | Ht]; auto.
  - destruct Hnotin. rewrite Hid. apply in_map. exact Ht.
  - destruct Hnotin. rewrite <- Hid. apply in_map. exact Hr.
Qed.

Lemma row_kept_refl (r : Trade) : row_kept r r.
Proof. unfold row_kept. auto 20. Qed.

Lemma row_kept_trans (a b c : Trade) : row_kept a b -> row_kept b c -> row_kept a c.
Proof.
  unfold row_kept. intros (Hab & H1) (Hbc & H2).
  split.
  - intros Ha. specialize (Hab Ha). subst b. auto.
  - intuition congruence.
Qed.

Lemma rows_kept_refl (rows : list Trade) : Forall2 row_kept rows rows.
Proof. induction rows; constructor; [apply row_kept_refl | assumption]. Qed.

Lemma rows_kept_trans (l1 l2 l3 : list Trade) :
  Forall2 row_kept l1 l2 -> Forall2 row_kept l2 l3 -> Forall2 row_kept l1 l3.
Proof.
  intros H. revert l3. induction H as [| a b l1 l2 Hab H IH]; intros l3 H3.
  - inversion H3. constructor.
  - inversion H3 as [| ? c ? l3' Hbc H3']; subst. constructor.
    + eapply row_kept_trans; eassumption.
    + apply IH. exact H3'.
Qed.

(** The closure changes the one row that was open: with keys that are all
    different, every row is kept. *)
Lemma settle_kept (env : Env) (price : float) (rows ts : list Trade) :
  NoDup (map id rows) -> settle env price rows = Some ts -> Forall2 row_kept rows ts.
Proof.
  intros Hnd. unfold settle. destruct (latest_open rows) as [t |] eqn:Ht;
    [| intros [= <-]; apply rows_kept_refl].
  destruct (id t =? 0)%Z; [intros [= <-]; apply rows_kept_refl |].
  destruct (profit_and_loss _ _ _ _) as [pl |]; [| discriminate].
  intros [= <-]. destruct (latest_open_some _ _ Ht) as [Hin Hopen].
  assert (H : forall l, (forall r, In r l -> In r rows) ->
                        Forall2 row_kept l
                          (map (update_row (id t) CLOSED (Some price) (Some (now_exit env))
                                           (Some (fst pl)) (Some (snd pl))) l)).
  { induction l as [| r l IH]; intros Hl; [constructor |].
    cbn [map]. constructor; [| apply IH; intros r' Hr'; apply Hl; right; exact Hr'].
    unfold update_row. destruct (Z.eqb_spec (id r) (id t)) as [E | E];
      [| apply row_kept_refl].
    assert (r = t) by (apply (same_key_same_row rows); auto; apply Hl; left; reflexivity).
    subst r. unfold row_kept. cbn. repeat split; try reflexivity.
    rewrite Hopen. discriminate. }
  apply H. auto.
Qed.

Lemma grows_refl (db : Db) : grows db db.
Proof.
  split.
  - exists (trades db), []. rewrite app_nil_r. split; [reflexivity | apply rows_kept_refl].
  - exists []. rewrite app_nil_r. reflexivity.
Qed.

Lemma grows_trans (a b c : Db) : grows a b -> grows b c -> grows a c.
Proof.
  intros [(k1 & n1 & Hb & H1) (m1 & Hab)] [(k2 & n2 & Hc & H2) (m2 & Hbc)].
  split.
  - rewrite Hb in H2. apply Forall2_app_inv_l in H2.
    destruct H2 as (k2a & k2b & H2a & H2b & ->).
    exists k2a, (k2b ++ n2). split; [rewrite Hc, app_assoc; reflexivity |].
    eapply rows_kept_trans; eassumption.
  - exists (m1 ++ m2). rewrite Hbc, Hab, app_assoc. reflexivity.
Qed.

Lemma pass_grows (env : Env) (db db' : Db) :
  pass_db env db db' -> consistent db -> grows db db'.
Proof.
  intros Hpass (Hk & Ha & _).
  destruct Hpass as [-> | [(price & ps & side & _ & _ & _ & _ & ->)
                          | (price & ts & _ & _ & Hs & Hrec)]].
  - apply grows_refl.
  - split; cbn [trades analyses].
    + eexists _, _. split; [reflexivity | apply rows_kept_refl].
    + exists []. rewrite app_nil_r. reflexivity.
  - assert (Hkept : Forall2 row_kept (trades db) ts).
    { apply (settle_kept env price); [| exact Hs].
      rewrite Hk. apply nodup_keys_upto. }
    destruct Hrec as [-> | (d' & _ & [-> | (long & q & inv & sl & tp & ->)])];
      split; cbn [trades analyses].
    + exists ts, []. rewrite app_nil_r. auto.
    + exists []. rewrite app_nil_r. reflexivity.
    + exists ts, []. rewrite app_nil_r. auto.
    + eexists. reflexivity.
    + eexists _, _. split; [reflexivity | exact Hkept].
    + destruct (linked_last env price d' (next_id ts) (analyses db) Ha) as (-> & _).
      eexists. reflexivity.
Qed.

Lemma run_grows (envs : list Env) (db : Db) :
  consistent db -> grows db (fst (run envs db)).
Proof.
  revert db. induction envs as [| env envs IH]; intros db H; [apply grows_refl |].
  rewrite run_fst_cons.
  pose proof (iteration_db env db) as Hp.
  eapply grows_trans; [eapply pass_grows; eassumption |].
  apply IH. eapply pass_consistent; eassumption.
Qed.

Lemma run_app (envs1 envs2 : list Env) (db : Db) :
  run (envs1 ++ envs2) db
  = (fst (run envs2 (fst (run envs1 db))),
     snd (run envs1 db) ++ snd (run envs2 (fst (run envs1 db)))).
Proof.
  revert db. induction envs1 as [| env envs1 IH]; intros db.
  - cbn [app run fst snd]. destruct (run envs2 db). reflexivity.
  - cbn [app run]. destruct (iteration env db) as [db1 ev1].
    rewrite IH. destruct (run envs1 db1) as [db2 ev2]. cbn [fst snd].
    rewrite app_assoc. reflexivity.
Qed.

Lemma forall2_nth {A B} (R : A -> B -> Prop) (l : list A) (l' : list B) (i : nat) (a : A) :
  Forall2 R l l' -> nth_error l i = Some a ->
  exists b, nth_error l' i = Some b /\ R a b.
Proof.
  intros H. revert i. induction H as [| x y l l' Hxy H IH]; intros [| i] Hi;
    cbn in *; try discriminate.
  - inversion Hi; subst. eauto.
  - apply IH. exact Hi.
Qed.

(** At most one analysis is linked to a trade when the links are all
    different. *)
Lemma analyses_of_le (k : Z) (an : list Analysis) :
  NoDup (flat_map link_of an) -> (List.length (analyses_of k an) <= 1)%nat.
Proof.
  unfold analyses_of.
  induction an as [| a an IH]; intros Hnd; [cbn; lia |].
  cbn [flat_map] in Hnd. cbn [filter].
  unfold link_of in Hnd at 1. destruct (a_trade_id a) as [k' |].
  - cbn [app] in Hnd. inversion Hnd as [| ? ? Hnotin Hnd']; subst.
    destruct (Z.eqb_spec k' k) as [-> | _]; [| auto].
    cbn [List.length].
    assert (H0 : filter (fun a => match a_trade_id a with
                                  | Some k' => (k' =? k)%Z
                                  | None => false
                                  end) an = []).
    { clear IH Hnd Hnd'. induction an as [| b an IH]; [reflexivity |].
      cbn [filter]. cbn [flat_map] in Hnotin.
      destruct (a_trade_id b) as [kb |] eqn:Hb.
      - destruct (Z.eqb_spec kb k) as [-> | _].
        + destruct Hnotin. apply in_or_app. left. unfold link_of. rewrite Hb. left.
          reflexivity.
        + apply IH. intros H. apply Hnotin. apply in_or_app. right. exact H.
      - apply IH. intros H. apply Hnotin. apply in_or_app. right. exact H. }
    rewrite H0. cbn. lia.
  - auto.
Qed.

End History.

(** X2. Insert, then look up: when the values of [trade_data] can be
    bound, the keys of [trades] are 1, 2, ... in the order of the rows (as
    they are after any passes of the loop) and [now] is later than the
    timestamp of every open row, [save_trade] returns a key that no row had,
    adds one row with that key, which holds the values as they were given,
    the status ['OPEN'] and no exit, leaves the keys in order and
    [ai_analysis] as it is, and [get_latest_open_trade] then returns that
    row. *)
Theorem save_trade_then_latest (now : str) (td : TradeData) (db : Db) :
  trade_data_ok td = true ->
  map id (trades db) = keys_upto (List.length (trades db)) ->
  (forall u, In u (trades db) -> status u = OPEN ->
             PyStr.ltb (timestamp u) now = true) ->
  exists (key : Z) (row : Trade) (db' : Db),
    save_trade now td db = (Ret key, db', [])
    /\ ~ In key (map id (trades db))
    /\ trades db' = trades db ++ [row]
    /\ map id (trades db') = keys_upto (List.length (trades db'))
    /\ analyses db' = analyses db
    /\ get_latest_open_trade db' = (Ret (Some row), db', [])
    /\ id row = key
    /\ timestamp row = now
    /\ action row = td_action td
    /\ entry_price row = td_entry_price td
    /\ amount row = td_amount td
    /\ leverage row = td_leverage td
    /\ sl_price row = td_sl_price td
    /\ tp_price row = td_tp_price td
    /\ sl_percentage row = real_of (td_sl_percentage td)
    /\ tp_percentage row = real_of (td_tp_percentage td)
    /\ position_size_percentage row = real_of (td_position_size_percentage td)
    /\ investment_amount row = td_investment_amount td
    /\ status row = OPEN
    /\ exit_price row = None /\ exit_timestamp row = None
    /\ profit_loss row = None /\ profit_loss_percentage row = None.
Proof.
  intros Hok Hkeys Hlater.
  exists (next_id (trades db)), (new_trade (next_id (trades db)) now td),
    (mkDb (trades db ++ [new_trade (next_id (trades db)) now td]) (analyses db)).
  split.
  { unfold save_trade, bind, get_db, put_db, ret. rewrite Hok. reflexivity. }
  split; [apply next_id_fresh; exact Hkeys |].
  split; [reflexivity |].
  split; [apply keys_app; [exact Hkeys | reflexivity] |].
  split; [reflexivity |].
  split.
  { unfold get_latest_open_trade, bind, get_db, ret. cbn [trades app].
    rewrite latest_open_app_later; [reflexivity | reflexivity | exact Hlater]. }
  repeat split.
Qed.

Lemma save_trade_then_latest_witness :
  exists (key : Z) (row : Trade) (db' : Db),
    save_trade (py "2025-01-03T00:00:00") (temp_trade_data (py "long") 110 1)
               (db_open "short")
    = (Ret key, db', [])
    /\ ~ In key (map id (trades (db_open "short")))
    /\ get_latest_open_trade db' = (Ret (Some row), db', [])
    /\ id row = key /\ action row = py "long".
Proof.
  destruct (save_trade_then_latest (py "2025-01-03T00:00:00")
              (temp_trade_data (py "long") 110 1) (db_open "short"))
    as (key & row & db' & Hs & Hfresh & _ & _ & _ & Hl & Hid & _ & Ha & _).
  - reflexivity.
  - reflexivity.
  - intros u [<- | []] Hu. reflexivity.
  - exists key, row, db'. auto.
Defined.

(** X6. The keys of the tables: after any passes from empty tables, the
    keys of [trades] are 1, 2, ... in the order of the rows, and so are those
    of [ai_analysis]; no key is there twice, so a row is known by the key
    [save_trade] or [save_ai_analysis] returned for it; and no table has more
    rows than there were passes. *)
Theorem keys_in_order (envs : list Env) :
  let db := fst (run envs empty_db) in
  map id (trades db) = keys_upto (List.length (trades db))
  /\ map a_id (analyses db) = keys_upto (List.length (analyses db))
  /\ NoDup (map id (trades db))
  /\ NoDup (map a_id (analyses db))
  /\ (List.length (trades db) <= List.length envs)%nat
  /\ (List.length (analyses db) <= List.length envs)%nat.
Proof.
  cbv zeta.
  destruct (run_consistent envs empty_db consistent_empty) as (Hk & Ha & _).
  destruct (run_lengths envs empty_db) as [H1 H2]. cbn [empty_db trades analyses List.length] in H1, H2.
  repeat split; try assumption; try lia.
  - rewrite Hk. apply nodup_keys_upto.
  - rewrite Ha. apply nodup_keys_upto.
Qed.

(** X7. The links of the analyses: after any passes from empty tables, the
    [trade_id] of a row of [ai_analysis] is the key of a row of [trades], and
    at most one analysis is linked to a trade. *)
Theorem links_refer_to_trades (envs : list Env) :
  let db := fst (run envs empty_db) in
  (forall a k, In a (analyses db) -> a_trade_id a = Some k ->
               exists t, In t (trades db) /\ id t = k)
  /\ (forall k, (List.length (analyses_of k (analyses db)) <= 1)%nat).
Proof.
  cbv zeta.
  destruct (run_consistent envs empty_db consistent_empty) as (_ & _ & Hl & Hnd & _).
  split.
  - intros a k Ha Hk.
    assert (Hin : In k (flat_map link_of (analyses (fst (run envs empty_db))))).
    { apply in_flat_map. exists a. split; [exact Ha |]. unfold link_of. rewrite Hk. left.
      reflexivity. }
    apply Hl in Hin. apply in_map_iff in Hin. destruct Hin as (t & Ht & Hin). eauto.
  - intros k. apply analyses_of_le. exact Hnd.
Qed.

(** X8. The history is kept: the rows that [trades] and [ai_analysis] hold
    after some passes from empty tables are still there, in their places,
    after any passes more; a row of [ai_analysis] is as it was; a row of
    [trades] has what it was opened with, and once closed it is as it was
    (its exit price, its exit time and its P/L are written once). *)
Theorem history_is_kept (envs1 envs2 : list Env) (i : nat) :
  let db1 := fst (run envs1 empty_db) in
  let db2 := fst (run (envs1 ++ envs2) empty_db) in
  (forall r, nth_error (trades db1) i = Some r ->
             exists r', nth_error (trades db2) i = Some r' /\ row_kept r r')
  /\ (forall a, nth_error (analyses db1) i = Some a ->
                nth_error (analyses db2) i = Some a).
Proof.
  cbv zeta. rewrite run_app. cbn [fst].
  pose proof (run_consistent envs1 empty_db consistent_empty) as Hc.
  destruct (run_grows envs2 _ Hc) as [(kept & new & Ht & Hkept) (new' & Ha)].
  split.
  - intros r Hr. destruct (forall2_nth _ _ _ _ _ Hkept Hr) as (r' & Hr' & Hk).
    exists r'. split; [| exact Hk].
    rewrite Ht, nth_error_app1; [exact Hr' |].
    apply nth_error_Some. congruence.
  - intros a Hi. rewrite Ha, nth_error_app1; [exact Hi |].
    apply nth_error_Some. congruence.
Qed.

Lemma links_refer_to_trades_witness :
  exists t, In t (trades (fst (run [env_long] empty_db))) /\ id t = 1%Z.
Proof.
  destruct (analyses (fst (run [env_long] empty_db))) as [| a an] eqn:E;
    [vm_compute in E; discriminate |].
  apply (proj1 (links_refer_to_trades [env_long]) a 1%Z).
  - rewrite E. left. reflexivity.
  - vm_compute in E. inversion E. reflexivity.
Defined.

Lemma history_is_kept_witness :
  exists r r',
    nth_error (trades (fst (run [env_long] empty_db))) 0 = Some r
    /\ nth_error (trades (fst (run ([env_long] ++ [flat_env 110 1000 (py "no")])
                                   empty_db))) 0 = Some r'
    /\ row_kept r r'.
Proof.
  destruct (nth_error (trades (fst (run [env_long] empty_db))) 0) as [r |] eqn:E;
    [| vm_compute in E; discriminate].
  destruct (proj1 (history_is_kept [env_long] [flat_env 110 1000 (py "no")] 0) r E)
    as (r' & Hr' & Hk).
  exists r, r'. auto.
Defined.

(** ** The summary and the overall metrics *)

Section SummaryOverall.

Local Open Scope Z_scope.

Lemma count_filter_le (c p : Trade -> bool) (rows : list Trade) :
  count c (filter p rows) <= count c rows.
Proof.
  induction rows as [| r rows IH]; [unfold count; cbn; lia |].
  cbn [filter]. destruct (p r); rewrite ?count_cons; destruct (c r); lia.
Qed.

Lemma in_summary_closed (cutoff : str) (rows : list Trade) :
  Forall (fun t => is_some (exit_timestamp t) = is_closed t) rows ->
  filter (in_summary cutoff) rows
  = filter (fun t => PyStr.leb cutoff (timestamp t)) (filter is_closed rows).
Proof.
  induction 1 as [| r rows Hr H IH]; [reflexivity |].
  cbn [filter]. unfold in_summary at 1. rewrite Hr.
  destruct (is_closed r); cbn [andb filter]; rewrite IH; reflexivity.
Qed.

Lemma filter_all {A} (p : A -> bool) (l : list A) :
  (forall x, In x l -> p x = true) -> filter p l = l.
Proof.
  induction l as [| a l IH]; intros H; [reflexivity |].
  cbn [filter]. rewrite (H a (or_introl eq_refl)), IH; [reflexivity |].
  intros x Hx. apply H. right. exact Hx.
Qed.

End SummaryOverall.

(** X9. The summary and the overall metrics: after any passes from empty
    tables a trade has an exit time exactly when its status is ['CLOSED'], so
    that [get_trade_summary], which counts the rows with an exit time that
    were opened at or after its cutoff, counts closed trades only: its total,
    its winners and its losers are at most those of ["overall"] in
    [get_performance_metrics], and equal to them when every trade was opened
    at or after the cutoff. *)
Theorem summary_within_overall (envs : list Env) (cutoff : str) :
  let db := fst (run envs empty_db) in
  let s := get_trade_summary cutoff db in
  let m := fst (get_performance_metrics db) in
  (forall t, In t (trades db) -> (status t = CLOSED <-> exit_timestamp t <> None))
  /\ (s_total_trades s <= total_trades m
      /\ s_winning_trades s <= winning_trades m
      /\ s_losing_trades s <= losing_trades m)%Z
  /\ ((forall t, In t (trades db) -> PyStr.leb cutoff (timestamp t) = true) ->
      s_total_trades s = total_trades m
      /\ s_winning_trades s = winning_trades m
      /\ s_losing_trades s = losing_trades m).
Proof.
  cbv zeta.
  destruct (run_consistent envs empty_db consistent_empty) as (_ & _ & _ & _ & Hx & _).
  set (db := fst (run envs empty_db)) in *.
  unfold get_trade_summary, get_performance_metrics, metrics_of.
  cbn [fst s_total_trades s_winning_trades s_losing_trades
       total_trades winning_trades losing_trades].
  rewrite (in_summary_closed cutoff _ Hx).
  split; [| split].
  - intros t Ht. rewrite Forall_forall in Hx. specialize (Hx t Ht).
    unfold is_closed in Hx. destruct (status t), (exit_timestamp t); cbn in Hx;
      split; intros H; try discriminate; try congruence.
  - repeat split; apply count_filter_le.
  - intros Hall. rewrite filter_all; [auto |].
    intros t Ht. apply Hall. apply filter_In in Ht. tauto.
Qed.

Lemma summary_within_overall_witness :
  s_total_trades
    (get_trade_summary (py "2024-12-26 00:00:00")
       (fst (run [env_long; flat_env 110 1000 (py "no")] empty_db)))
  = 1%Z
  /\ total_trades
       (fst (get_performance_metrics
               (fst (run [env_long; flat_env 110 1000 (py "no")] empty_db))))
     = 1%Z.
Proof.
  destruct (summary_within_overall [env_long; flat_env 110 1000 (py "no")]
              (py "2024-12-26 00:00:00")) as (_ & _ & H).
  destruct H as (H1 & _ & _).
  - intros t Ht. vm_compute in Ht. destruct Ht as [<- | []]. reflexivity.
  - split; [| rewrite <- H1]; vm_compute; reflexivity.
Defined.


(** * The passes, step by step *)

Section Forward.

Lemma bind_step {A B} (m : M A) (k : A -> M B) (db db1 : Db) (a : A) (ev1 : list event) :
  m db = (Ret a, db1, ev1) ->
  bind m k db = (fst (fst (k a db1)), snd (fst (k a db1)), ev1 ++ snd (k a db1)).
Proof.
  intros H. unfold bind. rewrite H. destruct (k a db1) as [[o db2] ev2]. reflexivity.
Qed.

Lemma bind_raise {A B} (m : M A) (k : A -> M B) (db db1 : Db) (e : exn) (ev1 : list event) :
  m db = (Raise e, db1, ev1) -> bind m k db = (Raise e, db1, ev1).
Proof. intros H. unfold bind. rewrite H. reflexivity. Qed.

Lemma cancel_all_eq (os : list (str * bool)) (db : Db) :
  cancel_all os db
  = (if forallb snd os then Ret tt else Raise Exception, db, cancelled os).
Proof.
  induction os as [| [oid ok] os IH]; [reflexivity |].
  cbn [cancel_all cancelled forallb snd]. destruct ok; cbn [call andb].
  - unfold bind, emit. rewrite IH. destruct (forallb snd os); reflexivity.
  - reflexivity.
Qed.

(** Lines 684 to 693: never an exception, nothing written. *)
Lemma cancel_remaining_orders_eq (env : Env) (db : Db) :
  cancel_remaining_orders env db = (Ret tt, db, cancel_events env).
Proof.
  unfold cancel_remaining_orders, cancel_events, try_except.
  destruct (open_orders env) as [os |]; cbn [returned].
  - rewrite bind_ret_l, cancel_all_eq.
    destruct (forallb snd os); cbn [ret]; rewrite ?app_nil_r; reflexivity.
  - reflexivity.
Qed.

Lemma close_open_trade_eq (env : Env) (price : float) (db : Db) :
  close_open_trade env price (latest_open (trades db)) db
  = match settle env price (trades db) with
    | Some ts => (Ret tt, mkDb ts (analyses db), closure_events env price db)
    | None => (Raise Exception, db, [])
    end.
Proof.
  unfold close_open_trade, closure_events, settle.
  destruct (latest_open (trades db)) as [t |] eqn:Ht; [| destruct db; reflexivity].
  cbn [option_map]. unfold handle_position_closure.
  rewrite bind_ret_l. destruct (id t =? 0)%Z; [destruct db; reflexivity |].
  rewrite bind_get_latest, Ht.
  destruct (profit_and_loss (action t) price (entry_price t) (amount t)) as [pl |];
    [| reflexivity].
  cbn [returned]. rewrite bind_ret_l.
  unfold update_trade_status, bind, get_db, put_db, ret, print, emit. reflexivity.
Qed.

Lemma decision_block_no_raise (env : Env) (price : float) (content : option str)
    (db : Db) (e : exn) :
  fst (fst (decision_block env price content db)) <> Raise e.
Proof.
  destruct (decision_block env price content db) as [[o db'] ev] eqn:H.
  unfold decision_block in H. apply decide_inv in H. destruct H as [H _].
  cbn [fst]. apply H.
Qed.

(** A pass that finds no position and gets an answer of the oracle. *)
Lemma flat_pass (env : Env) (db : Db) (price : float) (ps : list (str * float))
    (ts : list Trade) (content : option str) :
  ticker_last env = Some price ->
  positions env = Some ps ->
  fst (current_position ps) = None ->
  settle env price (trades db) = Some ts ->
  oracle env = Some content ->
  iteration env db
  = (snd (fst (decision_block env price content (mkDb ts (analyses db)))),
     closure_events env price db ++ cancel_events env
     ++ Sleep 5 :: snd (decision_block env price content (mkDb ts (analyses db)))
     ++ after_block (fst (fst (decision_block env price content (mkDb ts (analyses db)))))).
Proof.
  intros Hp Hps Hside Hs Ho.
  pose proof (decision_block_no_raise env price content (mkDb ts (analyses db))) as Hnr.
  unfold iteration, loop_body. rewrite Hp, Hps. cbn [returned].
  rewrite !bind_ret_l, bind_get_latest, Hside.
  unfold without_position.
  assert (Hw : (close_open_trade env price (latest_open (trades db)) ;;
                cancel_remaining_orders env ;; sleep 5 ;;
                response <- returned (oracle env) ;;
                try_except (decide_and_trade env price response) (on_error response)) db
               = (fst (fst (decision_block env price content (mkDb ts (analyses db)))),
                  snd (fst (decision_block env price content (mkDb ts (analyses db)))),
                  closure_events env price db ++ cancel_events env
                  ++ Sleep 5 :: snd (decision_block env price content
                                       (mkDb ts (analyses db))))).
  { erewrite bind_step by (rewrite close_open_trade_eq, Hs; reflexivity).
    erewrite bind_step by apply cancel_remaining_orders_eq.
    erewrite bind_step by reflexivity.
    rewrite Ho. cbn [returned]. rewrite bind_ret_l. cbn [fst snd].
    fold (decision_block env price content). reflexivity. }
  unfold bind at 1. rewrite Hw.
  destruct (decision_block env price content (mkDb ts (analyses db))) as [[o db'] ev].
  cbn [fst snd] in *. destruct o as [[] | | e]; cbn [after_block sleep emit].
  - rewrite <- ?app_assoc. reflexivity.
  - rewrite !app_nil_r. reflexivity.
  - destruct (Hnr e eq_refl).
Qed.

(** The same pass when the call of the oracle, or the reading of the market
    before it, raised. *)
Lemma flat_pass_no_answer (env : Env) (db : Db) (price : float)
    (ps : list (str * float)) (ts : list Trade) :
  ticker_last env = Some price ->
  positions env = Some ps ->
  fst (current_position ps) = None ->
  settle env price (trades db) = Some ts ->
  oracle env = None ->
  iteration env db
  = (mkDb ts (analyses db),
     closure_events env price db ++ cancel_events env
     ++ [Sleep 5; Print MsgLoopError; Sleep 5]).
Proof.
  intros Hp Hps Hside Hs Ho.
  unfold iteration, loop_body. rewrite Hp, Hps. cbn [returned].
  rewrite !bind_ret_l, bind_get_latest, Hside.
  unfold without_position.
  assert (Hw : (close_open_trade env price (latest_open (trades db)) ;;
                cancel_remaining_orders env ;; sleep 5 ;;
                response <- returned (oracle env) ;;
                try_except (decide_and_trade env price response) (on_error response)) db
               = (Raise Exception, mkDb ts (analyses db),
                  closure_events env price db ++ cancel_events env ++ [Sleep 5])).
  { erewrite bind_step by (rewrite close_open_trade_eq, Hs; reflexivity).
    erewrite bind_step by apply cancel_remaining_orders_eq.
    erewrite bind_step by reflexivity.
    rewrite Ho. cbn [returned]. unfold bind, raise. cbn [fst snd].
    rewrite app_nil_r. reflexivity. }
  unfold bind at 1. rewrite Hw. rewrite <- ?app_assoc. reflexivity.
Qed.

(** The same pass when the closure raised. *)
Lemma flat_pass_no_closure (env : Env) (db : Db) (price : float)
    (ps : list (str * float)) :
  ticker_last env = Some price ->
  positions env = Some ps ->
  fst (current_position ps) = None ->
  settle env price (trades db) = None ->
  iteration env db = (db, [Print MsgLoopError; Sleep 5]).
Proof.
  intros Hp Hps Hside Hs.
  unfold iteration, loop_body. rewrite Hp, Hps. cbn [returned].
  rewrite !bind_ret_l, bind_get_latest, Hside.
  unfold without_position.
  unfold bind at 1.
  erewrite bind_raise by (rewrite close_open_trade_eq, Hs; reflexivity).
  reflexivity.
Qed.

End Forward.


(** ** The decision of a pass, case by case *)

Section Decisions.

Variables (env : Env) (price : float) (c : str) (db : Db).

Ltac unfold_block :=
  unfold decision_block, with_analysis, analysed, try_except, decide_and_trade,
    json_loads, save_ai_analysis, on_error, trade, open_position, save_trade, link_analysis,
    bind, returned, call, print, sleep, emit, ret, raise, continue, get_db, put_db.

Ltac forward H := rewrite ?H; cbv beta iota zeta.

(** The content of the answer is [None]. *)
Lemma block_no_content :
  decision_block env price None db = (Continue, db, [Print MsgOtherError; Sleep 10]).
Proof. reflexivity. Qed.

(** The answer is JSON in which the decision cannot be read. *)
Lemma block_unreadable (j : json) :
  Json.loads (clean_response c) = Some j ->
  read_decision j = None ->
  decision_block env price (Some c) db
  = (Continue, db,
     [Print (MsgRawResponse (PyStr.strip c)); Print MsgOtherError; Sleep 10]).
Proof.
  intros Hj Hd. unfold_block. forward Hj. forward Hd. reflexivity.
Qed.

Section Decision.

Variables (j : json) (d : Decision).
Hypothesis Hj : Json.loads (clean_response c) = Some j.
Hypothesis Hd : read_decision j = Some d.

(** Its values cannot be bound to the columns of [ai_analysis]. *)
Lemma block_unbindable :
  analysis_data_ok (analysis_data price d) = false ->
  decision_block env price (Some c) db
  = (Continue, db,
     [Print (MsgRawResponse (PyStr.strip c)); Print MsgOtherError; Sleep 10]).
Proof.
  intros Hok. unfold analysis_data in Hok.
  unfold_block. forward Hj. forward Hd. forward Hok. reflexivity.
Qed.

Hypothesis Hok : analysis_data_ok (analysis_data price d) = true.

(** Its direction is not a [str]. *)
Lemma block_direction_not_text :
  (forall s, direction d <> JStr s) ->
  decision_block env price (Some c) db
  = (Continue, with_analysis env price d db,
     [Print (MsgRawResponse (PyStr.strip c)); Print MsgOtherError; Sleep 10]).
Proof.
  intros Hdir. unfold analysis_data in Hok.
  unfold_block. forward Hj. forward Hd. forward Hok.
  destruct (direction d) as [| b | n | f | s | l | kv] eqn:E; try reflexivity.
  destruct (Hdir s eq_refl).
Qed.

Variable s : str.
Hypothesis Hs : direction d = JStr s.

(** It recommends no position. *)
Lemma block_no_position :
  PyStr.lower s = py "no_position" ->
  decision_block env price (Some c) db
  = (Continue, with_analysis env price d db,
     [Print (MsgRawResponse (PyStr.strip c)); Print MsgNoPosition; Sleep 60]).
Proof.
  intros Hlow. unfold analysis_data in Hok.
  unfold_block. forward Hj. forward Hd. forward Hok. rewrite Hs. cbv beta iota zeta.
  rewrite Hlow. reflexivity.
Qed.

Ltac sized :=
  unfold analysis_data in Hok;
  unfold_block; unfold minimum_notice;
  forward Hj; forward Hd; forward Hok; rewrite Hs; cbv beta iota zeta.

Hypothesis Hno : PyStr.eqb (PyStr.lower s) (py "no_position") = false.

(** The balance cannot be read. *)
Lemma block_no_balance :
  balance_free env = None ->
  decision_block env price (Some c) db
  = (Continue, with_analysis env price d db,
     [Print (MsgRawResponse (PyStr.strip c)); Print MsgOtherError; Sleep 10]).
Proof. intros Hcap. sized. forward Hno. forward Hcap. reflexivity. Qed.

Variable cap : float.
Hypothesis Hcap : balance_free env = Some cap.

(** The share of the capital cannot be computed. *)
Lemma block_no_share :
  fmul cap (recommended_position_size d) = None ->
  decision_block env price (Some c) db
  = (Continue, with_analysis env price d db,
     [Print (MsgRawResponse (PyStr.strip c)); Print MsgOtherError; Sleep 10]).
Proof. intros Hraw. sized. forward Hno. forward Hcap. forward Hraw. reflexivity. Qed.

Variable raw : float.
Hypothesis Hraw : fmul cap (recommended_position_size d) = Some raw.

(** The amount of the order cannot be computed. *)
Lemma block_no_amount :
  order_amount (minimum_order raw) price = None ->
  decision_block env price (Some c) db
  = (Continue, with_analysis env price d db,
     Print (MsgRawResponse (PyStr.strip c))
     :: minimum_notice raw ++ [Print MsgOtherError; Sleep 10]).
Proof.
  intros Hq. sized. forward Hno. forward Hcap. forward Hraw.
  destruct (raw <? 100)%float; cbv beta iota zeta; forward Hq; reflexivity.
Qed.

Variable q : float.
Hypothesis Hq : order_amount (minimum_order raw) price = Some q.

(** The exchange refuses the leverage. *)
Lemma block_leverage_rejected :
  set_leverage_ok env = false ->
  decision_block env price (Some c) db
  = (Continue, with_analysis env price d db,
     Print (MsgRawResponse (PyStr.strip c))
     :: minimum_notice raw ++ [Print MsgOtherError; Sleep 10]).
Proof.
  intros Hlev. sized. forward Hno. forward Hcap. forward Hraw.
  destruct (raw <? 100)%float; cbv beta iota zeta; forward Hq; forward Hlev; reflexivity.
Qed.

Hypothesis Hlev : set_leverage_ok env = true.

Ltac sizing :=
  forward Hcap; forward Hraw;
  destruct (raw <? 100)%float; cbv beta iota zeta;
  forward Hq; forward Hlev.

(** It recommends something else than a long, a short or no position. *)
Lemma block_other_direction :
  PyStr.eqb (PyStr.lower s) (py "long") = false ->
  PyStr.eqb (PyStr.lower s) (py "short") = false ->
  decision_block env price (Some c) db
  = (Ret tt, with_analysis env price d db,
     Print (MsgRawResponse (PyStr.strip c))
     :: minimum_notice raw
     ++ [SetLeverage (recommended_leverage d); Print MsgNotLongOrShort]).
Proof.
  intros Hl Hsh. sized. forward Hno. sizing; forward Hl; forward Hsh; reflexivity.
Qed.

Variable long : bool.
Hypothesis Hlong : PyStr.lower s = if long then py "long" else py "short".

(** The exchange refuses the market order. *)
Lemma block_entry_rejected :
  entry_order_ok env = false ->
  decision_block env price (Some c) db
  = (Continue, with_analysis env price d db,
     Print (MsgRawResponse (PyStr.strip c))
     :: minimum_notice raw
     ++ [SetLeverage (recommended_leverage d); Print MsgOtherError; Sleep 10]).
Proof.
  intros Hentry. sized. rewrite Hlong.
  destruct long; sizing; forward Hentry; reflexivity.
Qed.

Hypothesis Hentry : entry_order_ok env = true.

(** The prices of the exit orders cannot be computed. *)
Lemma block_no_bracket :
  bracket long price (stop_loss_percentage d) (take_profit_percentage d) = None ->
  decision_block env price (Some c) db
  = (Continue, with_analysis env price d db,
     Print (MsgRawResponse (PyStr.strip c))
     :: minimum_notice raw
     ++ [SetLeverage (recommended_leverage d); entry_order long q;
         Print MsgOtherError; Sleep 10]).
Proof.
  intros Hb. sized. rewrite Hlong.
  destruct long; sizing; forward Hentry; forward Hb; reflexivity.
Qed.

Variables (sl tp : float).
Hypothesis Hb :
  bracket long price (stop_loss_percentage d) (take_profit_percentage d) = Some (sl, tp).

(** The exchange refuses the stop-loss order. *)
Lemma block_stop_rejected :
  stop_order_ok env = false ->
  decision_block env price (Some c) db
  = (Continue, with_analysis env price d db,
     Print (MsgRawResponse (PyStr.strip c))
     :: minimum_notice raw
     ++ [SetLeverage (recommended_leverage d); entry_order long q;
         Print MsgOtherError; Sleep 10]).
Proof.
  intros Hstop. sized. rewrite Hlong.
  destruct long; sizing; forward Hentry; forward Hb; forward Hstop; reflexivity.
Qed.

Hypothesis Hstop : stop_order_ok env = true.

(** It refuses the take-profit order. *)
Lemma block_take_profit_rejected :
  take_profit_order_ok env = false ->
  decision_block env price (Some c) db
  = (Continue, with_analysis env price d db,
     Print (MsgRawResponse (PyStr.strip c))
     :: minimum_notice raw
     ++ [SetLeverage (recommended_leverage d); entry_order long q;
         stop_order long q sl; Print MsgOtherError; Sleep 10]).
Proof.
  intros Htp. sized. rewrite Hlong.
  destruct long; sizing; forward Hentry; forward Hb; forward Hstop; forward Htp;
    reflexivity.
Qed.

Hypothesis Htp : take_profit_order_ok env = true.

(** The three orders are placed, but the values of the trade cannot be
    bound to the columns of [trades]. *)
Lemma block_trade_unbindable :
  trade_data_ok (trade_data long price q d (minimum_order raw) sl tp) = false ->
  decision_block env price (Some c) db
  = (Continue, with_analysis env price d db,
     Print (MsgRawResponse (PyStr.strip c))
     :: minimum_notice raw
     ++ [SetLeverage (recommended_leverage d); entry_order long q;
         stop_order long q sl; take_profit_order long q tp;
         Print MsgOtherError; Sleep 10]).
Proof.
  intros Htd. unfold trade_data in Htd. sized. rewrite Hlong.
  destruct long; sizing; forward Hentry; forward Hb; forward Hstop; forward Htp;
    cbn [fst snd]; forward Htd; reflexivity.
Qed.

(** The position is opened and recorded. *)
Lemma block_opened :
  trade_data_ok (trade_data long price q d (minimum_order raw) sl tp) = true ->
  decision_block env price (Some c) db
  = (Ret tt,
     mkDb (trades db ++ [opened_row env long price q d (minimum_order raw) sl tp
                           (next_id (trades db))])
          (map (linked (next_id (trades db)) (next_id (analyses db)))
               (analyses db ++ [analysed env price d (analyses db)])),
     Print (MsgRawResponse (PyStr.strip c))
     :: minimum_notice raw
     ++ [SetLeverage (recommended_leverage d); entry_order long q;
         stop_order long q sl; take_profit_order long q tp]).
Proof.
  intros Htd. unfold trade_data in Htd. sized. rewrite Hlong.
  destruct long; sizing; forward Hentry; forward Hb; forward Hstop; forward Htp;
    cbn [fst snd]; forward Htd; reflexivity.
Qed.

End Decision.

End Decisions.


(** ** One pass, case by case *)

Section Cases.

Lemma orders_cancelled (os : list (str * bool)) : orders (cancelled os) = [].
Proof.
  induction os as [| [oid ok] os IH]; [reflexivity |].
  cbn [cancelled]. destruct ok; [exact IH | reflexivity].
Qed.

Lemma orders_prelude (env : Env) (price : float) (db : Db) :
  orders (prelude env price db) = [].
Proof.
  unfold prelude. rewrite !orders_app.
  assert (H1 : orders (closure_events env price db) = []).
  { unfold closure_events. destruct (latest_open (trades db)) as [t |]; [| reflexivity].
    destruct (settle env price (trades db)); [| reflexivity].
    destruct (id t =? 0)%Z; [reflexivity |].
    destruct (profit_and_loss _ _ _ _); reflexivity. }
  assert (H2 : orders (cancel_events env) = []).
  { unfold cancel_events. destruct (open_orders env); [apply orders_cancelled | reflexivity]. }
  rewrite H1, H2. reflexivity.
Qed.

Lemma asks_pass (env : Env) (db : Db) (price : float) (ts : list Trade)
    (content : option str) (o : outcome unit) (db' : Db) (evb : list event) :
  asks env db price ts content ->
  decision_block env price content (mkDb ts (analyses db)) = (o, db', evb) ->
  iteration env db = (db', prelude env price db ++ evb ++ after_block o).
Proof.
  intros (Hp & (ps & Hps & Hflat) & Hs & Ho) Hb.
  rewrite (flat_pass env db price ps ts content Hp Hps Hflat Hs Ho), Hb.
  cbn [fst snd]. unfold prelude. rewrite <- !app_assoc. reflexivity.
Qed.

Lemma reaches_pass (env : Env) (db : Db) (price : float) (ts : list Trade)
    (c : str) (d : Decision) (o : outcome unit) (db' : Db) (evb : list event) :
  reaches env db price ts c d ->
  (forall j, Json.loads (clean_response c) = Some j -> read_decision j = Some d ->
             analysis_data_ok (analysis_data price d) = true ->
             decision_block env price (Some c) (mkDb ts (analyses db)) = (o, db', evb)) ->
  iteration env db = (db', prelude env price db ++ evb ++ after_block o).
Proof.
  intros (Hasks & Hread & Hok) Hb.
  unfold read_content in Hread.
  destruct (Json.loads (clean_response c)) as [j |] eqn:Hj; [| discriminate].
  eapply asks_pass; [exact Hasks |]. apply (Hb j); auto.
Qed.

End Cases.

(** X10. While a position is held the loop only watches: in a pass where
    the exchange reports a position, nothing is sent to the exchange (no
    order, no cancellation, no leverage), the oracle is not asked, and
    [ai_analysis] is left as it is; when a trade is open in [trades] the pass
    writes nothing at all and waits a minute. *)
Theorem position_held_is_idle (env : Env) (db : Db) (price : float)
    (ps : list (str * float)) (side : str) :
  ticker_last env = Some price ->
  positions env = Some ps ->
  fst (current_position ps) = Some side ->
  forallb quiet (snd (iteration env db)) = true
  /\ analyses (fst (iteration env db)) = analyses db
  /\ (forall t, latest_open (trades db) = Some t -> iteration env db = (db, [Sleep 60])).
Proof.
  intros Hp Hps Hside.
  destruct (iteration env db) as [db' ev] eqn:H. cbn [fst snd].
  apply iteration_inv in H. rewrite Hp, Hps, Hside in H. destruct H as [Han H].
  destruct (latest_open (trades db)) as [t |].
  - destruct H as [-> ->]. repeat split.
  - destruct (trade_data_ok _).
    + destruct H as [-> _]. repeat split; try discriminate. exact Han.
    + destruct H as [-> ->]. repeat split; discriminate.
Qed.

Lemma position_held_is_idle_witness :
  iteration (position_env 110 1) (db_open "long") = (db_open "long", [Sleep 60]).
Proof.
  apply (proj2 (proj2 (position_held_is_idle (position_env 110 1) (db_open "long") 110
                         [(py "BTC/USDT:USDT", 1%float)] (py "long")
                         eq_refl eq_refl eq_refl))
           (open_trade "long")).
  reflexivity.
Defined.

(** X11. A decision for no position: when the direction that is read is
    ["NO_POSITION"], in any case of its letters, the pass writes the row of
    the analysis, with no trade linked to it, prints that no position is
    opened, waits a minute and ends; it places no order and asks the exchange
    neither for the balance nor for a leverage. *)
Theorem no_position_is_recorded (env : Env) (db : Db) (price : float)
    (ts : list Trade) (c : str) (d : Decision) (s : str) :
  reaches env db price ts c d ->
  direction d = JStr s ->
  PyStr.lower s = py "no_position" ->
  iteration env db
  = (with_analysis env price d (mkDb ts (analyses db)),
     prelude env price db
     ++ [Print (MsgRawResponse (PyStr.strip c)); Print MsgNoPosition; Sleep 60])
  /\ orders (snd (iteration env db)) = []
  /\ a_trade_id (analysed env price d (analyses db)) = None.
Proof.
  intros Hr Hs Hlow.
  assert (H : iteration env db
              = (with_analysis env price d (mkDb ts (analyses db)),
                 prelude env price db
                 ++ [Print (MsgRawResponse (PyStr.strip c)); Print MsgNoPosition; Sleep 60])).
  { rewrite (reaches_pass env db price ts c d Continue
               (with_analysis env price d (mkDb ts (analyses db)))
               [Print (MsgRawResponse (PyStr.strip c)); Print MsgNoPosition; Sleep 60] Hr).
    - cbn [after_block]. rewrite app_nil_r. reflexivity.
    - intros j Hj Hd Hok. eapply block_no_position; eassumption. }
  rewrite H. cbn [snd]. rewrite orders_app, orders_prelude. repeat split.
Qed.

Lemma no_position_is_recorded_witness :
  orders (snd (iteration (flat_env 100 1000 (payload "No_Position" "0" "0" "0")) empty_db))
  = []
  /\ List.length (analyses (fst (iteration (flat_env 100 1000
                                             (payload "No_Position" "0" "0" "0"))
                                          empty_db))) = 1%nat.
Proof.
  destruct (read_content (Some (payload "No_Position" "0" "0" "0"))) as [d |] eqn:Hd;
    [| vm_compute in Hd; discriminate].
  destruct (no_position_is_recorded
              (flat_env 100 1000 (payload "No_Position" "0" "0" "0")) empty_db 100 []
              (payload "No_Position" "0" "0" "0") d (py "No_Position"))
    as (H & Ho & _).
  - repeat split; try reflexivity.
    + exists []. split; reflexivity.
    + exact Hd.
    + vm_compute in Hd. inversion Hd. reflexivity.
  - vm_compute in Hd. inversion Hd. reflexivity.
  - reflexivity.
  - split; [exact Ho |]. rewrite H. cbn [fst with_analysis analyses].
    rewrite length_app. reflexivity.
Defined.

Section MoreCases.

Lemma pystr_neq_eqb (a b : str) : a <> b -> PyStr.eqb a b = false.
Proof.
  intros H. destruct (PyStr.eqb a b) eqn:E; [| reflexivity].
  destruct H. apply pystr_eqb_eq. exact E.
Qed.

Lemma orders_minimum_notice (raw : float) : orders (minimum_notice raw) = [].
Proof. unfold minimum_notice. destruct (raw <? 100)%float; reflexivity. Qed.

Lemma orders_sized (c : str) (raw : float) (lev : json) (rest : list event) :
  orders (Print (MsgRawResponse (PyStr.strip c))
          :: minimum_notice raw ++ SetLeverage lev :: rest)
  = orders rest.
Proof.
  change (Print (MsgRawResponse (PyStr.strip c))
          :: minimum_notice raw ++ SetLeverage lev :: rest)
    with ([Print (MsgRawResponse (PyStr.strip c))]
          ++ minimum_notice raw ++ [SetLeverage lev] ++ rest).
  rewrite !orders_app, orders_minimum_notice. reflexivity.
Qed.

(** Once the closure is through no trade is open. *)
Lemma settle_none_open (env : Env) (price : float) (rows ts : list Trade) :
  ledger_ok rows -> settle env price rows = Some ts -> latest_open ts = None.
Proof.
  intros Hok Hs. destruct (settle_closes env price rows ts Hok Hs) as [Hzero _].
  destruct (latest_open ts) as [t |] eqn:Ht; [| reflexivity].
  destruct (latest_open_some _ _ Ht) as [Hin Hopen].
  assert (Hf : In t (filter (fun t => is_open (status t)) ts)).
  { apply filter_In. split; [exact Hin |]. rewrite Hopen. reflexivity. }
  unfold open_count in Hzero. destruct (filter _ ts); [destruct Hf | discriminate].
Qed.

End MoreCases.

(** X12. A direction that is neither long, short nor no position: the
    pass writes the row of the analysis, reads the balance, sizes the order
    and sets the leverage on the exchange, and only then finds that there is
    nothing to open: no order is placed, no trade is written, and the pass
    waits its minute. *)
Theorem other_direction_sets_leverage (env : Env) (db : Db) (price : float)
    (ts : list Trade) (c : str) (d : Decision) (s : str) (cap raw q : float) :
  reaches env db price ts c d ->
  direction d = JStr s ->
  PyStr.lower s <> py "no_position" ->
  PyStr.lower s <> py "long" ->
  PyStr.lower s <> py "short" ->
  balance_free env = Some cap ->
  fmul cap (recommended_position_size d) = Some raw ->
  order_amount (minimum_order raw) price = Some q ->
  set_leverage_ok env = true ->
  iteration env db
  = (with_analysis env price d (mkDb ts (analyses db)),
     prelude env price db
     ++ Print (MsgRawResponse (PyStr.strip c))
        :: minimum_notice raw
        ++ [SetLeverage (recommended_leverage d); Print MsgNotLongOrShort; Sleep 60])
  /\ orders (snd (iteration env db)) = [].
Proof.
  intros Hr Hs Hno Hl Hsh Hcap Hraw Hq Hlev.
  assert (H : iteration env db
              = (with_analysis env price d (mkDb ts (analyses db)),
                 prelude env price db
                 ++ Print (MsgRawResponse (PyStr.strip c))
                    :: minimum_notice raw
                    ++ [SetLeverage (recommended_leverage d); Print MsgNotLongOrShort;
                        Sleep 60])).
  { rewrite (reaches_pass env db price ts c d (Ret tt)
               (with_analysis env price d (mkDb ts (analyses db)))
               (Print (MsgRawResponse (PyStr.strip c))
                :: minimum_notice raw
                ++ [SetLeverage (recommended_leverage d); Print MsgNotLongOrShort]) Hr).
    - cbn [after_block app]. rewrite <- app_assoc. reflexivity.
    - intros j Hj Hd Hok.
      eapply block_other_direction; eauto using pystr_neq_eqb. }
  rewrite H. cbn [snd]. rewrite orders_app, orders_prelude, orders_sized. split; reflexivity.
Qed.

Lemma other_direction_sets_leverage_witness :
  snd (iteration (flat_env 100 1000 (payload "HOLD" "0.05" "0.02" "0.04")) empty_db)
  = [Sleep 5;
     Print (MsgRawResponse (payload "HOLD" "0.05" "0.02" "0.04"));
     Print MsgMinimumOrder; SetLeverage (JInt 3); Print MsgNotLongOrShort; Sleep 60].
Proof.
  destruct (read_content (Some (payload "HOLD" "0.05" "0.02" "0.04"))) as [d |] eqn:Hd;
    [| vm_compute in Hd; discriminate].
  destruct (other_direction_sets_leverage
              (flat_env 100 1000 (payload "HOLD" "0.05" "0.02" "0.04")) empty_db 100 []
              (payload "HOLD" "0.05" "0.02" "0.04") d (py "HOLD") 1000 50 1)
    as (H & _).
  - repeat split; try reflexivity.
    + exists []. split; reflexivity.
    + exact Hd.
    + vm_compute in Hd. inversion Hd. reflexivity.
  - vm_compute in Hd. inversion Hd. reflexivity.
  - vm_compute. discriminate.
  - vm_compute. discriminate.
  - vm_compute. discriminate.
  - reflexivity.
  - vm_compute in Hd. inversion Hd. reflexivity.
  - reflexivity.
  - reflexivity.
  - rewrite H. vm_compute in Hd. inversion Hd. reflexivity.
Defined.

(** X13. An answer in which no decision can be read: when the content of
    the answer is [None], or is JSON in which one of the six fields is
    missing or a size or percentage is not a number, the pass writes nothing
    (no analysis, no trade), places no order, prints the error, waits 10
    seconds and ends. *)
Theorem unreadable_decision (env : Env) (db : Db) (price : float)
    (ts : list Trade) (content : option str) :
  asks env db price ts content ->
  (forall c, content = Some c ->
             exists j, Json.loads (clean_response c) = Some j /\ read_decision j = None) ->
  iteration env db
  = (mkDb ts (analyses db),
     prelude env price db
     ++ match content with
        | Some c => [Print (MsgRawResponse (PyStr.strip c))]
        | None => []
        end
     ++ [Print MsgOtherError; Sleep 10])
  /\ orders (snd (iteration env db)) = [].
Proof.
  intros Hasks Hc.
  assert (H : iteration env db
              = (mkDb ts (analyses db),
                 prelude env price db
                 ++ match content with
                    | Some c => [Print (MsgRawResponse (PyStr.strip c))]
                    | None => []
                    end
                 ++ [Print MsgOtherError; Sleep 10])).
  { rewrite (asks_pass env db price ts content Continue (mkDb ts (analyses db))
               (match content with
                | Some c => [Print (MsgRawResponse (PyStr.strip c))]
                | None => []
                end ++ [Print MsgOtherError; Sleep 10]) Hasks).
    - cbn [after_block]. rewrite app_nil_r. reflexivity.
    - destruct content as [c |].
      + destruct (Hc c eq_refl) as (j & Hj & Hd). eapply block_unreadable; eassumption.
      + apply block_no_content. }
  rewrite H. cbn [snd]. rewrite !orders_app, orders_prelude.
  split; [reflexivity |]. destruct content; reflexivity.
Qed.

Lemma unreadable_decision_witness :
  iteration (flat_env 100 1000 (dq "{'direction': 'LONG'}")) empty_db
  = (empty_db,
     [Sleep 5; Print (MsgRawResponse (dq "{'direction': 'LONG'}"));
      Print MsgOtherError; Sleep 10]).
Proof.
  destruct (unreadable_decision (flat_env 100 1000 (dq "{'direction': 'LONG'}"))
              empty_db 100 [] (Some (dq "{'direction': 'LONG'}"))) as [H _].
  - repeat split; try reflexivity. exists []. split; reflexivity.
  - intros c [= <-]. eexists. split; vm_compute; reflexivity.
  - rewrite H. reflexivity.
Defined.

(** The pass in which the exchange refuses an exit order. *)
Lemma exit_rejected_pass (env : Env) (db : Db) (price : float)
    (ts : list Trade) (c : str) (d : Decision) (long : bool)
    (cap raw q sl tp : float) :
  reaches env db price ts c d ->
  sized env long price cap raw q d ->
  set_leverage_ok env = true ->
  entry_order_ok env = true ->
  bracket long price (stop_loss_percentage d) (take_profit_percentage d) = Some (sl, tp) ->
  stop_order_ok env && take_profit_order_ok env = false ->
  fst (iteration env db) = with_analysis env price d (mkDb ts (analyses db))
  /\ orders (snd (iteration env db))
     = entry_order long q :: (if stop_order_ok env then [stop_order long q sl] else [])
  /\ exists ev0, snd (iteration env db) = ev0 ++ [Print MsgOtherError; Sleep 10].
Proof.
  intros Hr ((s & Hs & Hlow) & Hcap & Hraw & Hq) Hlev Hentry Hb Hexit.
  destruct (stop_order_ok env) eqn:Hstop.
  - cbn [andb] in Hexit.
    rewrite (reaches_pass env db price ts c d Continue
               (with_analysis env price d (mkDb ts (analyses db)))
               (Print (MsgRawResponse (PyStr.strip c))
                :: minimum_notice raw
                ++ [SetLeverage (recommended_leverage d); entry_order long q;
                    stop_order long q sl; Print MsgOtherError; Sleep 10]) Hr).
    + cbn [fst snd after_block]. rewrite app_nil_r, orders_app, orders_prelude, orders_sized.
      split; [reflexivity | split].
      * destruct long; reflexivity.
      * exists (prelude env price db
                ++ Print (MsgRawResponse (PyStr.strip c))
                   :: minimum_notice raw
                   ++ [SetLeverage (recommended_leverage d); entry_order long q;
                       stop_order long q sl]).
        rewrite <- !app_assoc. cbn [app]. rewrite <- !app_assoc. reflexivity.
    + intros j Hj Hd Hok. eapply block_take_profit_rejected; eassumption.
  - rewrite (reaches_pass env db price ts c d Continue
               (with_analysis env price d (mkDb ts (analyses db)))
               (Print (MsgRawResponse (PyStr.strip c))
                :: minimum_notice raw
                ++ [SetLeverage (recommended_leverage d); entry_order long q;
                    Print MsgOtherError; Sleep 10]) Hr).
    + cbn [fst snd after_block]. rewrite app_nil_r, orders_app, orders_prelude, orders_sized.
      split; [reflexivity | split].
      * destruct long; reflexivity.
      * exists (prelude env price db
                ++ Print (MsgRawResponse (PyStr.strip c))
                   :: minimum_notice raw
                   ++ [SetLeverage (recommended_leverage d); entry_order long q]).
        rewrite <- !app_assoc. cbn [app]. rewrite <- !app_assoc. reflexivity.
    + intros j Hj Hd Hok. eapply block_stop_rejected; eassumption.
Qed.

(** X14. An exit order that the exchange refuses: when the market order
    went through and the stop-loss order, or the take-profit order after
    it, raises, the orders placed before it stay placed, no row is written
    in [trades], the row of the analysis stays without a trade, and the pass
    prints the error, waits 10 seconds and ends. *)
Theorem exit_order_rejected (env : Env) (db : Db) (price : float)
    (ts : list Trade) (c : str) (d : Decision) (long : bool)
    (cap raw q sl tp : float) :
  reaches env db price ts c d ->
  sized env long price cap raw q d ->
  set_leverage_ok env = true ->
  entry_order_ok env = true ->
  bracket long price (stop_loss_percentage d) (take_profit_percentage d) = Some (sl, tp) ->
  stop_order_ok env && take_profit_order_ok env = false ->
  fst (iteration env db) = with_analysis env price d (mkDb ts (analyses db))
  /\ orders (snd (iteration env db))
     = entry_order long q :: (if stop_order_ok env then [stop_order long q sl] else [])
  /\ exists ev0, snd (iteration env db) = ev0 ++ [Print MsgOtherError; Sleep 10].
Proof. apply exit_rejected_pass. Qed.

Lemma exit_order_rejected_witness :
  orders (snd (iteration (answering 100 1000 (payload "LONG" "0.05" "0.02" "0.04")
                                    false true) empty_db))
  = [MarketOrder Buy 1]
  /\ trades (fst (iteration (answering 100 1000 (payload "LONG" "0.05" "0.02" "0.04")
                                       false true) empty_db)) = [].
Proof.
  destruct (read_content (Some (payload "LONG" "0.05" "0.02" "0.04"))) as [d |] eqn:Hd;
    [| vm_compute in Hd; discriminate].
  destruct (exit_order_rejected
              (answering 100 1000 (payload "LONG" "0.05" "0.02" "0.04") false true)
              empty_db 100 [] (payload "LONG" "0.05" "0.02" "0.04") d true
              1000 50 1 98 104)
    as (Hdb & Ho & _).
  - repeat split; try reflexivity.
    + exists []. split; reflexivity.
    + exact Hd.
    + vm_compute in Hd. inversion Hd. reflexivity.
  - vm_compute in Hd. inversion Hd. repeat split. eexists. split; reflexivity.
  - reflexivity.
  - reflexivity.
  - vm_compute in Hd. inversion Hd. reflexivity.
  - reflexivity.
  - rewrite Ho, Hdb. split; reflexivity.
Defined.

(** X15. What becomes of such a position: after a pass that placed the
    market order and lost an exit order, a pass that finds the position on
    the exchange writes the row of the adopt path for it, with the price of
    that later pass as entry price, a leverage of 1 and no stop-loss or
    take-profit, whatever the decision recommended; the row of the analysis
    is never linked to it. *)
Theorem rejected_exit_then_adopted (env env2 : Env) (db : Db) (price : float)
    (ts : list Trade) (c : str) (d : Decision) (long : bool)
    (cap raw q sl tp : float) (price2 : float) (ps2 : list (str * float)) (side : str) :
  ledger_ok (trades db) ->
  reaches env db price ts c d ->
  sized env long price cap raw q d ->
  set_leverage_ok env = true ->
  entry_order_ok env = true ->
  bracket long price (stop_loss_percentage d) (take_profit_percentage d) = Some (sl, tp) ->
  stop_order_ok env && take_profit_order_ok env = false ->
  ticker_last env2 = Some price2 ->
  is_nan price2 = false ->
  positions env2 = Some ps2 ->
  fst (current_position ps2) = Some side ->
  fst (run [env; env2] db)
  = mkDb (ts ++ [mkTrade (next_id ts) (now_trade env2) side price2
                   (snd (current_position ps2)) (JInt 1)
                   0%float 0%float 0%float 0%float 0%float 0%float
                   OPEN None None None None])
         (analyses db ++ [analysed env price d (analyses db)])
  /\ a_trade_id (analysed env price d (analyses db)) = None.
Proof.
  intros Hok Hr Hsz Hlev Hentry Hb Hexit Hp2 Hnan Hps2 Hside.
  destruct (exit_rejected_pass env db price ts c d long cap raw q sl tp
              Hr Hsz Hlev Hentry Hb Hexit) as (Hdb & _).
  split; [| reflexivity].
  rewrite run_fst_cons, Hdb. cbn [run].
  destruct (iteration env2 _) as [db' ev] eqn:H. cbn [fst].
  apply iteration_inv in H. rewrite Hp2, Hps2, Hside in H.
  cbn [with_analysis trades analyses] in H.
  destruct Hr as ((_ & _ & Hs & _) & _).
  rewrite (settle_none_open env price _ ts Hok Hs) in H.
  rewrite temp_trade_data_ok, Hnan, (current_position_amount ps2 side Hside) in H.
  cbn [negb andb] in H. destruct H as (Han & _ & Hts).
  destruct db' as [t1 a1]. cbn [trades analyses] in *. subst. reflexivity.
Qed.

Lemma rejected_exit_then_adopted_witness :
  trades (fst (run [answering 100 1000 (payload "LONG" "0.05" "0.02" "0.04") false true;
                    position_env 101 1] empty_db))
  = [mkTrade 1 (py "2025-01-02T00:00:00") (py "long") 101 1 (JInt 1)
       0 0 0 0 0 0 OPEN None None None None].
Proof.
  destruct (read_content (Some (payload "LONG" "0.05" "0.02" "0.04"))) as [d |] eqn:Hd;
    [| vm_compute in Hd; discriminate].
  destruct (rejected_exit_then_adopted
              (answering 100 1000 (payload "LONG" "0.05" "0.02" "0.04") false true)
              (position_env 101 1)
              empty_db 100 [] (payload "LONG" "0.05" "0.02" "0.04") d true
              1000 50 1 98 104 101 [(py "BTC/USDT:USDT", 1%float)] (py "long"))
    as (H & _).
  - split; [cbn; lia | constructor].
  - repeat split; try reflexivity.
    + exists []. split; reflexivity.
    + exact Hd.
    + vm_compute in Hd. inversion Hd. reflexivity.
  - vm_compute in Hd. inversion Hd. repeat split. eexists. split; reflexivity.
  - reflexivity.
  - reflexivity.
  - vm_compute in Hd. inversion Hd. reflexivity.
  - reflexivity.
  - reflexivity.
  - reflexivity.
  - reflexivity.
  - reflexivity.
  - rewrite H. reflexivity.
Defined.

(** The pass in which a position is opened. *)
Lemma opened_pass (env : Env) (db : Db) (price : float)
    (ts : list Trade) (c : str) (d : Decision) (long : bool)
    (cap raw q sl tp : float) :
  reaches env db price ts c d ->
  sized env long price cap raw q d ->
  set_leverage_ok env = true ->
  entry_order_ok env = true ->
  stop_order_ok env = true ->
  take_profit_order_ok env = true ->
  bracket long price (stop_loss_percentage d) (take_profit_percentage d) = Some (sl, tp) ->
  trade_data_ok (trade_data long price q d (minimum_order raw) sl tp) = true ->
  iteration env db
  = (mkDb (ts ++ [opened_row env long price q d (minimum_order raw) sl tp (next_id ts)])
          (map (linked (next_id ts) (next_id (analyses db)))
               (analyses db ++ [analysed env price d (analyses db)])),
     prelude env price db
     ++ Print (MsgRawResponse (PyStr.strip c))
        :: minimum_notice raw
        ++ [SetLeverage (recommended_leverage d); entry_order long q;
            stop_order long q sl; take_profit_order long q tp; Sleep 60]).
Proof.
  intros Hr ((s & Hs & Hlow) & Hcap & Hraw & Hq) Hlev Hentry Hstop Htp Hb Htd.
  rewrite (reaches_pass env db price ts c d (Ret tt)
             (mkDb (ts ++ [opened_row env long price q d (minimum_order raw) sl tp
                             (next_id ts)])
                   (map (linked (next_id ts) (next_id (analyses db)))
                        (analyses db ++ [analysed env price d (analyses db)])))
             (Print (MsgRawResponse (PyStr.strip c))
              :: minimum_notice raw
              ++ [SetLeverage (recommended_leverage d); entry_order long q;
                  stop_order long q sl; take_profit_order long q tp]) Hr).
  - cbn [after_block app]. rewrite <- app_assoc. reflexivity.
  - intros j Hj Hd Hok.
    eapply (block_opened env price c (mkDb ts (analyses db))); eassumption.
Qed.

(** X16. A position is opened: when the decision is long or short, the
    order can be sized, the exchange takes the leverage and the three orders
    and the values can be bound, the pass sets the leverage, places the
    market order, then the stop-loss and the take-profit order on the other
    side, writes the row of the trade after the rows of [trades], links the
    row of the analysis it wrote to it (and, the keys of [ai_analysis] being
    in order, no other row), and waits a minute. *)
Theorem position_is_opened (env : Env) (db : Db) (price : float)
    (ts : list Trade) (c : str) (d : Decision) (long : bool)
    (cap raw q sl tp : float) :
  reaches env db price ts c d ->
  sized env long price cap raw q d ->
  set_leverage_ok env = true ->
  entry_order_ok env = true ->
  stop_order_ok env = true ->
  take_profit_order_ok env = true ->
  bracket long price (stop_loss_percentage d) (take_profit_percentage d) = Some (sl, tp) ->
  trade_data_ok (trade_data long price q d (minimum_order raw) sl tp) = true ->
  map a_id (analyses db) = keys_upto (List.length (analyses db)) ->
  iteration env db
  = (mkDb (ts ++ [opened_row env long price q d (minimum_order raw) sl tp (next_id ts)])
          (analyses db
           ++ [linked (next_id ts) (next_id (analyses db))
                 (analysed env price d (analyses db))]),
     prelude env price db
     ++ Print (MsgRawResponse (PyStr.strip c))
        :: minimum_notice raw
        ++ [SetLeverage (recommended_leverage d); entry_order long q;
            stop_order long q sl; take_profit_order long q tp; Sleep 60])
  /\ a_trade_id (linked (next_id ts) (next_id (analyses db))
                   (analysed env price d (analyses db)))
     = Some (id (opened_row env long price q d (minimum_order raw) sl tp (next_id ts)))
  /\ orders (snd (iteration env db))
     = [entry_order long q; stop_order long q sl; take_profit_order long q tp].
Proof.
  intros Hr Hsz Hlev Hentry Hstop Htp Hb Htd Hkeys.
  rewrite (opened_pass env db price ts c d long cap raw q sl tp
             Hr Hsz Hlev Hentry Hstop Htp Hb Htd).
  destruct (linked_last env price d (next_id ts) (analyses db) Hkeys) as (-> & Hl & _).
  split; [reflexivity |]. split; [exact Hl |].
  cbn [snd]. rewrite orders_app, orders_prelude, orders_sized.
  destruct long; reflexivity.
Qed.

Lemma position_is_opened_witness :
  orders (snd (iteration env_short empty_db))
  = [MarketOrder Sell 1; ConditionalOrder STOP_MARKET Buy 1 102;
     ConditionalOrder TAKE_PROFIT_MARKET Buy 1 96]
  /\ map a_trade_id (analyses (fst (iteration env_short empty_db))) = [Some 1%Z].
Proof.
  destruct (read_content (Some (answer "SHORT" "0.05" "0.02" "0.04"))) as [d |] eqn:Hd;
    [| vm_compute in Hd; discriminate].
  destruct (position_is_opened env_short empty_db 100 []
              (answer "SHORT" "0.05" "0.02" "0.04") d false 1000 50 1 102 96)
    as (H & Hl & Ho).
  - repeat split; try reflexivity.
    + exists []. split; reflexivity.
    + exact Hd.
    + vm_compute in Hd. inversion Hd. reflexivity.
  - vm_compute in Hd. inversion Hd. repeat split. eexists. split; reflexivity.
  - reflexivity.
  - reflexivity.
  - reflexivity.
  - reflexivity.
  - vm_compute in Hd. inversion Hd. reflexivity.
  - vm_compute in Hd. inversion Hd. reflexivity.
  - reflexivity.
  - split; [rewrite Ho; reflexivity |].
    rewrite H. change (analyses empty_db) with (@nil Analysis) in *.
    cbn [fst analyses app map]. rewrite Hl. reflexivity.
Defined.


(** ** Sizing without validation *)

Section Unchecked.

(** The orders of a pass that sized its order, when the exchange takes the
    leverage and the three orders: whether or not the row of the trade can
    then be written. *)
Lemma sized_orders (env : Env) (db : Db) (price : float)
    (ts : list Trade) (c : str) (d : Decision) (long : bool)
    (cap raw q sl tp : float) :
  reaches env db price ts c d ->
  sized env long price cap raw q d ->
  set_leverage_ok env = true ->
  entry_order_ok env = true ->
  stop_order_ok env = true ->
  take_profit_order_ok env = true ->
  bracket long price (stop_loss_percentage d) (take_profit_percentage d) = Some (sl, tp) ->
  orders (snd (iteration env db))
  = [entry_order long q; stop_order long q sl; take_profit_order long q tp].
Proof.
  intros Hr Hsz Hlev Hentry Hstop Htp Hb.
  destruct (trade_data_ok (trade_data long price q d (minimum_order raw) sl tp)) eqn:Htd.
  - rewrite (opened_pass env db price ts c d long cap raw q sl tp
               Hr Hsz Hlev Hentry Hstop Htp Hb Htd).
    cbn [snd]. rewrite orders_app, orders_prelude, orders_sized.
    destruct long; reflexivity.
  - destruct Hsz as ((s & Hs & Hlow) & Hcap & Hraw & Hq).
    rewrite (reaches_pass env db price ts c d Continue
               (with_analysis env price d (mkDb ts (analyses db)))
               (Print (MsgRawResponse (PyStr.strip c))
                :: minimum_notice raw
                ++ [SetLeverage (recommended_leverage d); entry_order long q;
                    stop_order long q sl; take_profit_order long q tp;
                    Print MsgOtherError; Sleep 10]) Hr).
    + cbn [snd after_block]. rewrite !orders_app, orders_prelude, orders_sized.
      destruct long; reflexivity.
    + intros j Hj Hd Hok.
      eapply (block_trade_unbindable env price c (mkDb ts (analyses db))); eassumption.
Qed.

(** A pass that places an order computed its quantity. *)
Lemma orders_are_sized (env : Env) (db : Db) :
  orders (snd (iteration env db)) <> [] ->
  exists (price cap raw q : float) (d : Decision) (n : Z),
    ticker_last env = Some price
    /\ balance_free env = Some cap
    /\ decision_of env = Some d
    /\ fmul cap (recommended_position_size d) = Some raw
    /\ (price =? 0)%float = false
    /\ math_ceil (minimum_order raw / price * 1000)%float = Some n
    /\ int_truediv n 1000 = Some q.
Proof.
  intros H.
  destruct (iteration_decided env db (or_introl H))
    as (price & ts & long & cap & raw & q & d & Hp & _ & _ & Hd & Hsz & _).
  destruct Hsz as (_ & Hcap & Hraw & Hq).
  destruct (order_amount_inv _ _ _ Hq) as (Hnz & n & Hn & Hdiv).
  exists price, cap, raw, q, d, n. auto 10.
Qed.

End Unchecked.

(** C6 (as amended). The loop checks no sizing precondition and knows no
    [InvalidRecommendation].  Whatever the signs of the capital and of the
    position size, the investment is their binary64 product, replaced by 100
    when that product is below 100; and for a decision that is long or
    short, whenever the quantity
    [ceil(investment / currentPrice * 1000) / 1000] and the prices of the
    bracket are computed and the exchange takes the leverage and the orders,
    the entry order and both bracket orders are placed.  A capital of 0, and
    a position size of -0.5 with a capital of 1000, are invested at 100,
    with orders for 1 at a price of 100; a capital of -1000 with a position
    size of -0.5 is invested at 500, with orders for 5.  A pass places an
    order only if that quantity was computed, for which the price is not 0
    (the division raises) and [investment / currentPrice * 1000] is finite
    ([math.ceil] raises otherwise): at a price of 0, with a NaN balance and
    with a NaN price no order is placed. *)
Theorem sizing_unchecked :
  (forall (available_capital : float) (position_size : pynum) (raw : float),
      fmul available_capital position_size = Some raw ->
      investment available_capital position_size
      = Some (if (raw <? 100)%float then 100%float else raw))
  /\ (forall (env : Env) (db : Db) (price : float) (ts : list Trade) (c : str)
             (d : Decision) (long : bool) (cap raw q sl tp : float),
         reaches env db price ts c d ->
         sized env long price cap raw q d ->
         set_leverage_ok env = true ->
         entry_order_ok env = true ->
         stop_order_ok env = true ->
         take_profit_order_ok env = true ->
         bracket long price (stop_loss_percentage d) (take_profit_percentage d)
         = Some (sl, tp) ->
         orders (snd (iteration env db))
         = [entry_order long q; stop_order long q sl; take_profit_order long q tp])
  /\ (forall (env : Env) (db : Db),
         orders (snd (iteration env db)) <> [] ->
         exists (price cap raw q : float) (d : Decision) (n : Z),
           ticker_last env = Some price
           /\ balance_free env = Some cap
           /\ decision_of env = Some d
           /\ fmul cap (recommended_position_size d) = Some raw
           /\ (price =? 0)%float = false
           /\ math_ceil (minimum_order raw / price * 1000)%float = Some n
           /\ int_truediv n 1000 = Some q)
  /\ (forall (env : Env) (db : Db) (price : float),
         ticker_last env = Some price ->
         (price =? 0)%float = true ->
         orders (snd (iteration env db)) = [])
  /\ orders (snd (iteration (flat_env 100 0 (answer "LONG" "0.05" "0.02" "0.04")) empty_db))
     = [MarketOrder Buy 1; ConditionalOrder STOP_MARKET Sell 1 98;
        ConditionalOrder TAKE_PROFIT_MARKET Sell 1 104]
  /\ orders (snd (iteration (flat_env 100 1000 (answer "LONG" "-0.5" "0.02" "0.04")) empty_db))
     = [MarketOrder Buy 1; ConditionalOrder STOP_MARKET Sell 1 98;
        ConditionalOrder TAKE_PROFIT_MARKET Sell 1 104]
  /\ investment 0 (PFloat 0.05) = Some 100%float
  /\ investment 1000 (PFloat (-0.5)) = Some 100%float
  /\ investment (-1000) (PFloat (-0.5)) = Some 500%float
  /\ orders (snd (iteration (flat_env 100 (-1000) (answer "LONG" "-0.5" "0.02" "0.04"))
                            empty_db))
     = [MarketOrder Buy 5; ConditionalOrder STOP_MARKET Sell 5 98;
        ConditionalOrder TAKE_PROFIT_MARKET Sell 5 104]
  /\ orders (snd (iteration (flat_env 100 nan (answer "LONG" "0.05" "0.02" "0.04")) empty_db))
     = []
  /\ orders (snd (iteration (flat_env nan 1000 (answer "LONG" "0.05" "0.02" "0.04")) empty_db))
     = [].
Proof.
  split; [| split; [exact sized_orders | split; [exact orders_are_sized |
            split; [| repeat split; reflexivity]]]].
  - intros cap ps raw Hraw. unfold investment, minimum_order.
    rewrite Hraw. reflexivity.
  - intros env db price Hprice Hzero.
    destruct (orders (snd (iteration env db))) as [| e l] eqn:E; [reflexivity |].
    exfalso.
    destruct (iteration_decided env db) as (price' & ts & long & cap & raw & q & d & H).
    { left. rewrite E. discriminate. }
    destruct H as (Hp & _ & _ & _ & (_ & _ & _ & Hq) & _).
    rewrite Hprice in Hp. inversion Hp; subst.
    destruct (order_amount_inv _ _ _ Hq) as [Hnz _]. congruence.
Qed.

Lemma sizing_unchecked_witness :
  orders (snd (iteration (flat_env 100 (-1000) (answer "LONG" "-0.5" "0.02" "0.04"))
                         empty_db))
  = [MarketOrder Buy 5; ConditionalOrder STOP_MARKET Sell 5 98;
     ConditionalOrder TAKE_PROFIT_MARKET Sell 5 104]
  /\ investment 0 (PFloat 0.05) = Some 100%float
  /\ orders (snd (iteration (flat_env 0 1000 (answer "LONG" "0.05" "0.02" "0.04")) empty_db))
     = [].
Proof.
  split; [| split].
  - destruct (read_content (Some (answer "LONG" "-0.5" "0.02" "0.04"))) as [d |] eqn:Hd;
      [| vm_compute in Hd; discriminate].
    rewrite (proj1 (proj2 sizing_unchecked)
               (flat_env 100 (-1000) (answer "LONG" "-0.5" "0.02" "0.04")) empty_db
               100%float [] (answer "LONG" "-0.5" "0.02" "0.04") d true
               (-1000)%float 500%float 5%float 98%float 104%float).
    + reflexivity.
    + repeat split; try reflexivity.
      * exists []. split; reflexivity.
      * exact Hd.
      * vm_compute in Hd. inversion Hd. reflexivity.
    + vm_compute in Hd. inversion Hd. repeat split. eexists. split; reflexivity.
    + reflexivity.
    + reflexivity.
    + reflexivity.
    + reflexivity.
    + vm_compute in Hd. inversion Hd. reflexivity.
  - apply (proj1 sizing_unchecked 0%float (PFloat 0.05) 0%float). reflexivity.
  - apply (proj1 (proj2 (proj2 (proj2 sizing_unchecked)))
             (flat_env 0 1000 (answer "LONG" "0.05" "0.02" "0.04")) empty_db 0%float);
      reflexivity.
Defined.

(** C6, the counterexample: with no capital at all (a free balance of 0, so
    that [availableCapital > 0] fails), and again with a negative position
    size, the entry order is placed. *)
Lemma sizing_precondition_not_enforced :
  In (MarketOrder Buy 1)
     (snd (iteration (flat_env 100 0 (answer "LONG" "0.05" "0.02" "0.04")) empty_db))
  /\ In (MarketOrder Buy 1)
        (snd (iteration (flat_env 100 1000 (answer "LONG" "-0.5" "0.02" "0.04")) empty_db)).
Proof. split; vm_compute; auto 10. Qed.

(** ** Every case of a decision *)

Section Table.

Lemma leveraged_harmless (set : bool) (a rest : list event) :
  forallb harmless a = true -> leveraged set (a ++ rest) = leveraged set rest.
Proof.
  induction a as [| e a IH]; [reflexivity |].
  cbn [forallb app]. intros H. apply andb_prop in H as [He Ha].
  destruct e; try discriminate; cbn [leveraged]; auto.
Qed.

Lemma leveraged_app (set : bool) (a rest : list event) :
  leveraged set a = true -> forallb harmless rest = true ->
  leveraged set (a ++ rest) = true.
Proof.
  intros Ha Hr. revert set Ha. induction a as [| e a IH]; intros set Ha.
  - cbn [app]. rewrite <- (app_nil_r rest), leveraged_harmless by exact Hr. reflexivity.
  - destruct e; cbn [app leveraged] in *; auto.
    apply andb_prop in Ha as [-> Ha]. cbn [andb]. auto.
Qed.

Lemma leveraged_spec (set : bool) (ev1 ev2 : list event) (side : Side) (q : float) :
  leveraged set (ev1 ++ MarketOrder side q :: ev2) = true ->
  set = true \/ exists lev, In (SetLeverage lev) ev1.
Proof.
  revert set. induction ev1 as [| e ev1 IH]; intros set H.
  - cbn [app leveraged] in H. apply andb_prop in H as [H _]. auto.
  - destruct e; cbn [app leveraged] in H;
      try (destruct (IH _ H) as [Hs | (lev & Hl)];
           [auto | right; exists lev; right; exact Hl]; fail).
    + right. eexists. left. reflexivity.
    + apply andb_prop in H as [_ H].
      destruct (IH _ H) as [Hs | (lev & Hl)]; [auto | right; exists lev; right; exact Hl].
Qed.

Lemma harmless_cancelled (os : list (str * bool)) : forallb harmless (cancelled os) = true.
Proof.
  induction os as [| [oid ok] os IH]; [reflexivity |].
  cbn [cancelled]. destruct ok; [exact IH | reflexivity].
Qed.

Lemma harmless_prelude (env : Env) (price : float) (db : Db) :
  forallb harmless (prelude env price db) = true.
Proof.
  unfold prelude. rewrite !forallb_app.
  assert (H1 : forallb harmless (closure_events env price db) = true).
  { unfold closure_events. destruct (latest_open (trades db)) as [t |]; [| reflexivity].
    destruct (settle env price (trades db)); [| reflexivity].
    destruct (id t =? 0)%Z; [reflexivity |].
    destruct (profit_and_loss _ _ _ _); reflexivity. }
  assert (H2 : forallb harmless (cancel_events env) = true).
  { unfold cancel_events. destruct (open_orders env); [apply harmless_cancelled | reflexivity]. }
  rewrite H1, H2. reflexivity.
Qed.

Lemma ends_with_sleep_app (a ev : list event) :
  ends_with_sleep ev -> ends_with_sleep (a ++ ev).
Proof.
  intros (ev0 & n & -> & Hn). exists (a ++ ev0), n. rewrite app_assoc. auto.
Qed.

Ltac sleeps :=
  unfold minimum_notice; try destruct (_ <? _)%float;
  match goal with |- ends_with_sleep ?l => exists (removelast l) end;
  first [ exists 10%Z; split; [reflexivity | cbn; tauto]
        | exists 30%Z; split; [reflexivity | cbn; tauto]
        | exists 60%Z; split; [reflexivity | cbn; tauto] ].

Ltac leaf :=
  cbn [fst snd];
  split; [unfold minimum_notice; try destruct (_ <? _)%float; reflexivity |];
  split; [try (intros _; sleeps); try (intros; discriminate)
         | try (intros H; destruct H; reflexivity); try reflexivity; auto ].

(** Whatever the answer and the exchange, the decision of a pass places a
    market order only once it set a leverage, never raises, and when it ends
    the pass it does so after a wait. *)
Lemma block_table (env : Env) (price : float) (content : option str) (db : Db) :
  leveraged false (snd (decision_block env price content db)) = true
  /\ (fst (fst (decision_block env price content db)) = Continue ->
      ends_with_sleep (snd (decision_block env price content db)))
  /\ (fst (fst (decision_block env price content db)) <> Continue ->
      fst (fst (decision_block env price content db)) = Ret tt).
Proof.
  destruct content as [c |]; [| rewrite block_no_content; leaf].
  destruct (Json.loads (clean_response c)) as [j |] eqn:Hj;
    [| unfold decision_block; rewrite parse_failure_block by exact Hj; leaf].
  destruct (read_decision j) as [d |] eqn:Hd;
    [| rewrite (block_unreadable env price c db j Hj Hd); leaf].
  destruct (analysis_data_ok (analysis_data price d)) eqn:Hok;
    [| rewrite (block_unbindable env price c db j d Hj Hd Hok); leaf].
  destruct (direction d) as [| b | n | f | s | l | kv] eqn:Hs;
    try (rewrite (block_direction_not_text env price c db j d Hj Hd Hok)
           by (intros s'; rewrite Hs; discriminate); leaf; fail).
  destruct (PyStr.eqb (PyStr.lower s) (py "no_position")) eqn:Hno.
  { apply pystr_eqb_eq in Hno.
    rewrite (block_no_position env price c db j d Hj Hd Hok s Hs Hno). leaf. }
  destruct (balance_free env) as [cap |] eqn:Hcap;
    [| rewrite (block_no_balance env price c db j d Hj Hd Hok s Hs Hno Hcap); leaf].
  destruct (fmul cap (recommended_position_size d)) as [raw |] eqn:Hraw;
    [| rewrite (block_no_share env price c db j d Hj Hd Hok s Hs Hno cap Hcap Hraw); leaf].
  destruct (order_amount (minimum_order raw) price) as [q |] eqn:Hq;
    [| rewrite (block_no_amount env price c db j d Hj Hd Hok s Hs Hno cap Hcap raw Hraw Hq);
       leaf].
  destruct (set_leverage_ok env) eqn:Hlev;
    [| rewrite (block_leverage_rejected env price c db j d Hj Hd Hok s Hs Hno
                  cap Hcap raw Hraw q Hq Hlev); leaf].
  assert (Hdir : (exists long : bool,
                     PyStr.lower s = if long then py "long" else py "short")
                 \/ (PyStr.eqb (PyStr.lower s) (py "long") = false
                     /\ PyStr.eqb (PyStr.lower s) (py "short") = false)).
  { destruct (PyStr.eqb (PyStr.lower s) (py "long")) eqn:Hl;
      [left; exists true; apply pystr_eqb_eq; exact Hl |].
    destruct (PyStr.eqb (PyStr.lower s) (py "short")) eqn:Hsh;
      [left; exists false; apply pystr_eqb_eq; exact Hsh | right; auto]. }
  destruct Hdir as [[long Hlong] | [Hl Hsh]];
    [| rewrite (block_other_direction env price c db j d Hj Hd Hok s Hs Hno
                  cap Hcap raw Hraw q Hq Hlev Hl Hsh); leaf].
  destruct (entry_order_ok env) eqn:Hentry;
    [| rewrite (block_entry_rejected env price c db j d Hj Hd Hok s Hs
                  cap Hcap raw Hraw q Hq Hlev long Hlong Hentry); leaf].
  destruct (bracket long price (stop_loss_percentage d) (take_profit_percentage d))
    as [[sl tp] |] eqn:Hb;
    [| rewrite (block_no_bracket env price c db j d Hj Hd Hok s Hs
                  cap Hcap raw Hraw q Hq Hlev long Hlong Hentry Hb); leaf].
  destruct (stop_order_ok env) eqn:Hstop;
    [| rewrite (block_stop_rejected env price c db j d Hj Hd Hok s Hs
                  cap Hcap raw Hraw q Hq Hlev long Hlong Hentry sl tp Hb Hstop); leaf].
  destruct (take_profit_order_ok env) eqn:Htp;
    [| rewrite (block_take_profit_rejected env price c db j d Hj Hd Hok s Hs
                  cap Hcap raw Hraw q Hq Hlev long Hlong Hentry sl tp Hb Hstop Htp); leaf].
  destruct (trade_data_ok (trade_data long price q d (minimum_order raw) sl tp)) eqn:Htd.
  - rewrite (block_opened env price c db j d Hj Hd Hok s Hs
               cap Hcap raw Hraw q Hq Hlev long Hlong Hentry sl tp Hb Hstop Htp Htd). leaf.
  - rewrite (block_trade_unbindable env price c db j d Hj Hd Hok s Hs
               cap Hcap raw Hraw q Hq Hlev long Hlong Hentry sl tp Hb Hstop Htp Htd). leaf.
Qed.

End Table.

(** ** Every case of a pass *)

Section AllPasses.

Lemma no_ticker_pass (env : Env) (db : Db) :
  ticker_last env = None -> iteration env db = (db, [Print MsgLoopError; Sleep 5]).
Proof. intros H. unfold iteration, loop_body. rewrite H. reflexivity. Qed.

Lemma no_positions_pass (env : Env) (db : Db) (price : float) :
  ticker_last env = Some price -> positions env = None ->
  iteration env db = (db, [Print MsgLoopError; Sleep 5]).
Proof. intros Hp H. unfold iteration, loop_body. rewrite Hp, H. reflexivity. Qed.

Lemma pass_events (env : Env) (db : Db) :
  leveraged false (snd (iteration env db)) = true
  /\ ends_with_sleep (snd (iteration env db)).
Proof.
  assert (Herr : leveraged false [Print MsgLoopError; Sleep 5] = true
                 /\ ends_with_sleep [Print MsgLoopError; Sleep 5]).
  { split; [reflexivity |]. exists [Print MsgLoopError], 5%Z.
    split; [reflexivity | cbn; auto]. }
  destruct (ticker_last env) as [price |] eqn:Hp;
    [| rewrite (no_ticker_pass env db Hp); exact Herr].
  destruct (positions env) as [ps |] eqn:Hps;
    [| rewrite (no_positions_pass env db price Hp Hps); exact Herr].
  destruct (fst (current_position ps)) as [side |] eqn:Hside.
  - destruct (iteration env db) as [db' ev] eqn:H. cbn [snd].
    apply iteration_inv in H. rewrite Hp, Hps, Hside in H. destruct H as [_ H].
    destruct (latest_open (trades db)); [| destruct (trade_data_ok _)].
    + destruct H as [_ ->]. split; [reflexivity |]. exists [], 60%Z.
      split; [reflexivity | cbn; auto].
    + destruct H as [-> _]. split; [reflexivity |]. exists [Print MsgAdopted], 60%Z.
      split; [reflexivity | cbn; auto].
    + destruct H as [_ ->]. exact Herr.
  - destruct (settle env price (trades db)) as [ts |] eqn:Hs;
      [| rewrite (flat_pass_no_closure env db price ps Hp Hps Hside Hs); exact Herr].
    destruct (oracle env) as [content |] eqn:Ho.
    + assert (Hasks : asks env db price ts content).
      { repeat split; auto. exists ps. auto. }
      destruct (block_table env price content (mkDb ts (analyses db))) as (Hl & Hc & Hr).
      destruct (decision_block env price content (mkDb ts (analyses db)))
        as [[o db'] evb] eqn:Hb.
      rewrite (asks_pass env db price ts content o db' evb Hasks Hb).
      cbn [fst snd] in *. split.
      * rewrite leveraged_harmless by apply harmless_prelude.
        apply leveraged_app; [exact Hl |]. destruct o; reflexivity.
      * apply ends_with_sleep_app.
        destruct o as [[] | | e].
        -- exists evb, 60%Z. split; [reflexivity | cbn; auto].
        -- cbn [after_block]. rewrite app_nil_r. auto.
        -- assert (E : @Raise unit e = Ret tt) by (apply Hr; discriminate). discriminate.
    + rewrite (flat_pass_no_answer env db price ps ts Hp Hps Hside Hs Ho). cbn [snd].
      assert (E : closure_events env price db ++ cancel_events env
                  ++ [Sleep 5; Print MsgLoopError; Sleep 5]
                  = prelude env price db ++ [Print MsgLoopError; Sleep 5]).
      { unfold prelude. rewrite <- !app_assoc. reflexivity. }
      rewrite E. split.
      * rewrite leveraged_harmless by apply harmless_prelude. reflexivity.
      * apply ends_with_sleep_app. apply Herr.
Qed.

(** The orders of a pass are the first ones of the three of an opening. *)
Lemma pass_orders (env : Env) (db : Db) :
  exists (n : nat) (long : bool) (q sl tp : float),
    orders (snd (iteration env db))
    = firstn n [entry_order long q; stop_order long q sl; take_profit_order long q tp].
Proof.
  destruct (iteration env db) as [db' ev] eqn:H. cbn [snd].
  apply iteration_inv in H.
  assert (Hnone : orders ev = [] ->
                  exists (n : nat) (long : bool) (q sl tp : float),
                    orders ev = firstn n [entry_order long q; stop_order long q sl;
                                          take_profit_order long q tp]).
  { intros ->. exists 0%nat, true, 0%float, 0%float, 0%float. reflexivity. }
  destruct (ticker_last env) as [price |]; [| apply Hnone; destruct H as [_ ->]; reflexivity].
  destruct (positions env) as [ps |]; [| apply Hnone; destruct H as [_ ->]; reflexivity].
  destruct (fst (current_position ps)) as [side |].
  - apply Hnone. destruct H as [_ H].
    destruct (latest_open (trades db)); [| destruct (trade_data_ok _)];
      destruct H as [H1 H2]; subst; reflexivity.
  - destruct (settle env price (trades db)) as [ts |]; [| apply Hnone; tauto].
    destruct H as [[Ho _] | (long & cap & raw & q & d' & _ & _ & Hopen)]; [auto |].
    destruct Hopen as [(n & -> & _) | (sl & tp & _ & [(n & -> & _) | (-> & _)])].
    + exists (Nat.min n 1), long, q, 0%float, 0%float.
      destruct n as [| [| n]]; reflexivity.
    + exists n, long, q, sl, tp. reflexivity.
    + exists 3%nat, long, q, sl, tp. reflexivity.
Qed.

Lemma outage_run (envs : list Env) (db : Db) :
  Forall (fun env => ticker_last env = None \/ positions env = None) envs ->
  run envs db
  = (db, List.concat (map (fun _ => [Print MsgLoopError; Sleep 5]) envs)).
Proof.
  induction 1 as [| env envs Henv H IH]; [reflexivity |].
  cbn [run map List.concat].
  assert (Hit : iteration env db = (db, [Print MsgLoopError; Sleep 5])).
  { destruct (ticker_last env) as [price |] eqn:Hp.
    - destruct Henv as [Ht | Hps]; [discriminate |].
      apply (no_positions_pass env db price Hp Hps).
    - apply no_ticker_pass. exact Hp. }
  rewrite Hit, IH. reflexivity.
Qed.

End AllPasses.

(** X17. No market order without a leverage: whatever the exchange and the
    oracle answer, a market order that a pass places comes after that pass
    set a leverage on the exchange. *)
Theorem leverage_before_entry (env : Env) (db : Db) (ev1 ev2 : list event)
    (side : Side) (q : float) :
  snd (iteration env db) = ev1 ++ MarketOrder side q :: ev2 ->
  exists lev, In (SetLeverage lev) ev1.
Proof.
  intros H. destruct (pass_events env db) as [Hl _]. rewrite H in Hl.
  destruct (leveraged_spec false ev1 ev2 side q Hl) as [Hf | Hlev];
    [discriminate | exact Hlev].
Qed.

Lemma leverage_before_entry_witness :
  exists lev,
    In (SetLeverage lev)
       [Sleep 5; Print (MsgRawResponse (answer "LONG" "0.05" "0.02" "0.04"));
        Print MsgMinimumOrder; SetLeverage (JInt 3)].
Proof.
  apply (leverage_before_entry env_long empty_db
           [Sleep 5; Print (MsgRawResponse (answer "LONG" "0.05" "0.02" "0.04"));
            Print MsgMinimumOrder; SetLeverage (JInt 3)]
           [ConditionalOrder STOP_MARKET Sell 1 98;
            ConditionalOrder TAKE_PROFIT_MARKET Sell 1 104; Sleep 60]
           Buy 1).
  vm_compute. reflexivity.
Defined.

(** X18. The orders of a pass: whatever the exchange and the oracle
    answer, a pass places no order, or one market order, or that order and
    then exit orders for the same quantity on the other side, the stop-loss
    order first and the take-profit order after it; never more than these
    three, and never an exit order without the market order. *)
Theorem orders_of_a_pass (env : Env) (db : Db) :
  exists (n : nat) (long : bool) (q sl tp : float),
    orders (snd (iteration env db))
    = firstn n [MarketOrder (if long then Buy else Sell) q;
                ConditionalOrder STOP_MARKET (if long then Sell else Buy) q sl;
                ConditionalOrder TAKE_PROFIT_MARKET (if long then Sell else Buy) q tp].
Proof. apply pass_orders. Qed.

(** X19. Every pass waits: whatever the exchange and the oracle answer,
    and whatever fails, the last thing a pass does is to sleep, for 5, 10, 30
    or 60 seconds, so that the loop never turns without a pause. *)
Theorem every_pass_waits (env : Env) (db : Db) :
  exists ev0 n,
    snd (iteration env db) = ev0 ++ [Sleep n]
    /\ (n = 5 \/ n = 10 \/ n = 30 \/ n = 60)%Z.
Proof.
  destruct (pass_events env db) as [_ (ev0 & n & H & Hn)].
  exists ev0, n. split; [exact H |]. cbn in Hn. intuition.
Qed.

(** X20. The exchange is out of reach: passes in which the ticker or the
    positions cannot be read leave both tables as they are; each prints the
    error and waits 5 seconds, and the loop goes on. *)
Theorem exchange_outage (envs : list Env) (db : Db) :
  Forall (fun env => ticker_last env = None \/ positions env = None) envs ->
  run envs db
  = (db, List.concat (map (fun _ => [Print MsgLoopError; Sleep 5]) envs)).
Proof. apply outage_run. Qed.

Lemma exchange_outage_witness :
  run [mkEnv None None None None None true true true true [] [] [] [];
       mkEnv (Some 100%float) None None None None true true true true [] [] [] []]
      (db_open "long")
  = (db_open "long", [Print MsgLoopError; Sleep 5; Print MsgLoopError; Sleep 5]).
Proof.
  apply (exchange_outage
           [mkEnv None None None None None true true true true [] [] [] [];
            mkEnv (Some 100%float) None None None None true true true true [] [] [] []]
           (db_open "long")).
  constructor; [left; reflexivity |].
  constructor; [right; reflexivity | constructor].
Defined.

(** X21. The oracle is out of reach: in a pass without a position in which
    the call of the oracle (or the reading of the market before it) raises,
    the closure of the open trade stays written and the open orders stay
    cancelled; nothing else is written, no order is placed, and the pass
    prints the error and waits 5 seconds. *)
Theorem oracle_outage (env : Env) (db : Db) (price : float) (ts : list Trade) :
  ticker_last env = Some price ->
  flat env ->
  settle env price (trades db) = Some ts ->
  oracle env = None ->
  iteration env db
  = (mkDb ts (analyses db),
     closure_events env price db ++ cancel_events env
     ++ [Sleep 5; Print MsgLoopError; Sleep 5])
  /\ orders (snd (iteration env db)) = [].
Proof.
  intros Hp (ps & Hps & Hside) Hs Ho.
  rewrite (flat_pass_no_answer env db price ps ts Hp Hps Hside Hs Ho).
  split; [reflexivity |]. cbn [snd].
  assert (E : closure_events env price db ++ cancel_events env
              ++ [Sleep 5; Print MsgLoopError; Sleep 5]
              = prelude env price db ++ [Print MsgLoopError; Sleep 5]).
  { unfold prelude. rewrite <- !app_assoc. reflexivity. }
  rewrite E, orders_app, orders_prelude. reflexivity.
Qed.

Lemma oracle_outage_witness :
  map status
      (trades (fst (iteration
                      (mkEnv (Some 110%float) (Some []) (Some [(py "7", true)]) None None
                             true true true true
                             (py "2025-01-02T00:00:00") (py "2025-01-02T00:00:00")
                             (py "2025-01-02T00:00:00") (py "2024-12-26 00:00:00"))
                      (db_open "long"))))
  = [CLOSED].
Proof.
  destruct (oracle_outage
              (mkEnv (Some 110%float) (Some []) (Some [(py "7", true)]) None None
                     true true true true
                     (py "2025-01-02T00:00:00") (py "2025-01-02T00:00:00")
                     (py "2025-01-02T00:00:00") (py "2024-12-26 00:00:00"))
              (db_open "long") 110
              [update_row 1 CLOSED (Some 110%float) (Some (py "2025-01-02T00:00:00"))
                 (Some 10%float) (Some 10.000000000000009%float) (open_trade "long")])
    as [H _].
  - reflexivity.
  - exists []. split; reflexivity.
  - reflexivity.
  - reflexivity.
  - rewrite H. reflexivity.
Defined.

(** X22. A trade that cannot be closed: when the open trade has an entry
    price of zero (and a key that is not 0), the closure divides by it; the
    pass that finds no position then writes nothing, leaves the open orders
    as they are, does not ask the oracle, prints the error and waits 5
    seconds; and so does every later pass without a position: the trade
    stays open. *)
Theorem zero_entry_price_blocks (envs : list Env) (db : Db) (t : Trade) :
  latest_open (trades db) = Some t ->
  id t <> 0%Z ->
  (entry_price t =? 0)%float = true ->
  Forall (fun env => ticker_last env <> None /\ flat env) envs ->
  run envs db
  = (db, List.concat (map (fun _ => [Print MsgLoopError; Sleep 5]) envs)).
Proof.
  intros Ht Hid Hzero. induction 1 as [| env envs [Hp (ps & Hps & Hside)] H IH];
    [reflexivity |].
  cbn [run map List.concat].
  destruct (ticker_last env) as [price |] eqn:Hprice; [| destruct Hp; reflexivity].
  assert (Hs : settle env price (trades db) = None).
  { unfold settle. rewrite Ht. apply Z.eqb_neq in Hid. rewrite Hid.
    unfold profit_and_loss, fdiv. rewrite Hzero.
    destruct (PyStr.eqb (action t) (py "long")); reflexivity. }
  rewrite (flat_pass_no_closure env db price ps Hprice Hps Hside Hs), IH. reflexivity.
Qed.

Lemma zero_entry_price_blocks_witness :
  run [flat_env 110 1000 (answer "LONG" "0.05" "0.02" "0.04")]
      (mkDb [mkTrade 1 (py "2025-01-01T00:00:00") (py "long") 0 1 (JInt 1)
               0 0 0 0 0 0 OPEN None None None None] [])
  = (mkDb [mkTrade 1 (py "2025-01-01T00:00:00") (py "long") 0 1 (JInt 1)
             0 0 0 0 0 0 OPEN None None None None] [],
     [Print MsgLoopError; Sleep 5]).
Proof.
  apply (zero_entry_price_blocks
           [flat_env 110 1000 (answer "LONG" "0.05" "0.02" "0.04")]
           (mkDb [mkTrade 1 (py "2025-01-01T00:00:00") (py "long") 0 1 (JInt 1)
                    0 0 0 0 0 0 OPEN None None None None] [])
           (mkTrade 1 (py "2025-01-01T00:00:00") (py "long") 0 1 (JInt 1)
              0 0 0 0 0 0 OPEN None None None None)).
  - reflexivity.
  - discriminate.
  - reflexivity.
  - constructor; [| constructor]. split; [discriminate |].
    exists []. split; reflexivity.
Defined.


(** * The news *)

Section News.

Lemma news_items_map (l : list json) (items : list NewsItem) :
  news_items l = Some items -> map news_item l = map Some items.
Proof.
  revert items. induction l as [| news l IH]; intros items.
  - intros [= <-]. reflexivity.
  - cbn [news_items]. destruct (news_item news) as [item |] eqn:E; [| discriminate].
    destruct (news_items l) as [rest |]; [| discriminate].
    intros [= <-]. cbn [map]. rewrite E, (IH rest eq_refl). reflexivity.
Qed.

Lemma news_items_objects (l : list json) :
  Forall (fun news => exists kv, news = JObj kv) l ->
  news_items l
  = Some (map (fun news =>
                 match news with
                 | JObj kv => mkNewsItem (dict_get_default (py "title") kv (JStr []))
                                         (dict_get_default (py "date") kv (JStr []))
                 | _ => mkNewsItem (JStr []) (JStr [])
                 end) l).
Proof.
  induction 1 as [| news l [kv ->] H IH]; [reflexivity |].
  cbn [news_items news_item map]. rewrite IH. reflexivity.
Qed.

Lemma news_items_not_object (l1 l2 : list json) (news : json) :
  news_item news = None -> news_items (l1 ++ news :: l2) = None.
Proof.
  intros H. induction l1 as [| x l1 IH]; cbn [app news_items].
  - rewrite H. reflexivity.
  - destruct (news_item x); [rewrite IH |]; reflexivity.
Qed.

Lemma news_items_length (l : list json) (items : list NewsItem) :
  news_items l = Some items -> List.length items = List.length l.
Proof.
  intros H. apply news_items_map in H.
  rewrite <- (length_map Some items), <- H. apply length_map.
Qed.

End News.

(** X23. The news are the first ten, or none: [fetch_bitcoin_news] never
    returns more than ten items; when it returns any, the answer had the
    status 200 and a list under ["news_results"], and the items are those of
    the first ten entries of that list, in their order, every one of which
    is an object. *)
Theorem news_first_ten_or_none (response : option Response) :
  (List.length (fetch_bitcoin_news response) <= 10)%nat
  /\ (fetch_bitcoin_news response = []
      \/ exists r data entries,
          response = Some r /\ status_code r = 200%Z
          /\ json_body r = Some (JObj data)
          /\ dict_get (py "news_results") data = Some (JArr entries)
          /\ map news_item (firstn 10 entries) = map Some (fetch_bitcoin_news response)).
Proof.
  unfold fetch_bitcoin_news, fetch_news.
  destruct response as [r |]; [| split; [cbn; lia | left; reflexivity]].
  destruct (Z.eqb_spec (status_code r) 200) as [Hs | Hs];
    [| split; [cbn; lia | left; reflexivity]].
  destruct (json_body r) as [[| b | n | f | s | l | data] |] eqn:Hb;
    try (split; [cbn; lia | left; reflexivity]).
  unfold dict_get_default.
  destruct (dict_get (py "news_results") data) as [[| b | n | f | s | entries | kv] |] eqn:Hd;
    cbn [slice10]; try (split; [cbn; lia | left; reflexivity]).
  - destruct (firstn 10 s) as [| ch chs]; cbn; (split; [lia | left; reflexivity]).
  - destruct (news_items (firstn 10 entries)) as [items |] eqn:Hi;
      [| split; [cbn; lia | left; reflexivity]].
    split.
    + rewrite (news_items_length _ _ Hi). apply firstn_le_length.
    + right. exists r, data, entries. repeat split; auto.
      apply news_items_map. exact Hi.
Qed.

(** X24. The news of a good answer: when the answer has the status 200 and
    a list under ["news_results"] whose first ten entries are objects,
    [fetch_bitcoin_news] returns one item for each of these entries, in their
    order, with the values under ["title"] and ["date"], and the empty string
    for a key that is missing; an entry among them that is not an object
    makes the result empty. *)
Theorem news_of_a_good_answer (r : Response) (data : list (str * json))
    (entries : list json) :
  status_code r = 200%Z ->
  json_body r = Some (JObj data) ->
  dict_get (py "news_results") data = Some (JArr entries) ->
  (Forall (fun news => exists kv, news = JObj kv) (firstn 10 entries) ->
   fetch_bitcoin_news (Some r)
   = map (fun news =>
            match news with
            | JObj kv => mkNewsItem (dict_get_default (py "title") kv (JStr []))
                                    (dict_get_default (py "date") kv (JStr []))
            | _ => mkNewsItem (JStr []) (JStr [])
            end) (firstn 10 entries)
   /\ List.length (fetch_bitcoin_news (Some r)) = Nat.min 10 (List.length entries))
  /\ (forall news, In news (firstn 10 entries) -> (forall kv, news <> JObj kv) ->
                   fetch_bitcoin_news (Some r) = []).
Proof.
  intros Hs Hb Hd. unfold fetch_bitcoin_news, fetch_news, dict_get_default.
  rewrite Hs, Hb, Hd. cbn [Z.eqb Pos.eqb slice10]. split.
  - intros Hobj. rewrite (news_items_objects _ Hobj). split; [reflexivity |].
    rewrite length_map. apply length_firstn.
  - intros news Hin Hno. apply in_split in Hin. destruct Hin as (l1 & l2 & ->).
    rewrite news_items_not_object; [reflexivity |].
    destruct news; try reflexivity. destruct (Hno kv eq_refl).
Qed.

Lemma news_of_a_good_answer_witness :
  fetch_bitcoin_news
    (news_response [JObj [(py "title", JStr (py "Bitcoin rises")); (py "date", JStr (py "today"))];
                    JObj [(py "title", JStr (py "Bitcoin falls"))]])
  = [mkNewsItem (JStr (py "Bitcoin rises")) (JStr (py "today"));
     mkNewsItem (JStr (py "Bitcoin falls")) (JStr [])].
Proof.
  apply (proj1 (news_of_a_good_answer
                  (mkResponse 200
                     (Some (JObj [(py "news_results",
                                   JArr [JObj [(py "title", JStr (py "Bitcoin rises"));
                                               (py "date", JStr (py "today"))];
                                         JObj [(py "title", JStr (py "Bitcoin falls"))]])])))
                  [(py "news_results",
                    JArr [JObj [(py "title", JStr (py "Bitcoin rises"));
                                (py "date", JStr (py "today"))];
                          JObj [(py "title", JStr (py "Bitcoin falls"))]])]
                  [JObj [(py "title", JStr (py "Bitcoin rises")); (py "date", JStr (py "today"))];
                   JObj [(py "title", JStr (py "Bitcoin falls"))]]
                  eq_refl eq_refl eq_refl)).
  repeat constructor; eexists; reflexivity.
Defined.


(** * The past trades *)

Section Historical.

Lemma in_insert_desc (x y : Trade * option Analysis) (l : list (Trade * option Analysis)) :
  In y (insert_desc x l) <-> y = x \/ In y l.
Proof.
  induction l as [| z l IH]; cbn [insert_desc In]; [intuition |].
  destruct (PyStr.ltb _ _); cbn [In]; [rewrite IH |]; intuition.
Qed.

Lemma in_sort_desc (y : Trade * option Analysis) (l : list (Trade * option Analysis)) :
  In y (sort_desc l) <-> In y l.
Proof.
  induction l as [| x l IH]; [reflexivity |].
  cbn [sort_desc fold_right In]. fold (sort_desc l).
  rewrite in_insert_desc, IH. intuition.
Qed.

Lemma length_insert_desc (x : Trade * option Analysis) (l : list (Trade * option Analysis)) :
  List.length (insert_desc x l) = S (List.length l).
Proof.
  induction l as [| z l IH]; [reflexivity |].
  cbn [insert_desc]. destruct (PyStr.ltb _ _); cbn [List.length]; auto.
Qed.

Lemma length_sort_desc (l : list (Trade * option Analysis)) :
  List.length (sort_desc l) = List.length l.
Proof.
  induction l as [| x l IH]; [reflexivity |].
  cbn [sort_desc fold_right]. fold (sort_desc l).
  rewrite length_insert_desc, IH. reflexivity.
Qed.

Lemma hdrel_insert_desc (a x : Trade * option Analysis) (l : list (Trade * option Analysis)) :
  not_earlier a x -> HdRel not_earlier a l -> HdRel not_earlier a (insert_desc x l).
Proof.
  intros Hax Hl. destruct l as [| y l]; cbn [insert_desc]; [constructor; exact Hax |].
  destruct (PyStr.ltb _ _); constructor; [| exact Hax].
  inversion Hl. assumption.
Qed.

Lemma sorted_insert_desc (x : Trade * option Analysis) (l : list (Trade * option Analysis)) :
  Sorted not_earlier l -> Sorted not_earlier (insert_desc x l).
Proof.
  induction 1 as [| y l Hs IH Hhd]; cbn [insert_desc]; [repeat constructor |].
  destruct (PyStr.ltb (timestamp (fst x)) (timestamp (fst y))) eqn:E.
  - constructor; [exact IH |]. apply hdrel_insert_desc; [| exact Hhd].
    unfold not_earlier. apply ltb_leb. exact E.
  - constructor; [constructor; assumption |]. constructor.
    unfold not_earlier, PyStr.leb. rewrite E. reflexivity.
Qed.

Lemma sorted_sort_desc (l : list (Trade * option Analysis)) :
  Sorted not_earlier (sort_desc l).
Proof.
  induction l as [| x l IH]; [constructor |].
  cbn [sort_desc fold_right]. apply sorted_insert_desc. exact IH.
Qed.

Lemma sorted_firstn (n : nat) (l : list (Trade * option Analysis)) :
  Sorted not_earlier l -> Sorted not_earlier (firstn n l).
Proof.
  intros H. revert n. induction H as [| y l Hs IH Hhd]; intros [| n]; cbn [firstn];
    try constructor; auto.
  destruct Hhd as [| z l' Hyz]; [destruct n; constructor |].
  destruct n; constructor. exact Hyz.
Qed.

Lemma in_joined (an : list Analysis) (t : Trade) (r : Trade * option Analysis) :
  In r (joined an t) ->
  fst r = t
  /\ match snd r with
     | Some a => In a an /\ a_trade_id a = Some (id t)
     | None => analyses_of (id t) an = []
     end.
Proof.
  unfold joined. destruct (analyses_of (id t) an) as [| a0 l] eqn:E.
  - intros [<- | []]. split; reflexivity.
  - rewrite <- E. intros Hin. apply in_map_iff in Hin. destruct Hin as (a & <- & Ha).
    cbn [fst snd]. split; [reflexivity |].
    unfold analyses_of in Ha. apply filter_In in Ha. destruct Ha as [Ha Hk].
    split; [exact Ha |]. destruct (a_trade_id a) as [k |]; [| discriminate].
    apply Z.eqb_eq in Hk. subst. reflexivity.
Qed.

Lemma length_joined_one (an : list Analysis) (rows : list Trade) :
  (forall k, (List.length (analyses_of k an) <= 1)%nat) ->
  List.length (flat_map (joined an) rows) = List.length rows.
Proof.
  intros H. induction rows as [| t rows IH]; [reflexivity |].
  cbn [flat_map]. rewrite length_app, IH. unfold joined.
  specialize (H (id t)). destruct (analyses_of (id t) an) as [| a [| b l]];
    cbn [List.length map] in *; lia.
Qed.

Lemma historical_in (limit : Z) (db : Db) (r : Trade * option Analysis) :
  In r (get_historical_trading_data limit db) ->
  In r (flat_map (joined (analyses db)) (filter is_closed (trades db))).
Proof.
  unfold get_historical_trading_data. cbv zeta. intros H.
  apply in_sort_desc. destruct (limit <? 0)%Z; [exact H |].
  eapply in_firstn. exact H.
Qed.

End Historical.

(** X25. The rows of the past trades: every row that
    [get_historical_trading_data] returns is made of a trade of [trades] whose
    status is ['CLOSED'] and of an analysis that is linked to that trade, or
    of none when no analysis is; no row is earlier than the row after it;
    and there are at most [limit] rows when [limit] is not negative. *)
Theorem historical_rows (limit : Z) (db : Db) :
  Forall (fun r =>
            In (fst r) (trades db) /\ status (fst r) = CLOSED
            /\ match snd r with
               | Some a => In a (analyses db) /\ a_trade_id a = Some (id (fst r))
               | None => analyses_of (id (fst r)) (analyses db) = []
               end)
         (get_historical_trading_data limit db)
  /\ Sorted not_earlier (get_historical_trading_data limit db)
  /\ ((0 <= limit)%Z ->
      (Z.of_nat (List.length (get_historical_trading_data limit db)) <= limit)%Z).
Proof.
  split; [| split].
  - apply Forall_forall. intros r Hr. apply historical_in in Hr.
    apply in_flat_map in Hr. destruct Hr as (t & Ht & Hr).
    apply filter_In in Ht. destruct Ht as [Hin Hc].
    apply in_joined in Hr. destruct Hr as [-> Hr].
    repeat split; [exact Hin | | exact Hr].
    unfold is_closed in Hc. destruct (status t); [discriminate | reflexivity].
  - unfold get_historical_trading_data. cbv zeta.
    destruct (limit <? 0)%Z; [apply sorted_sort_desc |].
    apply sorted_firstn. apply sorted_sort_desc.
  - intros Hl. unfold get_historical_trading_data. cbv zeta.
    destruct (Z.ltb_spec limit 0); [lia |].
    pose proof (firstn_le_length (Z.to_nat limit)
                  (sort_desc (flat_map (joined (analyses db))
                                       (filter is_closed (trades db))))).
    rewrite length_firstn. lia.
Qed.

Lemma historical_rows_witness :
  (Z.of_nat (List.length
               (get_historical_trading_data 10
                  (fst (run [env_long; flat_env 110 1000 (py "no")] empty_db)))) <= 10)%Z.
Proof.
  apply (proj2 (proj2 (historical_rows 10
                         (fst (run [env_long; flat_env 110 1000 (py "no")] empty_db))))).
  lia.
Defined.

(** X26. The past trades of the loop: after any passes from empty tables
    every closed trade makes one row of the join, so that
    [get_historical_trading_data(limit)] returns as many rows as there are
    closed trades, or [limit] of them when there are more. *)
Theorem historical_rows_of_the_loop (envs : list Env) (limit : Z) :
  (0 <= limit)%Z ->
  List.length (get_historical_trading_data limit (fst (run envs empty_db)))
  = Nat.min (Z.to_nat limit)
            (List.length (filter is_closed (trades (fst (run envs empty_db))))).
Proof.
  intros Hl.
  destruct (run_consistent envs empty_db consistent_empty) as (_ & _ & _ & Hnd & _).
  unfold get_historical_trading_data. cbv zeta.
  destruct (Z.ltb_spec limit 0); [lia |].
  rewrite length_firstn, length_sort_desc, length_joined_one; [reflexivity |].
  intros k. apply analyses_of_le. exact Hnd.
Qed.

Lemma historical_rows_of_the_loop_witness :
  List.length (get_historical_trading_data 10
                 (fst (run [env_long; flat_env 110 1000 (py "no")] empty_db)))
  = 1%nat.
Proof.
  rewrite (historical_rows_of_the_loop [env_long; flat_env 110 1000 (py "no")] 10);
    [| lia].
  vm_compute. reflexivity.
Defined.

(** * Cancelling, and an opening fence alone *)

Section Cancelling.

Lemma cancelled_all (os : list (str * bool)) :
  forallb snd os = true -> cancelled os = map (fun o => CancelOrder (fst o)) os.
Proof.
  induction os as [| [oid ok] os IH]; [reflexivity |].
  cbn [forallb snd cancelled map fst]. intros H. apply andb_prop in H as [-> H].
  rewrite (IH H). reflexivity.
Qed.

Lemma cancelled_until (os1 os2 : list (str * bool)) (oid : str) :
  forallb snd os1 = true ->
  cancelled (os1 ++ (oid, false) :: os2) = map (fun o => CancelOrder (fst o)) os1.
Proof.
  induction os1 as [| [oid1 ok] os1 IH]; [reflexivity |].
  cbn [forallb snd app cancelled map fst]. intros H. apply andb_prop in H as [-> H].
  rewrite (IH H). reflexivity.
Qed.

End Cancelling.

(** X27. The open orders are cancelled one by one: the cancelling of lines
    684 to 693 never raises and writes nothing; it cancels every open order,
    in the order the exchange listed them, when every cancellation goes
    through; when one raises, the orders before it are cancelled and those
    after it are left open; and nothing is cancelled when the orders cannot
    be listed. *)
Theorem open_orders_are_cancelled (env : Env) (db : Db) :
  cancel_remaining_orders env db = (Ret tt, db, cancel_events env)
  /\ (forall os, open_orders env = Some os -> forallb snd os = true ->
                 cancel_events env = map (fun o => CancelOrder (fst o)) os)
  /\ (forall os1 oid os2,
         open_orders env = Some (os1 ++ (oid, false) :: os2) ->
         forallb snd os1 = true ->
         cancel_events env = map (fun o => CancelOrder (fst o)) os1)
  /\ (open_orders env = None -> cancel_events env = []).
Proof.
  split; [apply cancel_remaining_orders_eq |]. unfold cancel_events.
  split; [| split].
  - intros os -> H. apply cancelled_all. exact H.
  - intros os1 oid os2 -> H. apply cancelled_until. exact H.
  - intros ->. reflexivity.
Qed.

Lemma open_orders_are_cancelled_witness :
  cancel_events
    (mkEnv (Some 100%float) (Some [])
           (Some [(py "11", true); (py "12", false); (py "13", true)])
           None None true true true true [] [] [] [])
  = [CancelOrder (py "11")].
Proof.
  apply (proj1 (proj2 (proj2 (open_orders_are_cancelled
                                (mkEnv (Some 100%float) (Some [])
                                       (Some [(py "11", true); (py "12", false);
                                              (py "13", true)])
                                       None None true true true true [] [] [] [])
                                empty_db)))
           [(py "11", true)] (py "12") [(py "13", true)]).
  - reflexivity.
  - reflexivity.
Defined.

Section OpeningFence.

Import PyStr.

(** What is not in a text is not at the start of what follows a part of
    it. *)
Lemma contains_suffix (sep a b : str) :
  contains sep (a ++ b) = false -> startswith sep b = false.
Proof.
  induction a as [| x a IH]; cbn [app].
  - destruct b; cbn [contains]; intros H; apply orb_false_elim in H; tauto.
  - cbn [contains]. intros H. apply orb_false_elim in H. tauto.
Qed.

Lemma contains_cons (sep : str) (x : N) (s : str) :
  contains sep (x :: s) = false -> contains sep s = false.
Proof. cbn [contains]. intros H. apply orb_false_elim in H. tauto. Qed.

(** A text that ends with a character that is not white space is stripped
    to what follows its white space on the left. *)
Lemma strip_ends_nonspace (body : str) (c : N) :
  isspace c = false ->
  exists w y, body = w ++ y /\ strip (body ++ [c]) = y ++ [c].
Proof.
  intros Hc. unfold strip. induction body as [| x body IH].
  - exists [], []. split; [reflexivity |]. cbn [app lstrip]. rewrite Hc.
    apply (rstrip_nonspace [] c Hc).
  - cbn [app lstrip]. destruct (isspace x).
    + destruct IH as (w & y & -> & H). exists (x :: w), y. auto.
    + exists [], (x :: body). split; [reflexivity |].
      apply (rstrip_nonspace (x :: body) c Hc).
Qed.

Lemma clean_response_unfenced (body w2 : str) (c : N) :
  forallb isspace w2 = true -> isspace c = false ->
  contains fence (body ++ [c]) = false ->
  clean_response (body ++ c :: w2) = strip (body ++ [c]).
Proof.
  intros H2 Hc Hno. unfold clean_response.
  change (body ++ c :: w2) with (body ++ [c] ++ w2).
  rewrite app_assoc, strip_app_spaces by exact H2.
  destruct (strip_ends_nonspace body c Hc) as (w & y & Hb & Hs).
  rewrite Hs.
  assert (Hstart : startswith fence (y ++ [c]) = false).
  { apply (contains_suffix fence w). rewrite app_assoc, <- Hb. exact Hno. }
  rewrite Hstart. reflexivity.
Qed.

Lemma clean_response_opening_fence (w1 info body w2 : str) (c : N) :
  forallb isspace w1 = true -> forallb isspace w2 = true ->
  one_line info = true -> isspace c = false ->
  contains fence (body ++ [c]) = false ->
  clean_response (w1 ++ fence ++ info ++ 10%N :: body ++ c :: w2)
  = strip (body ++ [c]).
Proof.
  intros H1 H2 Hinfo Hc Hno. unfold clean_response.
  assert (E : w1 ++ fence ++ info ++ 10%N :: body ++ c :: w2
              = w1 ++ (96%N :: ([96; 96]%N ++ info ++ 10%N :: body) ++ [c]) ++ w2).
  { change fence with [96; 96; 96]%N.
    repeat first [rewrite <- app_assoc | rewrite <- app_comm_cons]. reflexivity. }
  rewrite E, strip_between by (auto; reflexivity).
  assert (E2 : 96%N :: ([96; 96]%N ++ info ++ 10%N :: body) ++ [c]
               = (fence ++ info) ++ 10%N :: (body ++ [c])).
  { change fence with [96; 96; 96]%N.
    repeat first [rewrite <- app_assoc | rewrite <- app_comm_cons]. reflexivity. }
  rewrite E2. rewrite <- app_assoc at 1. rewrite startswith_app.
  rewrite split_nl1_first by (unfold one_line in Hinfo; rewrite forallb_app, Hinfo; reflexivity).
  rewrite Hno. reflexivity.
Qed.

End OpeningFence.

(** X28. An opening fence alone: an answer that opens a fence and never
    closes it (white space, a fence, the rest of its line, then a payload
    that holds no fence) is cleaned to what the payload alone is cleaned to,
    so that the same decision is read in both. *)
Theorem opening_fence_is_removed (w1 info body w2 : str) (c : N) :
  forallb PyStr.isspace w1 = true ->
  forallb PyStr.isspace w2 = true ->
  one_line info = true ->
  PyStr.isspace c = false ->
  PyStr.contains fence (body ++ [c]) = false ->
  clean_response (w1 ++ fence ++ info ++ 10%N :: body ++ c :: w2)
  = clean_response (body ++ c :: w2)
  /\ read_content (Some (w1 ++ fence ++ info ++ 10%N :: body ++ c :: w2))
     = read_content (Some (body ++ c :: w2)).
Proof.
  intros H1 H2 Hinfo Hc Hno.
  assert (E : clean_response (w1 ++ fence ++ info ++ 10%N :: body ++ c :: w2)
              = clean_response (body ++ c :: w2)).
  { rewrite clean_response_opening_fence, clean_response_unfenced by assumption.
    reflexivity. }
  split; [exact E |]. unfold read_content. rewrite E. reflexivity.
Qed.

Lemma opening_fence_is_removed_witness :
  read_content (Some (fence ++ py "json" ++ 10%N :: payload "LONG" "0.05" "0.02" "0.04"))
  = read_content (Some (payload "LONG" "0.05" "0.02" "0.04"))
  /\ read_content (Some (payload "LONG" "0.05" "0.02" "0.04")) <> None.
Proof.
  split; [| vm_compute; discriminate].
  apply (proj2 (opening_fence_is_removed [] (py "json")
                  (removelast (payload "LONG" "0.05" "0.02" "0.04")) [] 125%N
                  eq_refl eq_refl eq_refl eq_refl eq_refl)).
Defined.
